(** * go-ddns: a dynamic DNS updater for GoDaddy A records

    A shallow embedding of the repository's Go sources and the proofs of
    the properties its specification states about them.

    The repository holds two revisions of the updater:
    - [Cached]: the first [main.go]; it keeps the last IP it published in
      the global [lastIPAddr] and writes every domain when the public IP
      moves away from it;
    - [PerCycle]: the second [main.go] with the GoDaddy client file; it
      reads each domain's record on every cycle and writes the domains
      whose record differs from the public IP.

    Network, clock and the JSON codec are the program's environment: the
    HTTP round trip is a transition on an abstract world, and every call
    is recorded, with what it returned, in a trace the theorems speak
    about. The timer and the shutdown signal of [main] are left to the
    caller: a cycle is one call of the function the loop runs at every
    tick. *)

From Stdlib Require Import String Ascii List ZArith Lia Bool.
From Stdlib Require Import Decimal DecimalString.
Import ListNotations.
Open Scope list_scope.
Open Scope string_scope.

(** * Go values *)

(** An [error] is modelled by its [Error()] text; the nil error is the
    [Ok] side of a [result] or [None] in an [option error]. *)
Definition error : Type := string.

Inductive result (A : Type) : Type :=
| Ok (a : A)
| Err (err : error).
Arguments Ok {A} a.
Arguments Err {A} err.

(** What a call does besides returning: a Go run-time panic unwinds every
    caller up to the goroutine, which ends the process. *)
Inductive Outcome (A : Type) : Type :=
| Done (a : A)
| Panicked (msg : string).
Arguments Done {A} a.
Arguments Panicked {A} msg.

(** [%d] of [fmt]. *)
Definition fmtInt (z : Z) : string := NilZero.string_of_int (Z.to_int z).

(** ** Package [strings] *)
Module strings.

(** [strings.Split(s, sep)] for a separator of one byte: the pieces of
    [s] between the occurrences of [sep], one more piece than there are
    occurrences. *)
Fixpoint Split (s : string) (sep : ascii) : list string :=
  match s with
  | EmptyString => [EmptyString]
  | String c rest =>
      if Ascii.eqb c sep then EmptyString :: Split rest sep
      else match Split rest sep with
           | [] => [String c EmptyString]
           | piece :: pieces => String c piece :: pieces
           end
  end.

Fixpoint contains (cutset : string) (c : ascii) : bool :=
  match cutset with
  | EmptyString => false
  | String d cutset' => Ascii.eqb c d || contains cutset' c
  end.

(** [strings.TrimRight(s, cutset)] for a cutset of ASCII bytes: [s]
    without its longest suffix made of bytes of [cutset]. *)
Fixpoint TrimRight (s cutset : string) : string :=
  match s with
  | EmptyString => EmptyString
  | String c rest =>
      match TrimRight rest cutset with
      | EmptyString => if contains cutset c then EmptyString
                       else String c EmptyString
      | kept => String c kept
      end
  end.

End strings.

(** ** Package [io] *)
Module io.

(** A stream as a reader meets it: the bytes it yields and the error, if
    any, that ends it in place of the end of the stream. *)
Record Reader : Type := mkReader {
  bytes : string;
  readErr : option error
}.

(** [io.ReadAll] (and [ioutil.ReadAll]): the bytes read before the end
    or the error, and that error. *)
Definition ReadAll (r : Reader) : string * option error :=
  (bytes r, readErr r).

End io.

(** ** Package [net/http] *)
Module http.

Record Request : Type := mkRequest {
  Method : string;
  URL : string;
  Header : list (string * string);
  Payload : option string
}.

(** A response as the program uses it: the status code and the body
    stream. *)
Record Response : Type := mkResponse {
  StatusCode : Z;
  Body : io.Reader
}.

Definition StatusOK : Z := 200.

(** [req.Header.Set] and [req.Header.Add] on a key the request does not
    carry yet (the only use the program makes of them). *)
Definition HeaderSet (req : Request) (key value : string) : Request :=
  {| Method := Method req; URL := URL req;
     Header := (Header req ++ [(key, value)])%list; Payload := Payload req |}.

End http.

(** ** Logging (logrus) *)
Inductive Level : Type := TraceLevel | DebugLevel | InfoLevel | WarnLevel | ErrorLevel | FatalLevel.

(** * The environment *)

(** The process configuration, the globals [init] fills in and nothing
    changes afterwards. [updateInterval] is a [time.Duration], a count of
    nanoseconds. *)
Record Config : Type := mkConfig {
  updateInterval : Z;
  apiKey : string;
  apiSecret : string;
  domains : list string
}.

(** What the program reaches through the Go libraries and the network. *)
Record Platform : Type := mkPlatform {
  World : Type;
  (** [Client.Do] of [net/http]: the transport either fails with an error or
      delivers a response; either way the world moves on. *)
  roundTrip : http.Request -> World -> result http.Response * World;
  (** [url.Parse] inside [http.NewRequest]: [Some err] when the URL is
      refused. *)
  urlParse : string -> option error;
  (** [time.Now().Format(dateTimeFormat)]. *)
  now : World -> string;
  (** [time.Now().Add(d).Format(dateTimeFormat)]. *)
  nowPlus : World -> Z -> string
}.

(** Everything observable a run does, in the order it happens. *)
Inductive Event : Type :=
| EvHttp (req : http.Request) (res : result http.Response)
| EvLog (lvl : Level) (msg : string).

(** The state of a run: the world, the trace so far and the program's
    mutable globals [G]. *)
Record State (P : Platform) (G : Type) : Type := mkState {
  world : World P;
  trace : list Event;
  globals : G
}.
Arguments mkState {P G} world trace globals.
Arguments world {P G} s.
Arguments trace {P G} s.
Arguments globals {P G} s.

(** ** The monad of the embedding: state passing with panics *)
Section Monad.
Context {P : Platform} {G : Type}.

Definition M (A : Type) : Type := State P G -> Outcome A * State P G.

Definition ret {A} (a : A) : M A := fun st => (Done a, st).

Definition bind {A B} (m : M A) (k : A -> M B) : M B :=
  fun st =>
    match m st with
    | (Done a, st') => k a st'
    | (Panicked msg, st') => (Panicked msg, st')
    end.

Definition panic {A} (msg : string) : M A := fun st => (Panicked msg, st).

Definition emit (ev : Event) : M unit :=
  fun st => (Done tt, mkState (world st) (trace st ++ [ev])%list (globals st)).

(** [log.Tracef] ... [log.Errorf]: the call is recorded whatever the
    configured level lets through. *)
Definition logf (lvl : Level) (msg : string) : M unit := emit (EvLog lvl msg).

(** [http.NewRequestWithContext(ctx, method, url, body)] for the valid
    methods the program passes and a non-nil context. *)
Definition NewRequest (method url : string) (body : option string) : result http.Request :=
  match urlParse P url with
  | Some err => Err err
  | None => Ok (http.mkRequest method url [] body)
  end.

(** [httpClient.Do(req)]; a cancelled context shows as a transport
    error. *)
Definition Do (req : http.Request) : M (result http.Response) :=
  fun st =>
    let (res, w) := roundTrip P req (world st) in
    (Done res, mkState w (trace st ++ [EvHttp req res])%list (globals st)).

Definition timeNow : M string := fun st => (Done (now P (world st)), st).
Definition timeNowAdd (d : Z) : M string := fun st => (Done (nowPlus P (world st) d), st).

Definition getGlobals : M G := fun st => (Done (globals st), st).
Definition setGlobals (g : G) : M unit :=
  fun st => (Done tt, mkState (world st) (trace st) g).

End Monad.

Declare Scope go_scope.
Delimit Scope go_scope with go.
Notation "x <- m ;; k" := (bind m (fun x => k))
  (at level 61, m at next level, right associativity) : go_scope.
Notation "m ;; k" := (bind m (fun _ => k))
  (at level 61, right associativity) : go_scope.
Open Scope go_scope.

(** ** Reading a trace *)

Definition isMethod (method : string) (ev : Event) : bool :=
  match ev with
  | EvHttp req _ => http.Method req =? method
  | EvLog _ _ => false
  end.

Definition isLogEvent (ev : Event) : bool :=
  match ev with
  | EvLog _ _ => true
  | EvHttp _ _ => false
  end.

(** A call to the DNS provider: a request under the GoDaddy base URL. *)
Definition isProviderCall (ev : Event) : bool :=
  match ev with
  | EvHttp req _ => prefix "https://api.godaddy.com" (http.URL req)
  | EvLog _ _ => false
  end.

(** The URLs of the requests of a method, in the order they were sent. *)
Fixpoint requestURLs (method : string) (evs : list Event) : list string :=
  match evs with
  | [] => []
  | EvHttp req _ :: rest =>
      if http.Method req =? method then http.URL req :: requestURLs method rest
      else requestURLs method rest
  | EvLog _ _ :: rest => requestURLs method rest
  end.

(** A write the provider did not confirm: a PUT that met a transport
    error or a status other than 200. *)
Definition isFailedWrite (ev : Event) : bool :=
  match ev with
  | EvHttp req res =>
      (http.Method req =? "PUT") &&
      match res with
      | Err _ => true
      | Ok resp => negb (http.StatusCode resp =? 200)%Z
      end
  | EvLog _ _ => false
  end.

(** A write the provider confirmed with status 200. *)
Definition isConfirmedWrite (url : string) (payload : string) (ev : Event) : Prop :=
  exists req resp,
    ev = EvHttp req (Ok resp) /\ http.Method req = "PUT" /\ http.URL req = url /\
    http.Payload req = Some payload /\ http.StatusCode resp = 200%Z.

(** Whether [http.NewRequest] accepts the URL. *)
Definition urlAccepted (P : Platform) (url : string) : bool :=
  match urlParse P url with
  | None => true
  | Some _ => false
  end.

(** A request sent to the URL. *)
Definition isCallTo (url : string) (ev : Event) : bool :=
  match ev with
  | EvHttp req _ => http.URL req =? url
  | EvLog _ _ => false
  end.

(** [Subseq l1 l2]: [l1] is [l2] with some of its elements left out. *)
Inductive Subseq {A : Type} : list A -> list A -> Prop :=
| Subseq_nil : Subseq [] []
| Subseq_skip (x : A) (l1 l2 : list A) : Subseq l1 l2 -> Subseq l1 (x :: l2)
| Subseq_take (x : A) (l1 l2 : list A) : Subseq l1 l2 -> Subseq (x :: l1) (x :: l2).

(** The bytes of the separator in a string. *)
Fixpoint countByte (c : ascii) (s : string) : nat :=
  match s with
  | EmptyString => 0
  | String d rest => (if Ascii.eqb d c then 1 else 0) + countByte c rest
  end.

(** The state once a log call is recorded. *)
Definition logged {P : Platform} {G : Type} (lvl : Level) (msg : string)
    (st : State P G) : State P G :=
  mkState (world st) (trace st ++ [EvLog lvl msg])%list (globals st).

(** The state once a call to the network is recorded. *)
Definition called {P : Platform} {G : Type} (req : http.Request)
    (res : result http.Response) (w : World P) (st : State P G) : State P G :=
  mkState w (trace st ++ [EvHttp req res])%list (globals st).

(** * Start-up: [init] (the same function in both revisions)

    The [init] that reads the environment. The two others, which parse the
    verbosity flag and force the HTTP transport to IPv4, set nothing the
    functions below read. *)
Module Startup.

Inductive Started : Type :=
| Exit (code : Z) (log : list (Level * string))
| Running (cfg : Config) (log : list (Level * string)).

Section Init.
(** [os.Getenv]: the value of the variable, empty when it is unset. *)
Variable Getenv : string -> string.
(** [time.ParseDuration]. *)
Variable ParseDuration : string -> result Z.

Definition Second : Z := 1000000000.

(** [log.Fatalf] logs and calls [os.Exit(1)]: nothing after it runs. *)
Definition init : Started :=
  let interval := Getenv "GD_INTERVAL" in
  let '(updateInterval, log) :=
    match ParseDuration interval with
    | Err _ => ((Second * 600)%Z,
                [(WarnLevel, "No update interval given, defaulting to 600 seconds.")])
    | Ok d => (d, [])
    end in
  let apiKey := Getenv "GD_API_KEY" in
  if apiKey =? "" then
    Exit 1 (log ++ [(FatalLevel, "No API Key provided in environment (GD_API_KEY).")])%list
  else
  let apiSecret := Getenv "GD_API_SECRET" in
  if apiSecret =? "" then
    Exit 1 (log ++ [(FatalLevel, "No API Secret provided in environment (GD_API_SECRET).")])%list
  else
  let domains := strings.Split (Getenv "GD_DOMAINS") ","%char in
  if (length domains <? 1)%nat then
    Exit 1 (log ++ [(FatalLevel, "No domains provided in environment (GD_DOMAINS).")])%list
  else Running (mkConfig updateInterval apiKey apiSecret domains) log.

End Init.
End Startup.

(** The one-byte string a Go source writes as a newline escape. *)
Definition LF : string := String "010"%char EmptyString.

(** [n] newline bytes. *)
Fixpoint newlines (n : nat) : string :=
  match n with
  | O => EmptyString
  | S k => String "010"%char (newlines k)
  end.

(** The white space of ASCII, as [unicode.IsSpace] has it: tab, newline,
    vertical tab, form feed, carriage return and space. *)
Definition asciiSpace : string :=
  String "009" (String "010" (String "011" (String "012" (String "013" " ")))).

(** The specification's resolver result, in its words: the response body
    with trailing white space and newlines stripped. *)
Definition specTrimmedBody (body : string) : string :=
  strings.TrimRight body asciiSpace.

(** * The per-cycle revision: second [main.go] and the GoDaddy client *)
Module PerCycle.

Definition GodaddyBaseUrl : string := "https://api.godaddy.com".
Definition GodaddyApiBase : string := GodaddyBaseUrl ++ "/v1/domains".

Module GodaddyGetDNSRecordResponse.
Record t : Type := mk { Data : string; Name : string }.
End GodaddyGetDNSRecordResponse.

Module GodaddySetDNSRecordRequest.
Record t : Type := mk { Data : string; TTL : Z }.
End GodaddySetDNSRecordRequest.

(** [fmt.Sprintf("%s/%s/records/A/@", GodaddyApiBase, domain)]. *)
Definition recordURL (domain : string) : string :=
  GodaddyApiBase ++ "/" ++ domain ++ "/records/A/@".

Section Program.
Variable P : Platform.
(** [json.Unmarshal(data, &v)] for [v] a [[]GodaddyGetDNSRecordResponse]
    holding the second argument: the slice it leaves in [v], or the
    error. *)
Variable jsonUnmarshal :
  string -> list GodaddyGetDNSRecordResponse.t ->
  result (list GodaddyGetDNSRecordResponse.t).
(** [json.NewEncoder(&body).Encode] of a [[]GodaddySetDNSRecordRequest]:
    the bytes written. *)
Variable jsonEncode : list GodaddySetDNSRecordRequest.t -> result string.
Variable cfg : Config.

(** This revision has no mutable global. *)
Local Abbreviation M := (@M P unit).

Definition getGDAuthHeader : string :=
  "sso-key " ++ apiKey cfg ++ ":" ++ apiSecret cfg.

(** The requests the client sends, as the two functions below build
    them. *)
Definition readRequest (domain : string) : http.Request :=
  http.HeaderSet (http.mkRequest "GET" (recordURL domain) [] None)
    "Authorization" getGDAuthHeader.

Definition writeRequest (domain body : string) : http.Request :=
  http.HeaderSet
    (http.HeaderSet (http.mkRequest "PUT" (recordURL domain) [] (Some body))
       "Content-Type" "application/json")
    "Authorization" getGDAuthHeader.

Definition getDomainAtRecordIP (domain : string) : M (result string) :=
  (* prepare request *)
  let url := recordURL domain in
  match NewRequest (P:=P) "GET" url None with
  | Err err => ret (Err err)
  | Ok req =>
      let req := http.HeaderSet req "Authorization" getGDAuthHeader in
      httpRes <- Do req ;;
      match httpRes with
      | Err err => ret (Err err)
      | Ok httpRes =>
          (* read body *)
          match io.ReadAll (http.Body httpRes) with
          | (_, Some err) => ret (Err err)
          | (httpResBytes, None) =>
              if negb (http.StatusCode httpRes =? http.StatusOK)%Z then
                ret (Err ("godaddy sent non-ok status code "
                          ++ fmtInt (http.StatusCode httpRes)
                          ++ ", body: " ++ httpResBytes))
              else
                (* parse body; var res []GodaddyGetDNSRecordResponse *)
                match jsonUnmarshal httpResBytes [] with
                | Err err => ret (Err err)
                | Ok res =>
                    (* res[0].Data *)
                    match res with
                    | [] => panic "runtime error: index out of range [0] with length 0"
                    | first :: _ => ret (Ok (GodaddyGetDNSRecordResponse.Data first))
                    end
                end
          end
      end
  end.

Definition setDomainAtRecord (domain ip : string) : M (option error) :=
  (* prepare body *)
  match jsonEncode [GodaddySetDNSRecordRequest.mk ip 600] with
  | Err err => ret (Some err)
  | Ok body =>
      (* prepare request *)
      let url := recordURL domain in
      match NewRequest (P:=P) "PUT" url (Some body) with
      | Err err => ret (Some err)
      | Ok req =>
          let req := http.HeaderSet req "Content-Type" "application/json" in
          let req := http.HeaderSet req "Authorization" getGDAuthHeader in
          res <- Do req ;;
          match res with
          | Err _ => ret None               (* if err != nil { return nil } *)
          | Ok res =>
              if negb (http.StatusCode res =? http.StatusOK)%Z then
                match io.ReadAll (http.Body res) with
                | (_, Some err) =>
                    ret (Some ("received non-ok status code "
                               ++ fmtInt (http.StatusCode res)
                               ++ " from godaddy, but failed to read body: " ++ err))
                | (body, None) =>
                    ret (Some ("received non-ok status code "
                               ++ fmtInt (http.StatusCode res)
                               ++ " from godaddy, body: " ++ body))
                end
              else ret None
          end
      end
  end.

(** The decision [checkAndUpdate] takes once it has the record: it goes on
    to write unless [currentIpAddr == godaddyIPAddr]. *)
Definition needsUpdate (lastKnown current : string) : bool :=
  negb (current =? lastKnown).

(** [checkAndUpdate] determines if it is necessary to update the DNS
    records and does so accordingly. *)
Definition checkAndUpdate (domain currentIpAddr : string) : M (option error) :=
  (* get current address from godaddy *)
  r <- getDomainAtRecordIP domain ;;
  match r with
  | Err err =>
      ret (Some ("failed to get DNS record IP address for domain "
                 ++ domain ++ ": " ++ err))
  | Ok godaddyIPAddr =>
      if currentIpAddr =? godaddyIPAddr then
        logf InfoLevel ("No update necessary for " ++ domain) ;;
        ret None
      else
        logf DebugLevel ("oldIP: " ++ godaddyIPAddr ++ "; newIP: " ++ currentIpAddr) ;;
        err <- setDomainAtRecord domain currentIpAddr ;;
        match err with
        | Some err => ret (Some err)
        | None => ret None
        end
  end.

(** The request [httpClient.Get] sends to the IP-echo service. *)
Definition publicIPRequest : http.Request :=
  http.mkRequest "GET" "http://ifconfig.co" [] None.

(** [getPublicIPAddress] gets the current public IP address of this
    device; [httpClient.Get] builds the request and sends it. *)
Definition getPublicIPAddress : M (result string) :=
  match NewRequest (P:=P) "GET" "http://ifconfig.co" None with
  | Err err => ret (Err err)
  | Ok req =>
      resp <- Do req ;;
      match resp with
      | Err err => ret (Err err)
      | Ok resp =>
          match io.ReadAll (http.Body resp) with
          | (_, Some err) => ret (Err err)
          | (body, None) =>
              let ip := body in
              let ip := strings.TrimRight ip LF in
              ret (Ok ip)
          end
      end
  end.

(** The body of [for _, domain := range domains] in [loopFunc]. *)
Definition loopBody (currIPAddr domain : string) : M unit :=
  err <- checkAndUpdate domain currIPAddr ;;
  match err with
  | Some err => logf ErrorLevel ("Failed to update DNS records: " ++ err)
  | None =>
      t <- timeNow ;;
      logf InfoLevel ("Update successful at " ++ t)
  end.

Fixpoint rangeDomains (currIPAddr : string) (ds : list string) : M unit :=
  match ds with
  | [] => ret tt
  | domain :: rest => loopBody currIPAddr domain ;; rangeDomains currIPAddr rest
  end.

(** The URLs of the reads a check of the domain sends: the record URL,
    when [http.NewRequest] accepts it. *)
Definition readsOf (domain : string) : list string :=
  if urlAccepted P (recordURL domain) then [recordURL domain] else [].

(** The line [loopFunc] logs for a domain once its check is over. *)
Definition isVerdict (ev : Event) : bool :=
  match ev with
  | EvLog ErrorLevel msg => prefix "Failed to update DNS records: " msg
  | EvLog InfoLevel msg => prefix "Update successful at " msg
  | _ => false
  end.

(** One cycle: the closure [loopFunc] of [runUpdateLoop]. *)
Definition loopFunc : M unit :=
  r <- getPublicIPAddress ;;
  match r with
  | Err err => logf ErrorLevel ("failed to get public IP address: " ++ err)
  | Ok currIPAddr =>
      rangeDomains currIPAddr (domains cfg) ;;
      t <- timeNowAdd (updateInterval cfg) ;;
      logf InfoLevel ("Next update at " ++ t)
  end.

(** [runUpdateLoop] with the [select] resolved: the timer fires [ticks]
    times before the context is cancelled. *)
Fixpoint ticking (ticks : nat) : M unit :=
  match ticks with
  | O => logf TraceLevel "Stopping update loop"
  | S n => loopFunc ;; ticking n
  end.

Definition runUpdateLoop (ticks : nat) : M unit :=
  (* run once before the loop *)
  loopFunc ;; ticking ticks.

(** What a request of a sweep with the address [ip] over the domains [ds]
    looks like: the read of one of the domains, or the write of [ip] to
    one of them, either with the credentials in its header. *)
Definition isSweepRequest (ip : string) (ds : list string) (req : http.Request) : Prop :=
  exists domain,
    In domain ds /\
    (req = readRequest domain \/
     exists body,
       jsonEncode [GodaddySetDNSRecordRequest.mk ip 600] = Ok body /\
       req = writeRequest domain body).

Definition isSweepEvent (ip : string) (ds : list string) (ev : Event) : Prop :=
  match ev with
  | EvHttp req _ => isSweepRequest ip ds req
  | EvLog _ _ => True
  end.

End Program.
End PerCycle.

(** * The cached revision: first [main.go] *)
Module Cached.

(** The element of the anonymous slice [getDNSEntriesIP] decodes into. *)
Module Entry.
Record t : Type := mk { Data : string }.
End Entry.

(** The element of the anonymous slice [updateDNSEntriesIP] encodes. *)
Module Update.
Record t : Type := mk { Name : string; Data : string; TTL : Z }.
End Update.

Section Program.
Variable P : Platform.
(** [json.NewDecoder(r).Decode(&v)] for [v] the slice holding the second
    argument: the slice it leaves in [v], or the error. *)
Variable jsonDecode : io.Reader -> list Entry.t -> result (list Entry.t).
(** [json.NewEncoder(&buf).Encode] of the update slice: the bytes
    written. *)
Variable jsonEncode : list Update.t -> result string.
(** [int64(d.Seconds())]: the duration as a floating-point number of
    seconds, truncated. *)
Variable SecondsInt64 : Z -> Z.
Variable cfg : Config.

(** The line a cycle logs for its result: the levels error and info are
    used for nothing else in this revision. *)
Definition isResultLine (ev : Event) : bool :=
  match ev with
  | EvLog ErrorLevel _ | EvLog InfoLevel _ => true
  | _ => false
  end.

(** The mutable global of this revision is [lastIPAddr]. *)
Local Abbreviation M := (@M P string).

Definition getGDAuthHeader : string :=
  "sso-key " ++ apiKey cfg ++ ":" ++ apiSecret cfg.

(** The request sent to the IP-echo service. *)
Definition publicIPRequest : http.Request :=
  http.mkRequest "GET" "https://api.ipify.org" [] None.

Definition getPublicIPAddress : M (result string) :=
  match NewRequest (P:=P) "GET" "https://api.ipify.org" None with
  | Err err => ret (Err err)
  | Ok req =>
      res <- Do req ;;
      match res with
      | Err err => ret (Err err)
      | Ok res =>
          match io.ReadAll (http.Body res) with
          | (_, Some err) => ret (Err err)
          | (body, None) => ret (Ok body)
          end
      end
  end.

(** The URLs of the two loops below,
    [fmt.Sprintf("https://api.godaddy.com/v1/domains/%s/records/A/@", domain)]
    and the same without the last segment, and the requests built on
    them. *)
Definition entriesURL (domain : string) : string :=
  "https://api.godaddy.com/v1/domains/" ++ domain ++ "/records/A/@".

Definition entriesRequest (domain : string) : http.Request :=
  http.HeaderSet (http.mkRequest "GET" (entriesURL domain) [] None)
    "Authorization" getGDAuthHeader.

Definition updateURL (domain : string) : string :=
  "https://api.godaddy.com/v1/domains/" ++ domain ++ "/records/A".

Definition updateRequest (domain buf : string) : http.Request :=
  http.HeaderSet
    (http.HeaderSet (http.mkRequest "PUT" (updateURL domain) [] (Some buf))
       "Content-Type" "application/json")
    "Authorization" getGDAuthHeader.

(** [Reports ds w ips]: asked in turn from the world [w], the domains
    [ds] report the record values [ips], each read being answered with a
    body that decodes to an array whose first element holds the value. *)
Inductive Reports : list string -> World P -> list string -> Prop :=
| Reports_nil (w : World P) : Reports [] w []
| Reports_cons (domain : string) (ds : list string) (w w' : World P)
    (resp : http.Response) (first : Entry.t) (more : list Entry.t) (ips : list string) :
    urlParse P (entriesURL domain) = None ->
    roundTrip P (entriesRequest domain) w = (Ok resp, w') ->
    jsonDecode (http.Body resp) [Entry.mk ""] = Ok (first :: more) ->
    Reports ds w' ips ->
    Reports (domain :: ds) w (Entry.Data first :: ips).

(** The loop of [getDNSEntriesIP], [retval] being its local variable. *)
Fixpoint rangeEntries (retval : string) (ds : list string) : M (result string) :=
  match ds with
  | [] => ret (Ok retval)
  | domain :: rest =>
      match NewRequest (P:=P) "GET" (entriesURL domain) None with
      | Err err => ret (Err err)
      | Ok req =>
          (* set auth *)
          let req := http.HeaderSet req "Authorization" getGDAuthHeader in
          resp <- Do req ;;
          match resp with
          | Err err => ret (Err err)
          | Ok resp =>
              (* anon struct to extract relevant value from json *)
              match jsonDecode (http.Body resp) [Entry.mk ""] with
              | Err err => ret (Err err)
              | Ok data =>
                  match data with
                  | [] => panic "runtime error: index out of range [0] with length 0"
                  | first :: _ =>
                      if negb (retval =? Entry.Data first) && negb (retval =? "") then
                        ret (Ok "0.0.0.0")
                      else rangeEntries (Entry.Data first) rest
                  end
              end
          end
      end
  end.

(** What the loop makes of the values the domains report, the network
    left out: the comparison and the assignment of its body, run over the
    reported values. *)
Fixpoint settle (retval : string) (ips : list string) : string :=
  match ips with
  | [] => retval
  | ip :: rest =>
      if negb (retval =? ip) && negb (retval =? "") then "0.0.0.0"
      else settle ip rest
  end.

(** Some domain reports a value that differs from a non-empty value an
    earlier domain reported. *)
Definition conflicting (ips : list string) : Prop :=
  exists l1 a l2 b l3,
    ips = (l1 ++ a :: l2 ++ b :: l3)%list /\ a <> "" /\ b <> a.

(** Two domains report different non-empty values. *)
Definition distinctNonEmpty (ips : list string) : Prop :=
  exists l1 a l2 b l3,
    ips = (l1 ++ a :: l2 ++ b :: l3)%list /\ a <> "" /\ b <> "" /\ b <> a.

(** [getDNSEntriesIP] returns the current Data address in the DNS entries,
    or "0.0.0.0" if there is more than one domain and the Data addresses
    aren't equal. *)
Definition getDNSEntriesIP : M (result string) :=
  rangeEntries "" (domains cfg).

Fixpoint rangeUpdates (ipaddr : string) (ds : list string) : M (option error) :=
  match ds with
  | [] => ret None
  | domain :: rest =>
      (* create byte buffer for request body *)
      match jsonEncode [Update.mk "@" ipaddr (SecondsInt64 (updateInterval cfg))] with
      | Err err => ret (Some err)
      | Ok buf =>
          match NewRequest (P:=P) "PUT" (updateURL domain) (Some buf) with
          | Err err => ret (Some err)
          | Ok req =>
              let req := http.HeaderSet req "Content-Type" "application/json" in
              let req := http.HeaderSet req "Authorization" getGDAuthHeader in
              res <- Do req ;;
              match res with
              | Err err => ret (Some err)
              | Ok res =>
                  if negb (http.StatusCode res =? 200)%Z then
                    let '(body, _) := io.ReadAll (http.Body res) in
                    ret (Some ("updating dns record for domain " ++ domain
                               ++ " failed with status code "
                               ++ fmtInt (http.StatusCode res) ++ ": " ++ body))
                  else rangeUpdates ipaddr rest
              end
          end
      end
  end.

Definition updateDNSEntriesIP (ipaddr : string) : M (option error) :=
  rangeUpdates ipaddr (domains cfg).

Definition updateRecords : M (option error) :=
  (* get current address from godaddy *)
  lastIPAddr <- getGlobals ;;
  fetched <-
    (if lastIPAddr =? "" then
       r <- getDNSEntriesIP ;;
       match r with
       | Err err =>
           (* lastIPAddr, err = getDNSEntriesIP(ctx) stores the empty
              string the function returns beside its error *)
           setGlobals "" ;;
           ret (Some ("failed to get current DNS IP address: " ++ err))
       | Ok ip => setGlobals ip ;; ret None
       end
     else ret None) ;;
  match fetched with
  | Some err => ret (Some err)
  | None =>
      r <- getPublicIPAddress ;;
      match r with
      | Err err => ret (Some ("failed to get public Data address: " ++ err))
      | Ok currIPAddr =>
          lastIPAddr <- getGlobals ;;
          (* if ip address is still the same no update is necessary *)
          if currIPAddr =? lastIPAddr then
            logf DebugLevel "Address still the same - no update necessary" ;;
            ret None
          else
            logf DebugLevel ("oldIP: " ++ lastIPAddr ++ "; newIP: " ++ currIPAddr) ;;
            err <- updateDNSEntriesIP currIPAddr ;;
            match err with
            | Some err => ret (Some err)
            | None =>
                setGlobals currIPAddr ;;
                ret None
            end
      end
  end.

(** One cycle: [updateRecords] and the report of its result, as [main]
    does once and [runUpdateLoop] at every tick. *)
Definition cycle : M unit :=
  err <- updateRecords ;;
  match err with
  | Some err => logf ErrorLevel ("Failed to update DNS records: " ++ err)
  | None =>
      t <- timeNow ;;
      next <- timeNowAdd (updateInterval cfg) ;;
      logf InfoLevel ("Update successful at " ++ t ++ ", next update at " ++ next)
  end.

(** [runUpdateLoop] with the [select] resolved: the timer fires [ticks]
    times before the context is cancelled. *)
Fixpoint runUpdateLoop (ticks : nat) : M unit :=
  match ticks with
  | O => logf TraceLevel "Stopping update loop"
  | S n => cycle ;; runUpdateLoop n
  end.

(** What a request of the write loop for the address [ip] over the
    domains [ds] looks like: the name "@", the address and the update
    interval in seconds, sent to one of the domains with the credentials
    in the header. *)
Definition isUpdateEvent (ip : string) (ds : list string) (ev : Event) : Prop :=
  exists domain buf res,
    In domain ds /\
    jsonEncode [Update.mk "@" ip (SecondsInt64 (updateInterval cfg))] = Ok buf /\
    ev = EvHttp (updateRequest domain buf) res.

(** An event of the initial fetch over the domains [ds]: the read of one
    of them. *)
Definition isEntriesEvent (ds : list string) (ev : Event) : Prop :=
  exists domain res, In domain ds /\ ev = EvHttp (entriesRequest domain) res.

End Program.
End Cached.

(** * A scripted platform

    A concrete environment to run the program in: the network answers the
    requests it gets, in order, with the outcomes of a script, and fails
    once the script is used up; every URL parses and the clock stands
    still. *)
Module Sim.

Definition Script : Type := list (result http.Response).

Definition platform : Platform :=
  {| World := Script;
     roundTrip := fun _ w =>
       match w with
       | [] => (Err "dial tcp: connect: network is unreachable", [])
       | r :: w' => (r, w')
       end;
     urlParse := fun _ => None;
     now := fun _ => "2024-01-01 00:00";
     nowPlus := fun _ _ => "2024-01-01 00:10" |}.

(** A response whose body is read to its end. *)
Definition reply (status : Z) (body : string) : result http.Response :=
  Ok (http.mkResponse status (io.mkReader body None)).

(** The double quote. *)
Definition DQ : string := String "034"%char EmptyString.

(** The JSON text of a record with the single key [data]. *)
Definition dataObject (ip : string) : string :=
  "{" ++ DQ ++ "data" ++ DQ ++ ":" ++ DQ ++ ip ++ DQ ++ "}".

Fixpoint untilQuote (s : string) : option (string * string) :=
  match s with
  | EmptyString => None
  | String c rest =>
      if Ascii.eqb c "034"%char then Some (EmptyString, rest)
      else match untilQuote rest with
           | Some (v, rest') => Some (String c v, rest')
           | None => None
           end
  end.

Definition dropPrefix (p s : string) : option string :=
  if prefix p s then Some (substring (String.length p) (String.length s - String.length p) s) else None.

Definition object (s : string) : option (string * string) :=
  match dropPrefix ("{" ++ DQ ++ "data" ++ DQ ++ ":" ++ DQ) s with
  | None => None
  | Some s1 =>
      match untilQuote s1 with
      | None => None
      | Some (v, s2) =>
          match dropPrefix "}" s2 with
          | None => None
          | Some s3 => Some (v, s3)
          end
      end
  end.

Fixpoint objects (fuel : nat) (s : string) : option (list string) :=
  match fuel with
  | O => None
  | S n =>
      match object s with
      | None => None
      | Some (v, rest) =>
          if rest =? "]" then Some [v]
          else match dropPrefix "," rest with
               | None => None
               | Some rest' => option_map (cons v) (objects n rest')
               end
      end
  end.

(** The JSON decoder on the texts the scripts use: an array, without white
    space, of objects with the single key [data] and a value without
    escapes; it yields the values. Any other text is refused. *)
Definition dataArray (s : string) : result (list string) :=
  if s =? "[]" then Ok []
  else match dropPrefix "[" s with
       | None => Err "invalid character looking for beginning of value"
       | Some s1 =>
           match objects (String.length s) s1 with
           | Some l => Ok l
           | None => Err "unexpected end of JSON input"
           end
       end.

Definition Unmarshal (data : string) (v : list PerCycle.GodaddyGetDNSRecordResponse.t)
  : result (list PerCycle.GodaddyGetDNSRecordResponse.t) :=
  match dataArray data with
  | Ok l => Ok (map (fun ip => PerCycle.GodaddyGetDNSRecordResponse.mk ip "") l)
  | Err err => Err err
  end.

Definition Decode (r : io.Reader) (v : list Cached.Entry.t) : result (list Cached.Entry.t) :=
  match io.readErr r with
  | Some err => Err err
  | None =>
      match dataArray (io.bytes r) with
      | Ok l => Ok (map Cached.Entry.mk l)
      | Err err => Err err
      end
  end.

(** The encoders on IP strings that need no escape. *)
Definition EncodeSet (v : list PerCycle.GodaddySetDNSRecordRequest.t) : result string :=
  Ok ("[" ++ String.concat ","
        (map (fun r => "{" ++ DQ ++ "data" ++ DQ ++ ":" ++ DQ
                        ++ PerCycle.GodaddySetDNSRecordRequest.Data r ++ DQ ++ ","
                        ++ DQ ++ "ttl" ++ DQ ++ ":"
                        ++ fmtInt (PerCycle.GodaddySetDNSRecordRequest.TTL r) ++ "}") v)
      ++ "]" ++ LF).

Definition EncodeUpdate (v : list Cached.Update.t) : result string :=
  Ok ("[" ++ String.concat ","
        (map (fun r => "{" ++ DQ ++ "name" ++ DQ ++ ":" ++ DQ ++ Cached.Update.Name r ++ DQ ++ ","
                        ++ DQ ++ "data" ++ DQ ++ ":" ++ DQ ++ Cached.Update.Data r ++ DQ ++ ","
                        ++ DQ ++ "ttl" ++ DQ ++ ":" ++ fmtInt (Cached.Update.TTL r) ++ "}") v)
      ++ "]" ++ LF).

Definition Seconds (d : Z) : Z := (d / 1000000000)%Z.

(** A process environment with both credentials set. *)
Definition env (gdDomains : string) (name : string) : string :=
  if name =? "GD_API_KEY" then "key"
  else if name =? "GD_API_SECRET" then "secret"
  else if name =? "GD_DOMAINS" then gdDomains
  else "".

Definition cfg (ds : list string) : Config :=
  mkConfig 600000000000 "key" "secret" ds.

Definition start {G : Type} (script : Script) (g : G) : State platform G :=
  mkState (script : World platform) [] g.

End Sim.

(** * Properties of the library functions *)

Lemma Split_nonempty (s : string) (sep : ascii) : strings.Split s sep <> [].
Proof.
  destruct s as [|c rest]; simpl; [discriminate|].
  destruct (Ascii.eqb c sep); [discriminate|].
  destruct (strings.Split rest sep); discriminate.
Qed.

Lemma Split_length (s : string) (sep : ascii) : (1 <= List.length (strings.Split s sep))%nat.
Proof.
  pose proof (Split_nonempty s sep) as H.
  destruct (strings.Split s sep); [congruence | simpl; lia].
Qed.

(** * Start-up *)

(** The guard [len(domains) < 1] of [init] never holds: with both
    credentials present [init] always hands over a configuration. *)
Lemma init_domains_guard_dead (Getenv : string -> string) (ParseDuration : string -> result Z) :
  Getenv "GD_API_KEY" <> "" ->
  Getenv "GD_API_SECRET" <> "" ->
  exists interval log,
    Startup.init Getenv ParseDuration =
    Startup.Running
      (mkConfig interval (Getenv "GD_API_KEY") (Getenv "GD_API_SECRET")
         (strings.Split (Getenv "GD_DOMAINS") ","%char)) log.
Proof.
  intros Hkey Hsecret. unfold Startup.init.
  apply String.eqb_neq in Hkey, Hsecret. rewrite Hkey, Hsecret.
  pose proof (Split_length (Getenv "GD_DOMAINS") ","%char) as Hlen.
  apply Nat.ltb_ge in Hlen. rewrite Hlen.
  destruct (ParseDuration (Getenv "GD_INTERVAL")); eauto.
Qed.

(** C2 (evaluation of the code at the failing input). With the
    credentials set and [GD_DOMAINS] unset or empty, [init] does not exit:
    [strings.Split] of the empty string is the one-element slice holding
    the empty string, so the process starts with the single domain [""]. *)
Theorem init_starts_with_empty_GD_DOMAINS :
  forall ParseDuration : string -> result Z,
  exists interval log,
    Startup.init (Sim.env "") ParseDuration =
    Startup.Running (mkConfig interval "key" "secret" [""]) log.
Proof.
  intros pd. unfold Startup.init.
  change (Sim.env "" "GD_INTERVAL") with "".
  destruct (pd ""); simpl; eauto.
Qed.

(** * The GoDaddy client of the per-cycle revision *)
Section Client.
Variable P : Platform.
Variable jsonUnmarshal :
  string -> list PerCycle.GodaddyGetDNSRecordResponse.t ->
  result (list PerCycle.GodaddyGetDNSRecordResponse.t).
Variable jsonEncode : list PerCycle.GodaddySetDNSRecordRequest.t -> result string.
Variable cfg : Config.

Local Abbreviation St := (State P unit).
Local Abbreviation getDomainAtRecordIP := (PerCycle.getDomainAtRecordIP P jsonUnmarshal cfg).
Local Abbreviation setDomainAtRecord := (PerCycle.setDomainAtRecord P jsonEncode cfg).
Local Abbreviation checkAndUpdate := (PerCycle.checkAndUpdate P jsonUnmarshal jsonEncode cfg).

(** A read leaves the state alone when the request cannot be built, and
    otherwise sends the one read request of the domain. *)
Lemma getDomainAtRecordIP_steps (domain : string) (st st' : St) out :
  getDomainAtRecordIP domain st = (out, st') ->
  (urlParse P (PerCycle.recordURL domain) <> None /\ st' = st /\
   exists err, out = Done (Err err)) \/
  (urlParse P (PerCycle.recordURL domain) = None /\
   exists res,
     roundTrip P (PerCycle.readRequest cfg domain) (world st) = (res, world st') /\
     trace st' = (trace st ++ [EvHttp (PerCycle.readRequest cfg domain) res])%list /\
     globals st' = globals st).
Proof.
  unfold PerCycle.getDomainAtRecordIP, NewRequest.
  destruct (urlParse P (PerCycle.recordURL domain)) as [e|] eqn:Hurl.
  - unfold ret. intros H. inversion H; subst. left. split; [discriminate|]. eauto.
  - intros H. right. split; [reflexivity|].
    unfold bind, Do in H. fold (PerCycle.readRequest cfg domain) in H.
    destruct (roundTrip P (PerCycle.readRequest cfg domain) (world st)) as [res w] eqn:Hrt.
    exists res.
    assert (Hst : forall (o : Outcome (result string)) m,
               (o, m) = (out, st') ->
               m = mkState w (trace st ++ [EvHttp (PerCycle.readRequest cfg domain) res])%list
                     (globals st) ->
               (res, w) = (res, world st') /\
               trace st' = (trace st ++ [EvHttp (PerCycle.readRequest cfg domain) res])%list /\
               globals st' = globals st).
    { intros o m Hm ->. inversion Hm; subst. simpl. auto. }
    destruct res as [resp|e].
    + destruct (io.ReadAll (http.Body resp)) as [bs [e|]].
      * eapply Hst; [exact H | reflexivity].
      * destruct (negb (http.StatusCode resp =? http.StatusOK)%Z).
        -- eapply Hst; [exact H | reflexivity].
        -- destruct (jsonUnmarshal bs []) as [[|first more]|e];
             (eapply Hst; [exact H | reflexivity]).
    + eapply Hst; [exact H | reflexivity].
Qed.

(** What a read returns when the provider answers 200 with a body that
    decodes to a non-empty array. *)
Lemma getDomainAtRecordIP_reads (domain : string) (st : St) resp w' bs first more :
  urlParse P (PerCycle.recordURL domain) = None ->
  roundTrip P (PerCycle.readRequest cfg domain) (world st) = (Ok resp, w') ->
  io.ReadAll (http.Body resp) = (bs, None) ->
  http.StatusCode resp = http.StatusOK ->
  jsonUnmarshal bs [] = Ok (first :: more) ->
  getDomainAtRecordIP domain st =
  (Done (Ok (PerCycle.GodaddyGetDNSRecordResponse.Data first)),
   mkState w' (trace st ++ [EvHttp (PerCycle.readRequest cfg domain) (Ok resp)])%list
     (globals st)).
Proof.
  intros Hurl Hrt Hbody Hstatus Hjson.
  unfold PerCycle.getDomainAtRecordIP, NewRequest. rewrite Hurl.
  unfold bind, Do. fold (PerCycle.readRequest cfg domain).
  rewrite Hrt, Hbody, Hstatus, Z.eqb_refl, Hjson. reflexivity.
Qed.

(** A write leaves the state alone when its body or its request cannot be
    built, and otherwise sends the one write request of the domain. *)
Lemma setDomainAtRecord_steps (domain ip : string) (st st' : St) out :
  setDomainAtRecord domain ip st = (out, st') ->
  (st' = st /\ exists err, out = Done (Some err)) \/
  (exists body res,
     jsonEncode [PerCycle.GodaddySetDNSRecordRequest.mk ip 600] = Ok body /\
     urlParse P (PerCycle.recordURL domain) = None /\
     roundTrip P (PerCycle.writeRequest cfg domain body) (world st) = (res, world st') /\
     trace st' = (trace st ++ [EvHttp (PerCycle.writeRequest cfg domain body) res])%list /\
     globals st' = globals st /\
     exists err, out = Done err).
Proof.
  unfold PerCycle.setDomainAtRecord, NewRequest.
  destruct (jsonEncode [PerCycle.GodaddySetDNSRecordRequest.mk ip 600]) as [body|e] eqn:Henc.
  2:{ unfold ret. intros H. inversion H; subst. left. eauto. }
  destruct (urlParse P (PerCycle.recordURL domain)) as [e|] eqn:Hurl.
  { unfold ret. intros H. inversion H; subst. left. eauto. }
  intros H. right. exists body.
  unfold bind, Do in H. fold (PerCycle.writeRequest cfg domain body) in H.
  destruct (roundTrip P (PerCycle.writeRequest cfg domain body) (world st)) as [res w] eqn:Hrt.
  exists res. split; [reflexivity|]. split; [reflexivity|].
  assert (Hst : forall (o : Outcome (option error)) m,
             (o, m) = (out, st') ->
             (exists err, o = Done err) ->
             m = mkState w (trace st ++ [EvHttp (PerCycle.writeRequest cfg domain body) res])%list
                   (globals st) ->
             (res, w) = (res, world st') /\
             trace st' = (trace st ++ [EvHttp (PerCycle.writeRequest cfg domain body) res])%list /\
             globals st' = globals st /\ exists err, out = Done err).
  { intros o m Hm [err ->] ->. inversion Hm; subst. simpl. eauto. }
  destruct res as [resp|e].
  - destruct (negb (http.StatusCode resp =? http.StatusOK)%Z).
    + destruct (io.ReadAll (http.Body resp)) as [bs [e|]];
        (eapply Hst; [exact H | eauto | reflexivity]).
    + eapply Hst; [exact H | eauto | reflexivity].
  - eapply Hst; [exact H | eauto | reflexivity].
Qed.

(** The write when body and request are built: the request goes out, and
    the function returns nil both on status 200 and when the transport
    fails. *)
Lemma setDomainAtRecord_sends (domain ip body : string) (st : St) res w' :
  jsonEncode [PerCycle.GodaddySetDNSRecordRequest.mk ip 600] = Ok body ->
  urlParse P (PerCycle.recordURL domain) = None ->
  roundTrip P (PerCycle.writeRequest cfg domain body) (world st) = (res, w') ->
  exists err,
    setDomainAtRecord domain ip st =
    (Done err,
     mkState w' (trace st ++ [EvHttp (PerCycle.writeRequest cfg domain body) res])%list
       (globals st)).
Proof.
  intros Henc Hurl Hrt.
  unfold PerCycle.setDomainAtRecord, NewRequest. rewrite Henc, Hurl.
  unfold bind, Do. fold (PerCycle.writeRequest cfg domain body). rewrite Hrt.
  destruct res as [resp|e]; [|eexists; reflexivity].
  destruct (negb (http.StatusCode resp =? http.StatusOK)%Z); [|eexists; reflexivity].
  destruct (io.ReadAll (http.Body resp)) as [bs [e|]]; eexists; reflexivity.
Qed.

End Client.

Section Check.
Variable P : Platform.
Variable jsonUnmarshal :
  string -> list PerCycle.GodaddyGetDNSRecordResponse.t ->
  result (list PerCycle.GodaddyGetDNSRecordResponse.t).
Variable jsonEncode : list PerCycle.GodaddySetDNSRecordRequest.t -> result string.
Variable cfg : Config.

Local Abbreviation St := (State P unit).
Local Abbreviation getDomainAtRecordIP := (PerCycle.getDomainAtRecordIP P jsonUnmarshal cfg).
Local Abbreviation setDomainAtRecord := (PerCycle.setDomainAtRecord P jsonEncode cfg).
Local Abbreviation checkAndUpdate := (PerCycle.checkAndUpdate P jsonUnmarshal jsonEncode cfg).

Lemma isMethod_PUT_read (domain : string) res :
  isMethod "PUT" (EvHttp (PerCycle.readRequest cfg domain) res) = false.
Proof. reflexivity. Qed.

Lemma isMethod_PUT_write (domain body : string) res :
  isMethod "PUT" (EvHttp (PerCycle.writeRequest cfg domain body) res) = true.
Proof. reflexivity. Qed.

(** [checkAndUpdate] hands an error of the write over unchanged. *)
Lemma write_result_passed_on (domain ip : string) (st : St) :
  bind (setDomainAtRecord domain ip)
    (fun err => match err with Some err => ret (Some err) | None => ret None end) st =
  setDomainAtRecord domain ip st.
Proof.
  unfold bind. destruct (setDomainAtRecord domain ip st) as [[[e|]|msg] st']; reflexivity.
Qed.

(** After a successful read, [checkAndUpdate] stops when the addresses are
    equal and goes on to the write when they are not. *)
Lemma checkAndUpdate_after_read (domain ip r : string) (st st1 : St) :
  getDomainAtRecordIP domain st = (Done (Ok r), st1) ->
  checkAndUpdate domain ip st =
  if PerCycle.needsUpdate r ip
  then setDomainAtRecord domain ip
         (logged DebugLevel ("oldIP: " ++ r ++ "; newIP: " ++ ip) st1)
  else (Done None, logged InfoLevel ("No update necessary for " ++ domain) st1).
Proof.
  intros Hread. unfold PerCycle.checkAndUpdate, PerCycle.needsUpdate.
  unfold bind at 1. rewrite Hread.
  destruct (ip =? r); simpl.
  - reflexivity.
  - unfold bind at 1. unfold logf, emit at 1.
    apply write_result_passed_on.
Qed.

End Check.

(** C4. The decision to update is the inequality of the two IP strings:
    [needsUpdate A B] is true for distinct [A] and [B] and false for equal
    ones; and it is the decision [checkAndUpdate] takes between the record
    it read and the public IP: it writes when [needsUpdate] holds and
    returns without a write when it does not. *)
Theorem needsUpdate_is_inequality :
  (forall A B : string, A <> B -> PerCycle.needsUpdate A B = true) /\
  (forall A : string, PerCycle.needsUpdate A A = false) /\
  (forall (P : Platform) jsonUnmarshal jsonEncode cfg (domain ip r : string)
          (st st1 : State P unit),
      PerCycle.getDomainAtRecordIP P jsonUnmarshal cfg domain st = (Done (Ok r), st1) ->
      PerCycle.checkAndUpdate P jsonUnmarshal jsonEncode cfg domain ip st =
      if PerCycle.needsUpdate r ip
      then PerCycle.setDomainAtRecord P jsonEncode cfg domain ip
             (logged DebugLevel ("oldIP: " ++ r ++ "; newIP: " ++ ip) st1)
      else (Done None, logged InfoLevel ("No update necessary for " ++ domain) st1)).
Proof.
  split; [|split].
  - intros A B Hne. unfold PerCycle.needsUpdate.
    apply negb_true_iff, String.eqb_neq. congruence.
  - intros A. unfold PerCycle.needsUpdate. now rewrite String.eqb_refl.
  - intros. now apply checkAndUpdate_after_read.
Qed.

Lemma needsUpdate_is_inequality_witness :
  "1.2.3.4" <> "5.6.7.8" /\ PerCycle.needsUpdate "1.2.3.4" "5.6.7.8" = true.
Proof.
  split; [discriminate|].
  apply (proj1 needsUpdate_is_inequality "1.2.3.4" "5.6.7.8"). discriminate.
Defined.

(** C1 (the code at a failing transport). When the body and the request
    of a write are built and the transport fails, [setDomainAtRecord]
    returns nil: the error of [httpClient.Do] is dropped, where the read
    [getDomainAtRecordIP] returns it. *)
Theorem setDomainAtRecord_transport_failure_returns_nil :
  forall (P : Platform) jsonEncode cfg (domain ip body : string) (st : State P unit)
         (err : error) (w' : World P),
    jsonEncode [PerCycle.GodaddySetDNSRecordRequest.mk ip 600] = Ok body ->
    urlParse P (PerCycle.recordURL domain) = None ->
    roundTrip P (PerCycle.writeRequest cfg domain body) (world st) = (Err err, w') ->
    PerCycle.setDomainAtRecord P jsonEncode cfg domain ip st =
    (Done None, called (PerCycle.writeRequest cfg domain body) (Err err) w' st).
Proof.
  intros P enc cfg domain ip body st err w' Henc Hurl Hrt.
  unfold PerCycle.setDomainAtRecord, NewRequest. rewrite Henc, Hurl.
  unfold bind, Do. fold (PerCycle.writeRequest cfg domain body). rewrite Hrt.
  reflexivity.
Qed.

(** The same on a scripted run, and what the cycle makes of it: the check
    of a domain whose write timed out is logged as a success. *)
Example failed_write_logged_as_success :
  trace (snd (PerCycle.loopBody Sim.platform Sim.Unmarshal Sim.EncodeSet
                (Sim.cfg ["example.com"]) "5.6.7.8" "example.com"
                (Sim.start [Sim.reply 200 ("[" ++ Sim.dataObject "1.2.3.4" ++ "]");
                            Err "dial tcp: i/o timeout"] tt))) =
  [EvHttp (PerCycle.readRequest (Sim.cfg ["example.com"]) "example.com")
     (Sim.reply 200 ("[" ++ Sim.dataObject "1.2.3.4" ++ "]"));
   EvLog DebugLevel "oldIP: 1.2.3.4; newIP: 5.6.7.8";
   EvHttp (PerCycle.writeRequest (Sim.cfg ["example.com"]) "example.com"
             ("[{" ++ Sim.DQ ++ "data" ++ Sim.DQ ++ ":" ++ Sim.DQ ++ "5.6.7.8" ++ Sim.DQ ++ ","
                ++ Sim.DQ ++ "ttl" ++ Sim.DQ ++ ":600}]" ++ LF))
     (Err "dial tcp: i/o timeout");
   EvLog InfoLevel "Update successful at 2024-01-01 00:00"].
Proof. reflexivity. Qed.

Lemma setDomainAtRecord_transport_failure_witness :
  fst (PerCycle.setDomainAtRecord Sim.platform Sim.EncodeSet (Sim.cfg ["example.com"])
         "example.com" "5.6.7.8"
         (Sim.start [Err "dial tcp: i/o timeout"] tt)) = Done None.
Proof.
  erewrite (setDomainAtRecord_transport_failure_returns_nil Sim.platform Sim.EncodeSet
              (Sim.cfg ["example.com"]) "example.com" "5.6.7.8");
    reflexivity.
Defined.

(** C9. [getDomainAtRecordIP] takes [res[0]] unguarded: when the provider
    answers 200 with a body that decodes to the empty array, the read
    returns neither an address nor an error; it panics on the index. *)
Theorem getDomainAtRecordIP_empty_array_panics :
  forall (P : Platform) jsonUnmarshal cfg (domain : string) (st : State P unit)
         (resp : http.Response) (w' : World P) (bs : string),
    urlParse P (PerCycle.recordURL domain) = None ->
    roundTrip P (PerCycle.readRequest cfg domain) (world st) = (Ok resp, w') ->
    http.StatusCode resp = http.StatusOK ->
    io.ReadAll (http.Body resp) = (bs, None) ->
    jsonUnmarshal bs [] = Ok [] ->
    fst (PerCycle.getDomainAtRecordIP P jsonUnmarshal cfg domain st) =
      Panicked "runtime error: index out of range [0] with length 0" /\
    forall r : result string,
      fst (PerCycle.getDomainAtRecordIP P jsonUnmarshal cfg domain st) <> Done r.
Proof.
  intros P um cfg domain st resp w' bs Hurl Hrt Hstatus Hbody Hjson.
  assert (H : fst (PerCycle.getDomainAtRecordIP P um cfg domain st) =
              Panicked "runtime error: index out of range [0] with length 0").
  { unfold PerCycle.getDomainAtRecordIP, NewRequest. rewrite Hurl.
    unfold bind, Do. fold (PerCycle.readRequest cfg domain).
    rewrite Hrt, Hbody, Hstatus, Z.eqb_refl, Hjson. reflexivity. }
  split; [exact H|]. intros r. rewrite H. discriminate.
Qed.

Lemma getDomainAtRecordIP_empty_array_witness :
  fst (PerCycle.getDomainAtRecordIP Sim.platform Sim.Unmarshal (Sim.cfg ["example.com"])
         "example.com" (Sim.start [Sim.reply 200 "[]"] tt)) =
  Panicked "runtime error: index out of range [0] with length 0".
Proof.
  apply (getDomainAtRecordIP_empty_array_panics Sim.platform Sim.Unmarshal
           (Sim.cfg ["example.com"]) "example.com" (Sim.start [Sim.reply 200 "[]"] tt)
           (http.mkResponse 200 (io.mkReader "[]" None)) [] "[]");
    reflexivity.
Defined.

(** C3. For a domain whose record the provider reports as [r], the check
    against the public IP [ip] issues a write exactly when [r] differs
    from [ip]; and when it does, the writes of the check are one request:
    the PUT on the domain's record whose body encodes [ip] as the record
    data. *)
Theorem checkAndUpdate_writes_iff_record_differs :
  forall (P : Platform) jsonUnmarshal jsonEncode cfg (domain ip r body : string)
         (st st1 : State P unit),
    PerCycle.getDomainAtRecordIP P jsonUnmarshal cfg domain st = (Done (Ok r), st1) ->
    jsonEncode [PerCycle.GodaddySetDNSRecordRequest.mk ip 600] = Ok body ->
    exists out st' evs,
      PerCycle.checkAndUpdate P jsonUnmarshal jsonEncode cfg domain ip st = (out, st') /\
      trace st' = (trace st ++ evs)%list /\
      ((exists ev, In ev evs /\ isMethod "PUT" ev = true) <-> r <> ip) /\
      (r <> ip ->
       exists res,
         filter (isMethod "PUT") evs =
         [EvHttp (PerCycle.writeRequest cfg domain body) res]).
Proof.
  intros P um enc cfg domain ip r body st st1 Hread Henc.
  rewrite (checkAndUpdate_after_read P um enc cfg domain ip r st st1 Hread).
  destruct (getDomainAtRecordIP_steps P um cfg domain st st1 _ Hread)
    as [(_ & _ & e & He) | (Hurl & res & _ & Htr & _)]; [discriminate|].
  unfold PerCycle.needsUpdate.
  destruct (String.eqb_spec ip r) as [Heq|Hne]; cbn [negb].
  - (* equal: the check ends after the log line *)
    eexists _, _, [EvHttp (PerCycle.readRequest cfg domain) res; EvLog InfoLevel _].
    split; [reflexivity|]. split.
    { simpl. rewrite Htr, <- app_assoc. reflexivity. }
    split.
    + split; [|congruence].
      intros (ev & [<-|[<-|[]]] & Hput); discriminate.
    + congruence.
  - (* different: one write goes out *)
    set (st2 := logged DebugLevel ("oldIP: " ++ r ++ "; newIP: " ++ ip) st1).
    destruct (roundTrip P (PerCycle.writeRequest cfg domain body) (world st2))
      as [res2 w2] eqn:Hrt.
    destruct (setDomainAtRecord_sends P enc cfg domain ip body st2 res2 w2 Henc Hurl Hrt)
      as [err Hset].
    rewrite Hset.
    eexists _, _, [EvHttp (PerCycle.readRequest cfg domain) res; EvLog DebugLevel _;
                   EvHttp (PerCycle.writeRequest cfg domain body) res2].
    split; [reflexivity|]. split.
    { simpl. rewrite Htr, <- !app_assoc. reflexivity. }
    split.
    + split; [congruence|]. intros _.
      exists (EvHttp (PerCycle.writeRequest cfg domain body) res2).
      split; [simpl; auto | reflexivity].
    + intros _. exists res2. reflexivity.
Qed.

Lemma checkAndUpdate_writes_witness :
  exists out st' evs,
    PerCycle.checkAndUpdate Sim.platform Sim.Unmarshal Sim.EncodeSet (Sim.cfg ["example.com"])
      "example.com" "5.6.7.8"
      (Sim.start [Sim.reply 200 ("[" ++ Sim.dataObject "1.2.3.4" ++ "]"); Sim.reply 200 ""] tt)
    = (out, st') /\
    trace st' = evs /\
    List.length (filter (isMethod "PUT") evs) = 1%nat.
Proof.
  destruct (checkAndUpdate_writes_iff_record_differs Sim.platform Sim.Unmarshal Sim.EncodeSet
              (Sim.cfg ["example.com"]) "example.com" "5.6.7.8" "1.2.3.4"
              ("[{" ++ Sim.DQ ++ "data" ++ Sim.DQ ++ ":" ++ Sim.DQ ++ "5.6.7.8" ++ Sim.DQ ++ ","
                 ++ Sim.DQ ++ "ttl" ++ Sim.DQ ++ ":600}]" ++ LF)
              (Sim.start [Sim.reply 200 ("[" ++ Sim.dataObject "1.2.3.4" ++ "]");
                          Sim.reply 200 ""] tt)
              _ eq_refl eq_refl)
    as (out & st' & evs & Hrun & Htrace & _ & Hone).
  exists out, st', evs. split; [exact Hrun|]. split; [exact Htrace|].
  destruct Hone as [res Hres]; [discriminate|]. rewrite Hres. reflexivity.
Defined.

(** * The public-IP resolvers *)

Lemma TrimRight_LF_splits (s : string) :
  exists n, s = strings.TrimRight s LF ++ newlines n.
Proof.
  induction s as [|c rest [n IH]].
  - exists 0%nat. reflexivity.
  - simpl. destruct (strings.TrimRight rest LF) as [|d kept] eqn:Hrest.
    + simpl in IH. destruct (Ascii.eqb_spec c "010"%char) as [->|Hc]; simpl.
      * exists (S n). simpl. now rewrite <- IH.
      * exists n. simpl. now rewrite <- IH.
    + exists n. simpl. simpl in IH. now rewrite <- IH.
Qed.

Lemma append_LF_inv (t : string) (c : ascii) :
  String c EmptyString = t ++ LF -> t = EmptyString /\ c = "010"%char.
Proof.
  destruct t as [|d t]; simpl; intros H.
  - inversion H. auto.
  - inversion H as [[Hd Ht]]. destruct t; discriminate.
Qed.

Lemma TrimRight_LF_ends (s t : string) : strings.TrimRight s LF <> t ++ LF.
Proof.
  revert t. induction s as [|c rest IH]; intros t; simpl.
  - destruct t; discriminate.
  - destruct (strings.TrimRight rest LF) as [|d kept] eqn:Hrest.
    + destruct (Ascii.eqb_spec c "010"%char) as [->|Hc]; simpl.
      * destruct t; discriminate.
      * intros H. apply append_LF_inv in H. destruct H as [_ H]. contradiction.
    + destruct t as [|c' t']; simpl; [discriminate|].
      intros H. inversion H as [[Hc Hk]]. exact (IH t' Hk).
Qed.

Section Resolvers.
Variable P : Platform.

(** The per-cycle resolver sends at most its one request, logs nothing
    and does not panic. *)
Lemma PerCycle_getPublicIPAddress_steps (st : State P unit) :
  exists r st',
    PerCycle.getPublicIPAddress P st = (Done r, st') /\
    (st' = st \/ exists res, st' = called PerCycle.publicIPRequest res (world st') st).
Proof.
  unfold PerCycle.getPublicIPAddress, NewRequest.
  destruct (urlParse P "http://ifconfig.co"); [unfold ret; eauto|].
  unfold bind, Do. fold PerCycle.publicIPRequest.
  destruct (roundTrip P PerCycle.publicIPRequest (world st)) as [[resp|e] w].
  - destruct (io.ReadAll (http.Body resp)) as [body [e|]];
      (eexists _, _; split; [reflexivity|]; right; eexists; reflexivity).
  - eexists _, _; split; [reflexivity|]; right; eexists; reflexivity.
Qed.

Lemma PerCycle_getPublicIPAddress_reads (st : State P unit) resp w' body :
  urlParse P "http://ifconfig.co" = None ->
  roundTrip P PerCycle.publicIPRequest (world st) = (Ok resp, w') ->
  io.ReadAll (http.Body resp) = (body, None) ->
  PerCycle.getPublicIPAddress P st =
  (Done (Ok (strings.TrimRight body LF)),
   called PerCycle.publicIPRequest (Ok resp) w' st).
Proof.
  intros Hurl Hrt Hbody.
  unfold PerCycle.getPublicIPAddress, NewRequest. rewrite Hurl.
  unfold bind, Do. fold PerCycle.publicIPRequest. rewrite Hrt, Hbody. reflexivity.
Qed.

(** So does the cached resolver. *)
Lemma Cached_getPublicIPAddress_steps (st : State P string) :
  exists r st',
    Cached.getPublicIPAddress P st = (Done r, st') /\
    (st' = st \/ exists res, st' = called Cached.publicIPRequest res (world st') st).
Proof.
  unfold Cached.getPublicIPAddress, NewRequest.
  destruct (urlParse P "https://api.ipify.org"); [unfold ret; eauto|].
  unfold bind, Do. fold Cached.publicIPRequest.
  destruct (roundTrip P Cached.publicIPRequest (world st)) as [[resp|e] w].
  - destruct (io.ReadAll (http.Body resp)) as [body [e|]];
      (eexists _, _; split; [reflexivity|]; right; eexists; reflexivity).
  - eexists _, _; split; [reflexivity|]; right; eexists; reflexivity.
Qed.

Lemma Cached_getPublicIPAddress_reads (st : State P string) resp w' body :
  urlParse P "https://api.ipify.org" = None ->
  roundTrip P Cached.publicIPRequest (world st) = (Ok resp, w') ->
  io.ReadAll (http.Body resp) = (body, None) ->
  Cached.getPublicIPAddress P st =
  (Done (Ok body), called Cached.publicIPRequest (Ok resp) w' st).
Proof.
  intros Hurl Hrt Hbody.
  unfold Cached.getPublicIPAddress, NewRequest. rewrite Hurl.
  unfold bind, Do. fold Cached.publicIPRequest. rewrite Hrt, Hbody. reflexivity.
Qed.

End Resolvers.

(** C8, as the specification words it, fails on both revisions: the cached
    resolver hands back the body of the specification's own example with
    its newline, and the per-cycle resolver keeps a blank that precedes
    the newline. *)
Lemma resolvers_do_not_strip_white_space :
  (fst (Cached.getPublicIPAddress Sim.platform
          (Sim.start [Sim.reply 200 ("1.2.3.4" ++ LF)] "")) = Done (Ok ("1.2.3.4" ++ LF)) /\
   fst (Cached.getPublicIPAddress Sim.platform
          (Sim.start [Sim.reply 200 ("1.2.3.4" ++ LF)] ""))
   <> Done (Ok (specTrimmedBody ("1.2.3.4" ++ LF)))) /\
  (fst (PerCycle.getPublicIPAddress Sim.platform
          (Sim.start [Sim.reply 200 ("1.2.3.4 " ++ LF)] tt)) = Done (Ok "1.2.3.4 ") /\
   fst (PerCycle.getPublicIPAddress Sim.platform
          (Sim.start [Sim.reply 200 ("1.2.3.4 " ++ LF)] tt))
   <> Done (Ok (specTrimmedBody ("1.2.3.4 " ++ LF)))).
Proof. repeat split; discriminate. Qed.

(** C8 (amended). When the IP-echo service answers with a body that is
    read to its end, the per-cycle resolver returns the body without its
    trailing newline bytes, and without those only: the body is the
    result followed by newlines, and the result does not end in one. The
    cached resolver returns the body as it is. *)
Theorem getPublicIPAddress_trims_newlines_only :
  forall (P : Platform) (resp : http.Response) (body : string),
    io.ReadAll (http.Body resp) = (body, None) ->
    (forall (st : State P unit) (w' : World P),
        urlParse P "http://ifconfig.co" = None ->
        roundTrip P PerCycle.publicIPRequest (world st) = (Ok resp, w') ->
        exists (ip : string) (n : nat),
          fst (PerCycle.getPublicIPAddress P st) = Done (Ok ip) /\
          body = ip ++ newlines n /\
          forall t : string, ip <> t ++ LF) /\
    (forall (st : State P string) (w' : World P),
        urlParse P "https://api.ipify.org" = None ->
        roundTrip P Cached.publicIPRequest (world st) = (Ok resp, w') ->
        fst (Cached.getPublicIPAddress P st) = Done (Ok body)).
Proof.
  intros P resp body Hbody. split.
  - intros st w' Hurl Hrt.
    destruct (TrimRight_LF_splits body) as [n Hn].
    exists (strings.TrimRight body LF), n.
    rewrite (PerCycle_getPublicIPAddress_reads P st resp w' body Hurl Hrt Hbody).
    split; [reflexivity|]. split; [exact Hn|].
    intros t. apply TrimRight_LF_ends.
  - intros st w' Hurl Hrt.
    now rewrite (Cached_getPublicIPAddress_reads P st resp w' body Hurl Hrt Hbody).
Qed.

Lemma getPublicIPAddress_trims_newlines_witness :
  exists (ip : string) (n : nat),
    fst (PerCycle.getPublicIPAddress Sim.platform
           (Sim.start [Sim.reply 200 ("1.2.3.4" ++ LF)] tt)) = Done (Ok ip) /\
    "1.2.3.4" ++ LF = ip ++ newlines n /\
    forall t : string, ip <> t ++ LF.
Proof.
  apply (proj1 (getPublicIPAddress_trims_newlines_only Sim.platform
                  (http.mkResponse 200 (io.mkReader ("1.2.3.4" ++ LF) None))
                  ("1.2.3.4" ++ LF) eq_refl)
           (Sim.start [Sim.reply 200 ("1.2.3.4" ++ LF)] tt) []);
    reflexivity.
Defined.

(** * Cycles in which the public IP cannot be resolved *)

Lemma only_GET_no_PUT (evs : list Event) :
  Forall (fun ev => isMethod "GET" ev = true) evs ->
  filter (isMethod "PUT") evs = [] /\ filter isLogEvent evs = [].
Proof.
  induction 1 as [|ev evs Hev _ [IHput IHlog]]; [auto|].
  destruct ev as [req res|lvl msg]; simpl in *; [|discriminate].
  apply String.eqb_eq in Hev. rewrite Hev. simpl. auto.
Qed.

Section CachedReads.
Variable P : Platform.
Variable jsonDecode : io.Reader -> list Cached.Entry.t -> result (list Cached.Entry.t).
Variable cfg : Config.

(** The initial fetch only sends reads: no write, no log line, and the
    global is not touched. *)
Lemma rangeEntries_only_reads (ds : list string) :
  forall (retval : string) (st st' : State P string) out,
    Cached.rangeEntries P jsonDecode cfg retval ds st = (out, st') ->
    exists evs,
      trace st' = (trace st ++ evs)%list /\
      Forall (fun ev => isMethod "GET" ev = true) evs /\
      globals st' = globals st.
Proof.
  induction ds as [|domain rest IH]; intros retval st st' out;
    cbn [Cached.rangeEntries].
  - unfold ret. intros H. inversion H; subst. exists []. rewrite app_nil_r. auto.
  - unfold NewRequest.
    assert (Hnone : forall o : Outcome (result string),
               (o, st) = (out, st') ->
               exists evs, trace st' = (trace st ++ evs)%list /\
                           Forall (fun ev => isMethod "GET" ev = true) evs /\
                           globals st' = globals st).
    { intros o H. inversion H; subst. exists []. rewrite app_nil_r. auto. }
    destruct (urlParse P _) as [e|]; [apply Hnone|].
    unfold bind at 1. unfold Do at 1.
    fold (Cached.entriesRequest cfg domain).
    destruct (roundTrip P (Cached.entriesRequest cfg domain) (world st)) as [res w].
    set (st1 := mkState w (trace st ++ [EvHttp (Cached.entriesRequest cfg domain) res])%list
                  (globals st)).
    assert (Hone : forall o : Outcome (result string),
               (o, st1) = (out, st') ->
               exists evs, trace st' = (trace st ++ evs)%list /\
                           Forall (fun ev => isMethod "GET" ev = true) evs /\
                           globals st' = globals st).
    { intros o H. inversion H; subst.
      exists [EvHttp (Cached.entriesRequest cfg domain) res]. simpl. auto. }
    destruct res as [resp|e]; [|apply Hone].
    destruct (jsonDecode (http.Body resp) [Cached.Entry.mk ""]) as [[|first more]|e];
      [apply Hone| |apply Hone].
    destruct (negb (retval =? Cached.Entry.Data first) && negb (retval =? "")); [apply Hone|].
    intros H. destruct (IH _ _ _ _ H) as (evs & Htr & Hget & Hg).
    exists (EvHttp (Cached.entriesRequest cfg domain) (Ok resp) :: evs).
    split; [|split].
    + rewrite Htr. simpl. now rewrite <- app_assoc.
    + constructor; [reflexivity | exact Hget].
    + exact Hg.
Qed.

End CachedReads.

(** C5, as stated, fails on the cached revision: with no address cached
    yet, the cycle fetches the record of every domain before it asks for
    the public IP, so a read is on the trace of a cycle whose resolution
    fails. *)
Lemma cached_cycle_reads_before_failed_resolution :
  trace (snd (Cached.cycle Sim.platform Sim.Decode Sim.EncodeUpdate Sim.Seconds
                (Sim.cfg ["a.com"])
                (Sim.start [Sim.reply 200 ("[" ++ Sim.dataObject "1.2.3.4" ++ "]");
                            Err "dial tcp: i/o timeout"] ""))) =
  [EvHttp (Cached.entriesRequest (Sim.cfg ["a.com"]) "a.com")
     (Sim.reply 200 ("[" ++ Sim.dataObject "1.2.3.4" ++ "]"));
   EvHttp Cached.publicIPRequest (Err "dial tcp: i/o timeout");
   EvLog ErrorLevel
     "Failed to update DNS records: failed to get public Data address: dial tcp: i/o timeout"]
  /\
  filter isProviderCall
    (trace (snd (Cached.cycle Sim.platform Sim.Decode Sim.EncodeUpdate Sim.Seconds
                   (Sim.cfg ["a.com"])
                   (Sim.start [Sim.reply 200 ("[" ++ Sim.dataObject "1.2.3.4" ++ "]");
                               Err "dial tcp: i/o timeout"] "")))) <> [].
Proof. split; [reflexivity | discriminate]. Qed.

(** C5 (amended). A cycle in which the resolution of the public IP fails
    makes no write and logs one line, the failure. In the per-cycle
    revision, and in the cached revision once an address is cached, it
    makes no call to the DNS provider at all; the cached revision with no
    address cached has fetched the records before it resolves. *)
Theorem failed_resolution_ends_cycle :
  forall (P : Platform) (e : error),
    (forall jsonUnmarshal jsonEncode cfg (st st1 : State P unit),
        PerCycle.getPublicIPAddress P st = (Done (Err e), st1) ->
        exists st' new,
          PerCycle.loopFunc P jsonUnmarshal jsonEncode cfg st = (Done tt, st') /\
          trace st' = (trace st ++ new)%list /\
          filter isProviderCall new = [] /\
          filter isLogEvent new =
          [EvLog ErrorLevel ("failed to get public IP address: " ++ e)]) /\
    (forall jsonDecode jsonEncode SecondsInt64 cfg (st st1 : State P string),
        globals st <> "" ->
        Cached.getPublicIPAddress P st = (Done (Err e), st1) ->
        exists st' new,
          Cached.cycle P jsonDecode jsonEncode SecondsInt64 cfg st = (Done tt, st') /\
          trace st' = (trace st ++ new)%list /\
          globals st' = globals st /\
          filter isProviderCall new = [] /\
          filter isLogEvent new =
          [EvLog ErrorLevel
             ("Failed to update DNS records: failed to get public Data address: " ++ e)]) /\
    (forall jsonDecode jsonEncode SecondsInt64 cfg (st st0 st1 : State P string) (ip0 : string),
        globals st = "" ->
        Cached.getDNSEntriesIP P jsonDecode cfg st = (Done (Ok ip0), st0) ->
        Cached.getPublicIPAddress P (mkState (world st0) (trace st0) ip0)
        = (Done (Err e), st1) ->
        exists st' new,
          Cached.cycle P jsonDecode jsonEncode SecondsInt64 cfg st = (Done tt, st') /\
          trace st' = (trace st ++ new)%list /\
          filter (isMethod "PUT") new = [] /\
          filter isLogEvent new =
          [EvLog ErrorLevel
             ("Failed to update DNS records: failed to get public Data address: " ++ e)]).
Proof.
  intros P e. split; [|split].
  - intros um enc cfg st st1 Hres.
    exists (logged ErrorLevel ("failed to get public IP address: " ++ e) st1).
    destruct (PerCycle_getPublicIPAddress_steps P st) as (r & st' & Heq & Hshape).
    rewrite Hres in Heq. inversion Heq; subst r st'. clear Heq.
    assert (Hrun : PerCycle.loopFunc P um enc cfg st =
                   (Done tt, logged ErrorLevel ("failed to get public IP address: " ++ e) st1)).
    { unfold PerCycle.loopFunc. unfold bind at 1. rewrite Hres. reflexivity. }
    destruct Hshape as [->|[res Hcall]].
    + exists [EvLog ErrorLevel ("failed to get public IP address: " ++ e)]. auto.
    + apply (f_equal trace) in Hcall. simpl in Hcall.
      exists [EvHttp PerCycle.publicIPRequest res;
              EvLog ErrorLevel ("failed to get public IP address: " ++ e)].
      split; [exact Hrun|]. split; [|auto].
      simpl. rewrite Hcall, <- app_assoc. reflexivity.
  - intros dec enc secs cfg st st1 Hknown Hres.
    set (line := EvLog ErrorLevel
           ("Failed to update DNS records: failed to get public Data address: " ++ e)).
    destruct (Cached_getPublicIPAddress_steps P st) as (r & st' & Heq & Hshape).
    rewrite Hres in Heq. inversion Heq; subst r st'. clear Heq.
    assert (Hrun : Cached.cycle P dec enc secs cfg st =
                   (Done tt, logged ErrorLevel
                      ("Failed to update DNS records: failed to get public Data address: " ++ e)
                      st1)).
    { unfold Cached.cycle, Cached.updateRecords.
      apply String.eqb_neq in Hknown.
      unfold bind at 1. unfold bind at 1. unfold getGlobals at 1.
      unfold bind at 1. rewrite Hknown. unfold ret at 1.
      unfold bind at 1. rewrite Hres. reflexivity. }
    exists (logged ErrorLevel
              ("Failed to update DNS records: failed to get public Data address: " ++ e) st1).
    destruct Hshape as [->|[res Hcall]].
    + exists [line]. simpl. auto.
    + pose proof (f_equal trace Hcall) as Htr. pose proof (f_equal globals Hcall) as Hg.
      simpl in Htr, Hg.
      exists [EvHttp Cached.publicIPRequest res; line].
      split; [exact Hrun|]. split; [|auto].
      simpl. rewrite Htr, <- app_assoc. reflexivity.
  - intros dec enc secs cfg st st0 st1 ip0 Hunknown Hfetch Hres.
    set (line := EvLog ErrorLevel
           ("Failed to update DNS records: failed to get public Data address: " ++ e)).
    destruct (rangeEntries_only_reads P dec cfg _ _ _ _ _ Hfetch) as (evs & Htr0 & Hget & _).
    destruct (only_GET_no_PUT evs Hget) as [Hput Hlog].
    destruct (Cached_getPublicIPAddress_steps P (mkState (world st0) (trace st0) ip0))
      as (r & st' & Heq & Hshape).
    rewrite Hres in Heq. inversion Heq; subst r st'. clear Heq.
    assert (Hrun : Cached.cycle P dec enc secs cfg st =
                   (Done tt, logged ErrorLevel
                      ("Failed to update DNS records: failed to get public Data address: " ++ e)
                      st1)).
    { unfold Cached.cycle, Cached.updateRecords.
      unfold bind at 1. unfold bind at 1. unfold getGlobals at 1.
      unfold bind at 1. rewrite Hunknown. cbn [String.eqb].
      unfold bind at 1. rewrite Hfetch.
      unfold bind at 1. unfold setGlobals at 1. unfold ret at 1.
      unfold bind at 1. rewrite Hres. reflexivity. }
    exists (logged ErrorLevel
              ("Failed to update DNS records: failed to get public Data address: " ++ e) st1).
    destruct Hshape as [->|[res Hcall]].
    + exists (evs ++ [line])%list. split; [exact Hrun|]. split.
      { simpl. rewrite Htr0, <- app_assoc. reflexivity. }
      rewrite !filter_app, Hput, Hlog. auto.
    + pose proof (f_equal trace Hcall) as Htr. simpl in Htr.
      exists (evs ++ [EvHttp Cached.publicIPRequest res; line])%list.
      split; [exact Hrun|]. split.
      { simpl. rewrite Htr, Htr0, <- !app_assoc. reflexivity. }
      rewrite !filter_app, Hput, Hlog. auto.
Qed.

Lemma failed_resolution_witness :
  (exists st' new,
      PerCycle.loopFunc Sim.platform Sim.Unmarshal Sim.EncodeSet (Sim.cfg ["a.com"])
        (Sim.start [Err "dial tcp: i/o timeout"] tt) = (Done tt, st') /\
      trace st' = new /\
      filter isProviderCall new = [] /\
      filter isLogEvent new =
      [EvLog ErrorLevel "failed to get public IP address: dial tcp: i/o timeout"]) /\
  (exists st' new,
      Cached.cycle Sim.platform Sim.Decode Sim.EncodeUpdate Sim.Seconds (Sim.cfg ["a.com"])
        (Sim.start [Err "dial tcp: i/o timeout"] "1.2.3.4") = (Done tt, st') /\
      trace st' = new /\
      globals st' = "1.2.3.4" /\
      filter isProviderCall new = [] /\
      filter isLogEvent new =
      [EvLog ErrorLevel
         "Failed to update DNS records: failed to get public Data address: dial tcp: i/o timeout"]) /\
  (exists st' new,
      Cached.cycle Sim.platform Sim.Decode Sim.EncodeUpdate Sim.Seconds (Sim.cfg ["a.com"])
        (Sim.start [Sim.reply 200 ("[" ++ Sim.dataObject "1.2.3.4" ++ "]");
                    Err "dial tcp: i/o timeout"] "") = (Done tt, st') /\
      trace st' = new /\
      filter (isMethod "PUT") new = [] /\
      filter isLogEvent new =
      [EvLog ErrorLevel
         "Failed to update DNS records: failed to get public Data address: dial tcp: i/o timeout"]).
Proof.
  destruct (failed_resolution_ends_cycle Sim.platform "dial tcp: i/o timeout")
    as (Hper & Hknown & Hunknown).
  split; [|split].
  - eapply (Hper Sim.Unmarshal Sim.EncodeSet (Sim.cfg ["a.com"])
              (Sim.start [Err "dial tcp: i/o timeout"] tt)).
    reflexivity.
  - eapply (Hknown Sim.Decode Sim.EncodeUpdate Sim.Seconds (Sim.cfg ["a.com"])
              (Sim.start [Err "dial tcp: i/o timeout"] "1.2.3.4"));
      [discriminate | reflexivity].
  - eapply (Hunknown Sim.Decode Sim.EncodeUpdate Sim.Seconds (Sim.cfg ["a.com"])
              (Sim.start [Sim.reply 200 ("[" ++ Sim.dataObject "1.2.3.4" ++ "]");
                          Err "dial tcp: i/o timeout"] ""));
      [reflexivity | vm_compute; reflexivity | vm_compute; reflexivity].
Defined.

(** * Domains of one cycle *)

Lemma requestURLs_app (method : string) (evs1 evs2 : list Event) :
  requestURLs method (evs1 ++ evs2) =
  (requestURLs method evs1 ++ requestURLs method evs2)%list.
Proof.
  induction evs1 as [|[req res|lvl msg] evs1 IH]; simpl; [reflexivity| |exact IH].
  destruct (http.Method req =? method); simpl; now rewrite IH.
Qed.

Section Sweep.
Variable P : Platform.
Variable jsonUnmarshal :
  string -> list PerCycle.GodaddyGetDNSRecordResponse.t ->
  result (list PerCycle.GodaddyGetDNSRecordResponse.t).
Variable jsonEncode : list PerCycle.GodaddySetDNSRecordRequest.t -> result string.
Variable cfg : Config.

Local Abbreviation St := (State P unit).
Local Abbreviation checkAndUpdate := (PerCycle.checkAndUpdate P jsonUnmarshal jsonEncode cfg).
Local Abbreviation loopBody := (PerCycle.loopBody P jsonUnmarshal jsonEncode cfg).
Local Abbreviation rangeDomains := (PerCycle.rangeDomains P jsonUnmarshal jsonEncode cfg).

Local Abbreviation readsOf := (PerCycle.readsOf P).

(** A check that returns has sent the read of its domain when that can be
    built, and has logged no verdict. *)
Lemma checkAndUpdate_steps (domain ip : string) (st st1 : St) (err : option error) :
  checkAndUpdate domain ip st = (Done err, st1) ->
  exists evs,
    trace st1 = (trace st ++ evs)%list /\
    requestURLs "GET" evs = readsOf domain /\
    filter PerCycle.isVerdict evs = [].
Proof.
  unfold PerCycle.checkAndUpdate. unfold bind at 1.
  destruct (PerCycle.getDomainAtRecordIP P jsonUnmarshal cfg domain st)
    as [[r|msg] st0] eqn:Hread; [|discriminate].
  unfold PerCycle.readsOf, urlAccepted.
  destruct (getDomainAtRecordIP_steps P jsonUnmarshal cfg domain st st0 _ Hread)
    as [(Hurl & -> & e & He) | (Hurl & res & _ & Htr & _)].
  - inversion He; subst r. unfold ret. intros H. inversion H; subst.
    exists []. rewrite app_nil_r.
    destruct (urlParse P (PerCycle.recordURL domain)); [auto | congruence].
  - rewrite Hurl.
    destruct r as [godaddyIPAddr|e].
    2:{ unfold ret. intros H. inversion H; subst.
        exists [EvHttp (PerCycle.readRequest cfg domain) res]. auto. }
    destruct (ip =? godaddyIPAddr).
    + unfold bind, logf, emit, ret. intros H. inversion H; subst.
      exists [EvHttp (PerCycle.readRequest cfg domain) res;
              EvLog InfoLevel ("No update necessary for " ++ domain)].
      split; [|auto]. simpl. rewrite Htr, <- app_assoc. reflexivity.
    + unfold bind at 1. unfold logf, emit at 1.
      set (st2 := mkState (world st0) _ (globals st0)).
      rewrite write_result_passed_on. intros Hset.
      destruct (setDomainAtRecord_steps P jsonEncode cfg domain ip st2 st1 _ Hset)
        as [(-> & _) | (body & res2 & _ & _ & _ & Htr2 & _)].
      * exists [EvHttp (PerCycle.readRequest cfg domain) res;
                EvLog DebugLevel ("oldIP: " ++ godaddyIPAddr ++ "; newIP: " ++ ip)].
        split; [|auto]. simpl. rewrite Htr, <- app_assoc. reflexivity.
      * exists [EvHttp (PerCycle.readRequest cfg domain) res;
                EvLog DebugLevel ("oldIP: " ++ godaddyIPAddr ++ "; newIP: " ++ ip);
                EvHttp (PerCycle.writeRequest cfg domain body) res2].
        split; [|auto]. rewrite Htr2. simpl. rewrite Htr, <- !app_assoc. reflexivity.
Qed.

(** The error a check returns is the line logged for its domain. *)
Lemma loopBody_reports (ip domain : string) (st st1 : St) (err : option error) :
  checkAndUpdate domain ip st = (Done err, st1) ->
  loopBody ip domain st =
  (Done tt,
   match err with
   | Some err => logged ErrorLevel ("Failed to update DNS records: " ++ err) st1
   | None => logged InfoLevel ("Update successful at " ++ now P (world st1)) st1
   end).
Proof.
  intros Hcheck. unfold PerCycle.loopBody. unfold bind at 1. rewrite Hcheck.
  destruct err; reflexivity.
Qed.

Lemma isVerdict_failed (e : error) :
  PerCycle.isVerdict (EvLog ErrorLevel ("Failed to update DNS records: " ++ e)) = true.
Proof. destruct e; reflexivity. Qed.

Lemma isVerdict_successful (t : string) :
  PerCycle.isVerdict (EvLog InfoLevel ("Update successful at " ++ t)) = true.
Proof. destruct t; reflexivity. Qed.

Lemma loopBody_steps (ip domain : string) (st st' : St) :
  loopBody ip domain st = (Done tt, st') ->
  exists evs,
    trace st' = (trace st ++ evs)%list /\
    requestURLs "GET" evs = readsOf domain /\
    List.length (filter PerCycle.isVerdict evs) = 1%nat.
Proof.
  destruct (checkAndUpdate domain ip st) as [[err|msg] st1] eqn:Hcheck.
  2:{ unfold PerCycle.loopBody. unfold bind at 1. rewrite Hcheck. discriminate. }
  rewrite (loopBody_reports ip domain st st1 err Hcheck).
  destruct (checkAndUpdate_steps domain ip st st1 err Hcheck) as (evs & Htr & Hget & Hverdict).
  intros H. inversion H; subst st'. clear H.
  destruct err as [e|].
  - exists (evs ++ [EvLog ErrorLevel ("Failed to update DNS records: " ++ e)])%list.
    split; [simpl; rewrite Htr, <- app_assoc; reflexivity|].
    rewrite requestURLs_app, filter_app, Hget, Hverdict.
    cbn [filter requestURLs app]. rewrite isVerdict_failed, app_nil_r. auto.
  - exists (evs ++ [EvLog InfoLevel ("Update successful at " ++ now P (world st1))])%list.
    split; [simpl; rewrite Htr, <- app_assoc; reflexivity|].
    rewrite requestURLs_app, filter_app, Hget, Hverdict.
    cbn [filter requestURLs app]. rewrite isVerdict_successful, app_nil_r. auto.
Qed.

(** A sweep over the domains that ends without a panic has read every
    domain that can be read, in order, and logged one verdict for each
    domain. *)
Lemma rangeDomains_steps (ip : string) (ds : list string) :
  forall st st' : St,
    rangeDomains ip ds st = (Done tt, st') ->
    exists evs,
      trace st' = (trace st ++ evs)%list /\
      requestURLs "GET" evs = flat_map readsOf ds /\
      List.length (filter PerCycle.isVerdict evs) = List.length ds.
Proof.
  induction ds as [|domain rest IH]; intros st st'; cbn [PerCycle.rangeDomains].
  - unfold ret. intros H. inversion H; subst. exists []. rewrite app_nil_r. auto.
  - unfold bind at 1.
    destruct (loopBody ip domain st) as [[[]|msg] st1] eqn:Hbody; [|discriminate].
    intros Hrest.
    destruct (loopBody_steps ip domain st st1 Hbody) as (evs1 & Htr1 & Hget1 & Hv1).
    destruct (IH st1 st' Hrest) as (evs2 & Htr2 & Hget2 & Hv2).
    exists (evs1 ++ evs2)%list. split; [|split].
    + rewrite Htr2, Htr1, app_assoc. reflexivity.
    + rewrite requestURLs_app, Hget1, Hget2. reflexivity.
    + rewrite filter_app, length_app, Hv1, Hv2. reflexivity.
Qed.

End Sweep.

Section CachedWrites.
Variable P : Platform.
Variable jsonEncode : list Cached.Update.t -> result string.
Variable SecondsInt64 : Z -> Z.
Variable cfg : Config.

Local Abbreviation St := (State P string).
Local Abbreviation rangeUpdates := (Cached.rangeUpdates P jsonEncode SecondsInt64 cfg).

(** The body [updateDNSEntriesIP] sends for the address [ip]. *)
Local Abbreviation bodyFor ip :=
  (jsonEncode [Cached.Update.mk "@" ip (SecondsInt64 (updateInterval cfg))]).

(** The write loop sends PUT requests only and leaves the global alone.
    It returns nil when every domain, in order, has had its write
    confirmed; it returns an error at the first domain whose write fails,
    and the domains after that one get no request. *)
Lemma rangeUpdates_steps (ip : string) (ds : list string) :
  forall (st st' : St) out,
    rangeUpdates ip ds st = (out, st') ->
    exists evs,
      trace st' = (trace st ++ evs)%list /\
      globals st' = globals st /\
      filter (isMethod "PUT") evs = evs /\
      ((out = Done None /\
        Forall2 (fun d ev => exists buf,
                     bodyFor ip = Ok buf /\ isConfirmedWrite (Cached.updateURL d) buf ev)
          ds evs) \/
       (exists err ds1 d ds2,
           out = Done (Some err) /\ ds = (ds1 ++ d :: ds2)%list /\
           (requestURLs "PUT" evs = map Cached.updateURL ds1 \/
            requestURLs "PUT" evs = map Cached.updateURL (ds1 ++ [d])))).
Proof.
  induction ds as [|domain rest IH]; intros st st' out; cbn [Cached.rangeUpdates].
  - unfold ret. intros H. inversion H; subst. exists []. rewrite app_nil_r.
    repeat split. left. split; [reflexivity | constructor].
  - assert (Hstop : forall (err : error) (evs0 : list Event) (stx : St),
               (Done (Some err), stx) = (out, st') ->
               trace stx = (trace st ++ evs0)%list ->
               globals stx = globals st ->
               filter (isMethod "PUT") evs0 = evs0 ->
               requestURLs "PUT" evs0 = [] \/
               requestURLs "PUT" evs0 = [Cached.updateURL domain] ->
               exists evs,
                 trace st' = (trace st ++ evs)%list /\
                 globals st' = globals st /\
                 filter (isMethod "PUT") evs = evs /\
                 ((out = Done None /\
                   Forall2 (fun d ev => exists buf,
                                bodyFor ip = Ok buf /\
                                isConfirmedWrite (Cached.updateURL d) buf ev)
                     (domain :: rest) evs) \/
                  (exists err ds1 d ds2,
                      out = Done (Some err) /\ domain :: rest = (ds1 ++ d :: ds2)%list /\
                      (requestURLs "PUT" evs = map Cached.updateURL ds1 \/
                       requestURLs "PUT" evs = map Cached.updateURL (ds1 ++ [d]))))).
    { intros err evs0 stx H Htr Hg Hput Hurls. inversion H; subst. exists evs0.
      repeat split; auto. right. exists err, [], domain, rest. auto. }
    assert (Hnone : forall err : error,
               (Done (Some err), st) = (out, st') -> _)
      by (intros err H; apply (Hstop err [] st H); auto using app_nil_r).
    destruct (bodyFor ip) as [buf|e] eqn:Henc; [|apply Hnone].
    unfold NewRequest.
    destruct (urlParse P (Cached.updateURL domain)) as [e|]; [apply Hnone|].
    unfold bind at 1. unfold Do at 1. fold (Cached.updateRequest cfg domain buf).
    destruct (roundTrip P (Cached.updateRequest cfg domain buf) (world st)) as [res w].
    set (ev := EvHttp (Cached.updateRequest cfg domain buf) res).
    set (st1 := mkState w (trace st ++ [ev])%list (globals st)).
    assert (Hone : forall err : error,
               (Done (Some err), st1) = (out, st') -> _)
      by (intros err H; apply (Hstop err [ev] st1 H); auto).
    destruct res as [resp|e]; [|apply Hone].
    destruct (http.StatusCode resp =? 200)%Z eqn:Hstatus; cbn [negb].
    2:{ destruct (io.ReadAll (http.Body resp)) as [body ?]. apply Hone. }
    apply Z.eqb_eq in Hstatus.
    intros Hrest. destruct (IH st1 st' out Hrest) as (evs & Htr & Hg & Hput & Hout).
    exists (ev :: evs). split; [|split; [|split]].
    + rewrite Htr. simpl. now rewrite <- app_assoc.
    + exact Hg.
    + change (filter (isMethod "PUT") (ev :: evs)) with (ev :: filter (isMethod "PUT") evs).
      now rewrite Hput.
    + destruct Hout as [[-> Hall] | (err & ds1 & d & ds2 & -> & -> & Hurls)].
      * left. split; [reflexivity|]. constructor; [|exact Hall].
        exists buf. split; [reflexivity|].
        exists (Cached.updateRequest cfg domain buf), resp. auto.
      * right. exists err, (domain :: ds1), d, ds2.
        split; [reflexivity|]. split; [reflexivity|].
        change (requestURLs "PUT" (ev :: evs))
          with (Cached.updateURL domain :: requestURLs "PUT" evs).
        destruct Hurls as [-> | ->]; [left | right]; reflexivity.
Qed.

End CachedWrites.




(** * The cached address *)

Lemma confirmed_write_not_failed (url payload : string) (ev : Event) :
  isConfirmedWrite url payload ev -> isFailedWrite ev = false.
Proof.
  intros (req & resp & -> & Hm & _ & _ & Hstatus). simpl.
  rewrite Hm, Hstatus. reflexivity.
Qed.

Lemma failed_write_is_PUT (ev : Event) :
  isFailedWrite ev = true -> isMethod "PUT" ev = true.
Proof.
  destruct ev as [req res|lvl msg]; simpl; [|discriminate].
  intros H. now apply andb_true_iff in H.
Qed.

Lemma Forall2_In_r {A B : Type} (R : A -> B -> Prop) (l : list A) (l' : list B) (b : B) :
  Forall2 R l l' -> In b l' -> exists a, In a l /\ R a b.
Proof.
  induction 1 as [|a b' l l' Hab _ IH]; simpl; [contradiction|].
  intros [<-|Hin]; [eauto|].
  destruct (IH Hin) as (a' & Ha' & HR). eauto.
Qed.

(** C7. Once an address is cached, a run of [updateRecords] changes the
    cached [lastIPAddr] only after the provider has confirmed, with status
    200, a write of the new address for every configured domain, in
    order; so when any write of the run meets a transport error or a
    status other than 200, the cached address is what it was. *)
Theorem lastIPAddr_changes_only_after_confirmed_writes :
  forall (P : Platform) jsonDecode jsonEncode SecondsInt64 cfg
         (st st' : State P string) (out : Outcome (option error)),
    globals st <> "" ->
    Cached.updateRecords P jsonDecode jsonEncode SecondsInt64 cfg st = (out, st') ->
    exists evs,
      trace st' = (trace st ++ evs)%list /\
      (globals st' <> globals st ->
       out = Done None /\
       Forall2 (fun d ev => exists buf,
                    jsonEncode [Cached.Update.mk "@" (globals st')
                                  (SecondsInt64 (updateInterval cfg))] = Ok buf /\
                    isConfirmedWrite (Cached.updateURL d) buf ev)
         (domains cfg) (filter (isMethod "PUT") evs)) /\
      ((exists ev, In ev evs /\ isFailedWrite ev = true) -> globals st' = globals st).
Proof.
  intros P dec enc secs cfg st st' out Hknown Hrun.
  (* the third part follows from the second *)
  assert (Hthird : forall evs,
             (globals st' <> globals st ->
              out = Done None /\
              Forall2 (fun d ev => exists buf,
                           enc [Cached.Update.mk "@" (globals st')
                                  (secs (updateInterval cfg))] = Ok buf /\
                           isConfirmedWrite (Cached.updateURL d) buf ev)
                (domains cfg) (filter (isMethod "PUT") evs)) ->
             (exists ev, In ev evs /\ isFailedWrite ev = true) ->
             globals st' = globals st).
  { intros evs Hsecond (ev & Hin & Hfail).
    destruct (string_dec (globals st') (globals st)) as [Heq|Hne]; [exact Heq|].
    destruct (Hsecond Hne) as [_ Hall].
    assert (Hput : In ev (filter (isMethod "PUT") evs))
      by (apply filter_In; auto using failed_write_is_PUT).
    destruct (Forall2_In_r _ _ _ _ Hall Hput) as (d & _ & buf & _ & Hok).
    apply confirmed_write_not_failed in Hok. congruence. }
  cut (exists evs,
          trace st' = (trace st ++ evs)%list /\
          (globals st' <> globals st ->
           out = Done None /\
           Forall2 (fun d ev => exists buf,
                        enc [Cached.Update.mk "@" (globals st')
                               (secs (updateInterval cfg))] = Ok buf /\
                        isConfirmedWrite (Cached.updateURL d) buf ev)
             (domains cfg) (filter (isMethod "PUT") evs))).
  { intros (evs & Htr & Hsecond). exists evs. eauto. }
  clear Hthird.
  unfold Cached.updateRecords in Hrun.
  apply String.eqb_neq in Hknown.
  unfold bind at 1 in Hrun. unfold getGlobals at 1 in Hrun.
  unfold bind at 1 in Hrun. rewrite Hknown in Hrun. unfold ret at 1 in Hrun.
  unfold bind at 1 in Hrun.
  destruct (Cached_getPublicIPAddress_steps P st) as (r & st1 & Hres & Hshape).
  rewrite Hres in Hrun.
  assert (Hpub : exists evs1,
             trace st1 = (trace st ++ evs1)%list /\ globals st1 = globals st /\
             filter (isMethod "PUT") evs1 = []).
  { destruct Hshape as [->|[res Hcall]].
    - exists []. rewrite app_nil_r. auto.
    - exists [EvHttp Cached.publicIPRequest res].
      rewrite Hcall at 1 2. auto. }
  destruct Hpub as (evs1 & Htr1 & Hg1 & Hput1).
  destruct r as [currIPAddr|e].
  2:{ unfold ret in Hrun. inversion Hrun; subst. exists evs1. split; [exact Htr1|].
      intros Hne. congruence. }
  unfold bind at 1 in Hrun. unfold getGlobals at 1 in Hrun.
  destruct (currIPAddr =? globals st1) eqn:Hsame.
  { unfold bind, logf, emit, ret in Hrun. inversion Hrun; subst. simpl.
    exists (evs1 ++ [EvLog DebugLevel "Address still the same - no update necessary"])%list.
    split; [rewrite Htr1, <- app_assoc; reflexivity|]. intros Hne. congruence. }
  unfold bind at 1 in Hrun. unfold logf, emit at 1 in Hrun.
  set (line := EvLog DebugLevel ("oldIP: " ++ globals st1 ++ "; newIP: " ++ currIPAddr)) in Hrun.
  set (st2 := mkState (world st1) (trace st1 ++ [line])%list (globals st1)) in Hrun.
  unfold bind at 1 in Hrun.
  destruct (Cached.updateDNSEntriesIP P enc secs cfg currIPAddr st2) as [out3 st3] eqn:Hupd.
  destruct (rangeUpdates_steps P enc secs cfg currIPAddr (domains cfg) st2 st3 _ Hupd)
    as (evs3 & Htr3 & Hg3 & Hput3 & Hout3).
  assert (Htr : trace st3 = (trace st ++ (evs1 ++ [line] ++ evs3))%list).
  { rewrite Htr3. subst st2. simpl. rewrite Htr1, <- !app_assoc. reflexivity. }
  exists (evs1 ++ [line] ++ evs3)%list.
  destruct Hout3 as [[-> Hall] | (err & ds1 & d & ds2 & -> & _ & _)].
  - unfold bind, setGlobals, ret in Hrun. inversion Hrun; subst out st'. simpl.
    split; [exact Htr|]. intros _. split; [reflexivity|].
    rewrite filter_app, Hput1. subst line. cbn [filter isMethod app].
    rewrite Hput3. exact Hall.
  - unfold ret in Hrun. inversion Hrun; subst out st'.
    split; [exact Htr|]. intros Hne. exfalso. apply Hne.
    rewrite Hg3. subst st2. simpl. exact Hg1.
Qed.

Lemma lastIPAddr_changes_witness :
  exists evs,
    trace (snd (Cached.updateRecords Sim.platform Sim.Decode Sim.EncodeUpdate Sim.Seconds
                  (Sim.cfg ["a.com"])
                  (Sim.start [Sim.reply 200 "5.6.7.8"; Sim.reply 500 "rate limited"]
                     "1.2.3.4"))) = evs /\
    ((exists ev, In ev evs /\ isFailedWrite ev = true) ->
     globals (snd (Cached.updateRecords Sim.platform Sim.Decode Sim.EncodeUpdate Sim.Seconds
                     (Sim.cfg ["a.com"])
                     (Sim.start [Sim.reply 200 "5.6.7.8"; Sim.reply 500 "rate limited"]
                        "1.2.3.4"))) = "1.2.3.4").
Proof.
  destruct (lastIPAddr_changes_only_after_confirmed_writes Sim.platform Sim.Decode
              Sim.EncodeUpdate Sim.Seconds (Sim.cfg ["a.com"])
              (Sim.start [Sim.reply 200 "5.6.7.8"; Sim.reply 500 "rate limited"] "1.2.3.4")
              _ _ ltac:(discriminate) eq_refl)
    as (evs & Htr & _ & Hfailed).
  exists evs. split; [exact Htr | exact Hfailed].
Defined.

(** * The initial fetch of the cached revision *)

Section CachedFetch.
Variable P : Platform.
Variable jsonDecode : io.Reader -> list Cached.Entry.t -> result (list Cached.Entry.t).
Variable cfg : Config.

(** On domains that all report, the loop returns what [settle] makes of
    the reports. *)
Lemma rangeEntries_settles (ds : list string) :
  forall (retval : string) (st : State P string) (ips : list string),
    Cached.Reports P jsonDecode cfg ds (world st) ips ->
    fst (Cached.rangeEntries P jsonDecode cfg retval ds st)
    = Done (Ok (Cached.settle retval ips)).
Proof.
  induction ds as [|domain rest IH]; intros retval st ips Hrep;
    inversion Hrep as [|? ? ? w' resp first more ips' Hurl Hrt Hdec Hrest]; subst;
    cbn [Cached.rangeEntries Cached.settle].
  - reflexivity.
  - unfold NewRequest. rewrite Hurl.
    unfold bind at 1. unfold Do at 1. fold (Cached.entriesRequest cfg domain).
    rewrite Hrt, Hdec.
    destruct (negb (retval =? Cached.Entry.Data first) && negb (retval =? "")).
    + reflexivity.
    + apply IH. exact Hrest.
Qed.

(** The fetch takes [data[0]] unguarded as well: a first domain whose body
    decodes to the empty array makes it panic. *)
Lemma rangeEntries_empty_array_panics (retval domain : string) (rest : list string)
    (st : State P string) resp w' :
  urlParse P (Cached.entriesURL domain) = None ->
  roundTrip P (Cached.entriesRequest cfg domain) (world st) = (Ok resp, w') ->
  jsonDecode (http.Body resp) [Cached.Entry.mk ""] = Ok [] ->
  fst (Cached.rangeEntries P jsonDecode cfg retval (domain :: rest) st)
  = Panicked "runtime error: index out of range [0] with length 0".
Proof.
  intros Hurl Hrt Hdec. cbn [Cached.rangeEntries]. unfold NewRequest. rewrite Hurl.
  unfold bind at 1. unfold Do at 1. fold (Cached.entriesRequest cfg domain).
  rewrite Hrt, Hdec. reflexivity.
Qed.

End CachedFetch.

Lemma settle_after_nonempty (retval : string) (ips : list string) (b : string) :
  retval <> "" -> In b ips -> b <> retval -> Cached.settle retval ips = "0.0.0.0".
Proof.
  intros Hne. induction ips as [|ip rest IH]; simpl; [contradiction|].
  intros Hin Hb.
  destruct (String.eqb_spec retval ip) as [<-|Hdiff]; simpl.
  - destruct Hin as [->|Hin]; [congruence | auto].
  - apply String.eqb_neq in Hne. now rewrite Hne.
Qed.

Lemma settle_conflicting (ips : list string) :
  Cached.conflicting ips -> forall retval, Cached.settle retval ips = "0.0.0.0".
Proof.
  intros (l1 & a & l2 & b & l3 & -> & Ha & Hb).
  induction l1 as [|x l1 IH]; intros retval; simpl.
  - destruct (negb (retval =? a) && negb (retval =? "")); [reflexivity|].
    apply (settle_after_nonempty a _ b Ha); [|exact Hb].
    apply in_or_app. right. simpl. auto.
  - destruct (negb (retval =? x) && negb (retval =? "")); [reflexivity | apply IH].
Qed.

Lemma last_nonempty {A : Type} (l : list A) (d d' : A) :
  l <> [] -> last l d = last l d'.
Proof.
  induction l as [|a [|b l] IH]; intros Hne; [congruence | reflexivity |].
  change (last (b :: l) d = last (b :: l) d'). apply IH. discriminate.
Qed.

Lemma settle_agreeing (ips : list string) :
  ~ Cached.conflicting ips ->
  forall retval,
    retval = "" \/ (forall b, In b ips -> b = retval) ->
    Cached.settle retval ips = last ips retval.
Proof.
  induction ips as [|ip rest IH]; intros Hno retval Hret; [reflexivity|].
  cbn [Cached.settle].
  assert (Hcond : negb (retval =? ip) && negb (retval =? "") = false).
  { destruct Hret as [->|Hall]; [apply andb_false_r|].
    rewrite (Hall ip (or_introl eq_refl)), String.eqb_refl. reflexivity. }
  rewrite Hcond.
  assert (Hrest : ~ Cached.conflicting rest).
  { intros (l1 & a & l2 & b & l3 & -> & Ha & Hb). apply Hno.
    exists (ip :: l1), a, l2, b, l3. auto. }
  assert (Hip : ip = "" \/ (forall b, In b rest -> b = ip)).
  { destruct (string_dec ip "") as [Hempty|Hfull]; [auto|]. right.
    intros b Hin. destruct (string_dec b ip) as [Heq|Hdiff]; [exact Heq|].
    exfalso. apply Hno. apply in_split in Hin. destruct Hin as (l2 & l3 & ->).
    exists [], ip, l2, b, l3. auto. }
  rewrite (IH Hrest ip Hip).
  destruct rest as [|x rest']; [reflexivity|].
  change (last (ip :: x :: rest') retval) with (last (x :: rest') retval).
  apply last_nonempty. discriminate.
Qed.

Lemma agreeing_common (ips : list string) (ip : string) :
  ~ Cached.conflicting ips -> In ip ips -> ip <> "" -> ip = last ips "".
Proof.
  intros Hno Hin Hne. apply in_split in Hin. destruct Hin as (l1 & l2 & ->).
  destruct (exists_last (l := ip :: l2)) as (l' & z & Heq); [discriminate|].
  assert (Hlast : last (l1 ++ ip :: l2) "" = z).
  { rewrite Heq, app_assoc. apply last_last. }
  rewrite Hlast.
  destruct l' as [|y l']; simpl in Heq.
  - inversion Heq. congruence.
  - inversion Heq as [[Hy Hl2]]. subst y l2.
    destruct (string_dec z ip) as [Hz|Hz]; [congruence|].
    exfalso. apply Hno. exists l1, ip, l', z, []. auto.
Qed.

(** C10, as stated, fails: a.com reports 1.2.3.4 and b.com reports the
    empty string, so no two domains report different non-empty values,
    and yet the fetch returns the sentinel and not the one value
    reported. *)
Lemma fetch_returns_sentinel_on_empty_report :
  fst (Cached.getDNSEntriesIP Sim.platform Sim.Decode (Sim.cfg ["a.com"; "b.com"])
         (Sim.start [Sim.reply 200 ("[" ++ Sim.dataObject "1.2.3.4" ++ "]");
                     Sim.reply 200 ("[" ++ Sim.dataObject "" ++ "]")] ""))
  = Done (Ok "0.0.0.0") /\
  Cached.Reports Sim.platform Sim.Decode (Sim.cfg ["a.com"; "b.com"]) ["a.com"; "b.com"]
    [Sim.reply 200 ("[" ++ Sim.dataObject "1.2.3.4" ++ "]");
     Sim.reply 200 ("[" ++ Sim.dataObject "" ++ "]")]
    ["1.2.3.4"; ""] /\
  ~ Cached.distinctNonEmpty ["1.2.3.4"; ""].
Proof.
  split; [reflexivity|]. split.
  - eapply (Cached.Reports_cons Sim.platform Sim.Decode _ "a.com" ["b.com"] _ _ _
              (Cached.Entry.mk "1.2.3.4") []); try reflexivity.
    eapply (Cached.Reports_cons Sim.platform Sim.Decode _ "b.com" [] _ _ _
              (Cached.Entry.mk "") []); try reflexivity.
    constructor.
  - intros (l1 & a & l2 & b & l3 & Heq & Ha & Hb & Hab).
    destruct l1 as [|x [|y l1]]; simpl in Heq.
    + inversion Heq as [[Hx Hrest]]. destruct l2 as [|y l2]; simpl in Hrest.
      * inversion Hrest. congruence.
      * inversion Hrest as [[Hy Hnil]]. destruct l2; discriminate.
    + inversion Heq as [[Hx Hy Hnil]]. destruct l2; discriminate.
    + inversion Heq as [[Hx Hy Hnil]]. destruct l1; discriminate.
Qed.

(** C10 (amended). When every configured domain reports, the initial
    fetch returns the sentinel "0.0.0.0" as soon as some domain reports a
    value different from a non-empty value reported by an earlier domain:
    so whenever two domains report different non-empty values, and also
    when an empty report follows a non-empty one. In every other case it
    returns the value of the last domain, and every non-empty value
    reported is that value. *)
Theorem getDNSEntriesIP_sentinel_or_last :
  forall (P : Platform) jsonDecode cfg (st : State P string) (ips : list string),
    Cached.Reports P jsonDecode cfg (domains cfg) (world st) ips ->
    (Cached.conflicting ips ->
     fst (Cached.getDNSEntriesIP P jsonDecode cfg st) = Done (Ok "0.0.0.0")) /\
    (Cached.distinctNonEmpty ips ->
     fst (Cached.getDNSEntriesIP P jsonDecode cfg st) = Done (Ok "0.0.0.0")) /\
    (~ Cached.conflicting ips ->
     fst (Cached.getDNSEntriesIP P jsonDecode cfg st) = Done (Ok (last ips "")) /\
     forall ip, In ip ips -> ip <> "" -> ip = last ips "").
Proof.
  intros P dec cfg st ips Hrep.
  unfold Cached.getDNSEntriesIP.
  rewrite (rangeEntries_settles P dec cfg (domains cfg) "" st ips Hrep).
  split; [|split].
  - intros Hc. now rewrite settle_conflicting.
  - intros (l1 & a & l2 & b & l3 & Heq & Ha & _ & Hab).
    rewrite settle_conflicting; [reflexivity|].
    exists l1, a, l2, b, l3. auto.
  - intros Hno. split.
    + rewrite settle_agreeing; auto.
    + intros ip. now apply agreeing_common.
Qed.

Lemma getDNSEntriesIP_sentinel_witness :
  fst (Cached.getDNSEntriesIP Sim.platform Sim.Decode (Sim.cfg ["a.com"; "b.com"])
         (Sim.start [Sim.reply 200 ("[" ++ Sim.dataObject "1.2.3.4" ++ "]");
                     Sim.reply 200 ("[" ++ Sim.dataObject "5.6.7.8" ++ "]")] ""))
  = Done (Ok "0.0.0.0").
Proof.
  refine (proj1 (proj2 (getDNSEntriesIP_sentinel_or_last Sim.platform Sim.Decode
                          (Sim.cfg ["a.com"; "b.com"])
                          (Sim.start [Sim.reply 200 ("[" ++ Sim.dataObject "1.2.3.4" ++ "]");
                                      Sim.reply 200 ("[" ++ Sim.dataObject "5.6.7.8" ++ "]")] "")
                          ["1.2.3.4"; "5.6.7.8"] _)) _).
  - eapply (Cached.Reports_cons Sim.platform Sim.Decode _ "a.com" ["b.com"] _ _ _
              (Cached.Entry.mk "1.2.3.4") []); try reflexivity.
    eapply (Cached.Reports_cons Sim.platform Sim.Decode _ "b.com" [] _ _ _
              (Cached.Entry.mk "5.6.7.8") []); try reflexivity.
    constructor.
  - exists [], "1.2.3.4", [], "5.6.7.8", []. repeat split; discriminate.
Defined.

(** * Further properties: start-up *)

Lemma Split_count (s : string) (sep : ascii) :
  List.length (strings.Split s sep) = S (countByte sep s).
Proof.
  induction s as [|c rest IH]; simpl; [reflexivity|].
  destruct (Ascii.eqb c sep); simpl; [now rewrite IH|].
  destruct (strings.Split rest sep) as [|piece pieces]; simpl in *; [discriminate | exact IH].
Qed.

Lemma Split_pieces_free (s : string) (sep : ascii) :
  Forall (fun piece => countByte sep piece = 0%nat) (strings.Split s sep).
Proof.
  induction s as [|c rest IH]; simpl.
  - constructor; [reflexivity | constructor].
  - destruct (Ascii.eqb c sep) eqn:Hc.
    + constructor; [reflexivity | exact IH].
    + destruct (strings.Split rest sep) as [|piece pieces].
      * constructor; [simpl; now rewrite Hc | constructor].
      * inversion IH as [|? ? Hpiece Hpieces]; subst.
        constructor; [simpl; now rewrite Hc | exact Hpieces].
Qed.

Lemma concat_Split (s : string) (sep : ascii) :
  String.concat (String sep EmptyString) (strings.Split s sep) = s.
Proof.
  induction s as [|c rest IH]; [reflexivity|].
  cbn [strings.Split].
  destruct (Ascii.eqb_spec c sep) as [->|Hc].
  - pose proof (Split_nonempty rest sep) as Hne.
    destruct (strings.Split rest sep) as [|piece pieces]; [congruence|].
    change (String sep (String.concat (String sep EmptyString) (piece :: pieces))
            = String sep rest).
    now rewrite IH.
  - destruct (strings.Split rest sep) as [|piece [|next pieces]].
    + simpl in IH. subst rest. reflexivity.
    + simpl in IH. subst rest. reflexivity.
    + change (String c (String.concat (String sep EmptyString) (piece :: next :: pieces))
              = String c rest).
      now rewrite IH.
Qed.

(** X1. [init] lets the process start exactly when both credentials are
    set: neither the interval nor the domain list can stop it. The
    configuration it hands over holds the credentials as they are, the
    pieces of [GD_DOMAINS] between its commas and the parsed interval, or
    600 seconds with one warning when the interval does not parse; with a
    credential missing it exits with code 1. *)
Theorem init_starts_iff_credentials :
  forall (Getenv : string -> string) (ParseDuration : string -> result Z),
    (Getenv "GD_API_KEY" <> "" /\ Getenv "GD_API_SECRET" <> "" ->
     Startup.init Getenv ParseDuration =
     Startup.Running
       (mkConfig
          (match ParseDuration (Getenv "GD_INTERVAL") with
           | Ok d => d
           | Err _ => 600000000000%Z
           end)
          (Getenv "GD_API_KEY") (Getenv "GD_API_SECRET")
          (strings.Split (Getenv "GD_DOMAINS") ","%char))
       (match ParseDuration (Getenv "GD_INTERVAL") with
        | Ok _ => []
        | Err _ => [(WarnLevel, "No update interval given, defaulting to 600 seconds.")]
        end)) /\
    (Getenv "GD_API_KEY" = "" \/ Getenv "GD_API_SECRET" = "" ->
     exists log, Startup.init Getenv ParseDuration = Startup.Exit 1 log).
Proof.
  intros Getenv pd. split.
  - intros [Hkey Hsecret]. unfold Startup.init.
    apply String.eqb_neq in Hkey, Hsecret. rewrite Hkey, Hsecret.
    pose proof (Split_length (Getenv "GD_DOMAINS") ","%char) as Hlen.
    apply Nat.ltb_ge in Hlen. rewrite Hlen.
    destruct (pd (Getenv "GD_INTERVAL")); reflexivity.
  - intros Hmissing. unfold Startup.init.
    destruct (pd (Getenv "GD_INTERVAL")) as [d|e];
      destruct (String.eqb_spec (Getenv "GD_API_KEY") "") as [Hkey|Hkey];
      try (eexists; reflexivity);
      destruct (String.eqb_spec (Getenv "GD_API_SECRET") "") as [Hsecret|Hsecret];
      try (eexists; reflexivity);
      destruct Hmissing; contradiction.
Qed.

Lemma init_starts_iff_credentials_witness :
  Startup.init (Sim.env "a.com,b.com") (fun _ => Err "time: invalid duration") =
  Startup.Running (mkConfig 600000000000 "key" "secret" ["a.com"; "b.com"])
    [(WarnLevel, "No update interval given, defaulting to 600 seconds.")].
Proof.
  apply (proj1 (init_starts_iff_credentials (Sim.env "a.com,b.com")
                  (fun _ => Err "time: invalid duration"))).
  split; discriminate.
Defined.

(** X2. The domain list of the configuration is [GD_DOMAINS] cut at its
    commas and nothing else: joining the domains with commas gives the
    variable back, no domain holds a comma, and there is one domain more
    than there are commas, so that blanks are kept and an empty piece is a
    domain. *)
Theorem init_domains_round_trip :
  forall (Getenv : string -> string) (ParseDuration : string -> result Z)
         (cfg : Config) (log : list (Level * string)),
    Startup.init Getenv ParseDuration = Startup.Running cfg log ->
    String.concat "," (domains cfg) = Getenv "GD_DOMAINS" /\
    Forall (fun d => countByte ","%char d = 0%nat) (domains cfg) /\
    List.length (domains cfg) = S (countByte ","%char (Getenv "GD_DOMAINS")).
Proof.
  intros Getenv pd cfg log. unfold Startup.init.
  destruct (pd (Getenv "GD_INTERVAL")) as [d|e];
    destruct (Getenv "GD_API_KEY" =? ""); try discriminate;
    destruct (Getenv "GD_API_SECRET" =? ""); try discriminate;
    destruct (List.length (strings.Split (Getenv "GD_DOMAINS") ","%char) <? 1)%nat;
    try discriminate;
    intros H; inversion H; subst; cbn [domains];
    (split; [apply concat_Split | split; [apply Split_pieces_free | apply Split_count]]).
Qed.

Lemma init_domains_round_trip_witness :
  String.concat "," ["a.com"; " b.com"; ""] = "a.com, b.com," /\
  Forall (fun d => countByte ","%char d = 0%nat) ["a.com"; " b.com"; ""] /\
  List.length ["a.com"; " b.com"; ""] = 3%nat.
Proof.
  apply (init_domains_round_trip (Sim.env "a.com, b.com,") (fun _ => Ok 1000000000%Z)
           (mkConfig 1000000000 "key" "secret" ["a.com"; " b.com"; ""]) []).
  reflexivity.
Defined.

(** * Further properties: the GoDaddy client *)

Section ClientResults.
Variable P : Platform.
Variable jsonUnmarshal :
  string -> list PerCycle.GodaddyGetDNSRecordResponse.t ->
  result (list PerCycle.GodaddyGetDNSRecordResponse.t).
Variable jsonEncode : list PerCycle.GodaddySetDNSRecordRequest.t -> result string.
Variable cfg : Config.

Local Abbreviation St := (State P unit).
Local Abbreviation getDomainAtRecordIP := (PerCycle.getDomainAtRecordIP P jsonUnmarshal cfg).
Local Abbreviation setDomainAtRecord := (PerCycle.setDomainAtRecord P jsonEncode cfg).
Local Abbreviation checkAndUpdate := (PerCycle.checkAndUpdate P jsonUnmarshal jsonEncode cfg).

(** The run of a read once its request is built, by what the transport
    delivers. *)
Lemma getDomainAtRecordIP_sent (domain : string) (st : St) res w' :
  urlParse P (PerCycle.recordURL domain) = None ->
  roundTrip P (PerCycle.readRequest cfg domain) (world st) = (res, w') ->
  getDomainAtRecordIP domain st =
  (match res with
   | Err err => Done (Err err)
   | Ok httpRes =>
       match io.ReadAll (http.Body httpRes) with
       | (_, Some err) => Done (Err err)
       | (httpResBytes, None) =>
           if negb (http.StatusCode httpRes =? http.StatusOK)%Z
           then Done (Err ("godaddy sent non-ok status code "
                           ++ fmtInt (http.StatusCode httpRes)
                           ++ ", body: " ++ httpResBytes))
           else match jsonUnmarshal httpResBytes [] with
                | Err err => Done (Err err)
                | Ok [] => Panicked "runtime error: index out of range [0] with length 0"
                | Ok (first :: _) =>
                    Done (Ok (PerCycle.GodaddyGetDNSRecordResponse.Data first))
                end
       end
   end,
   called (PerCycle.readRequest cfg domain) res w' st).
Proof.
  intros Hurl Hrt.
  unfold PerCycle.getDomainAtRecordIP, NewRequest. rewrite Hurl.
  unfold bind, Do. fold (PerCycle.readRequest cfg domain). rewrite Hrt.
  destruct res as [resp|e]; [|reflexivity].
  destruct (io.ReadAll (http.Body resp)) as [bs [e|]]; [reflexivity|].
  destruct (negb (http.StatusCode resp =? http.StatusOK)%Z); [reflexivity|].
  destruct (jsonUnmarshal bs []) as [[|first more]|e]; reflexivity.
Qed.

(** The events a check adds to the trace, whatever its outcome: nothing,
    the read, the read and a log line, or the read, the debug line and
    the write, the last only after a read that returned a record other
    than [ip]. *)
Lemma checkAndUpdate_events (domain ip : string) (st st' : St) out :
  checkAndUpdate domain ip st = (out, st') ->
  exists evs,
    trace st' = (trace st ++ evs)%list /\
    (evs = [] \/
     (exists res, evs = [EvHttp (PerCycle.readRequest cfg domain) res]) \/
     (exists res lvl msg,
         evs = [EvHttp (PerCycle.readRequest cfg domain) res; EvLog lvl msg]) \/
     (exists res msg body res2 r st1,
         evs = [EvHttp (PerCycle.readRequest cfg domain) res; EvLog DebugLevel msg;
                EvHttp (PerCycle.writeRequest cfg domain body) res2] /\
         jsonEncode [PerCycle.GodaddySetDNSRecordRequest.mk ip 600] = Ok body /\
         getDomainAtRecordIP domain st = (Done (Ok r), st1) /\ r <> ip)).
Proof.
  unfold PerCycle.checkAndUpdate. unfold bind at 1.
  destruct (PerCycle.getDomainAtRecordIP P jsonUnmarshal cfg domain st)
    as [[r|msg] st0] eqn:Hread.
  2:{ intros H. inversion H; subst.
      destruct (getDomainAtRecordIP_steps P jsonUnmarshal cfg domain st st' _ Hread)
        as [(_ & _ & e & He) | (_ & res & _ & Htr & _)]; [discriminate|].
      exists [EvHttp (PerCycle.readRequest cfg domain) res]. eauto. }
  destruct (getDomainAtRecordIP_steps P jsonUnmarshal cfg domain st st0 _ Hread)
    as [(_ & -> & e & He) | (_ & res & _ & Htr & _)].
  - inversion He; subst r. unfold ret. intros H. inversion H; subst.
    exists []. rewrite app_nil_r. auto.
  - destruct r as [godaddyIPAddr|e].
    2:{ unfold ret. intros H. inversion H; subst.
        exists [EvHttp (PerCycle.readRequest cfg domain) res]. eauto. }
    destruct (String.eqb_spec ip godaddyIPAddr) as [Heq|Hne].
    + unfold bind, logf, emit, ret. intros H. inversion H; subst.
      exists [EvHttp (PerCycle.readRequest cfg domain) res;
              EvLog InfoLevel ("No update necessary for " ++ domain)].
      split; [simpl; rewrite Htr, <- app_assoc; reflexivity|].
      right. right. left. eauto.
    + unfold bind at 1. unfold logf, emit at 1.
      set (st2 := mkState (world st0) _ (globals st0)).
      rewrite write_result_passed_on. intros Hset.
      destruct (setDomainAtRecord_steps P jsonEncode cfg domain ip st2 st' _ Hset)
        as [(-> & _) | (body & res2 & Henc & _ & _ & Htr2 & _)].
      * exists [EvHttp (PerCycle.readRequest cfg domain) res;
                EvLog DebugLevel ("oldIP: " ++ godaddyIPAddr ++ "; newIP: " ++ ip)].
        split; [simpl; rewrite Htr, <- app_assoc; reflexivity|].
        right. right. left. eauto.
      * exists [EvHttp (PerCycle.readRequest cfg domain) res;
                EvLog DebugLevel ("oldIP: " ++ godaddyIPAddr ++ "; newIP: " ++ ip);
                EvHttp (PerCycle.writeRequest cfg domain body) res2].
        split; [rewrite Htr2; simpl; rewrite Htr, <- !app_assoc; reflexivity|].
        right. right. right.
        exists res, ("oldIP: " ++ godaddyIPAddr ++ "; newIP: " ++ ip), body, res2,
          godaddyIPAddr, st0.
        repeat split; auto.
Qed.

End ClientResults.

(** X3. [getDomainAtRecordIP] returns an address only from a response
    with status 200 whose body was read to its end and decoded to a
    non-empty array; the address is the [data] of the first element,
    whatever follows it. *)
Theorem read_returns_first_record_of_200 :
  forall (P : Platform) jsonUnmarshal cfg (domain r : string) (st st' : State P unit),
    PerCycle.getDomainAtRecordIP P jsonUnmarshal cfg domain st = (Done (Ok r), st') ->
    exists resp bs first more,
      roundTrip P (PerCycle.readRequest cfg domain) (world st) = (Ok resp, world st') /\
      http.StatusCode resp = http.StatusOK /\
      io.ReadAll (http.Body resp) = (bs, None) /\
      jsonUnmarshal bs [] = Ok (first :: more) /\
      r = PerCycle.GodaddyGetDNSRecordResponse.Data first.
Proof.
  intros P um cfg domain r st st' Hread.
  destruct (getDomainAtRecordIP_steps P um cfg domain st st' _ Hread)
    as [(_ & _ & e & He) | (Hurl & res & Hrt & _ & _)]; [discriminate|].
  rewrite (getDomainAtRecordIP_sent P um cfg domain st res (world st') Hurl Hrt) in Hread.
  destruct res as [resp|e]; [|discriminate].
  destruct (io.ReadAll (http.Body resp)) as [bs [e|]] eqn:Hbody; [discriminate|].
  destruct (http.StatusCode resp =? http.StatusOK)%Z eqn:Hstatus; [|discriminate].
  cbn [negb] in Hread.
  destruct (um bs []) as [[|first more]|e] eqn:Hjson; try discriminate.
  inversion Hread; subst r.
  exists resp, bs, first, more. apply Z.eqb_eq in Hstatus. auto.
Qed.

Lemma read_returns_first_record_witness :
  exists resp bs first more,
    roundTrip Sim.platform (PerCycle.readRequest (Sim.cfg ["a.com"]) "a.com")
      [Sim.reply 200 ("[" ++ Sim.dataObject "1.2.3.4" ++ "," ++ Sim.dataObject "9.9.9.9" ++ "]")]
    = (Ok resp, []) /\
    http.StatusCode resp = http.StatusOK /\
    io.ReadAll (http.Body resp) = (bs, None) /\
    Sim.Unmarshal bs [] = Ok (first :: more) /\
    "1.2.3.4" = PerCycle.GodaddyGetDNSRecordResponse.Data first.
Proof.
  apply (read_returns_first_record_of_200 Sim.platform Sim.Unmarshal (Sim.cfg ["a.com"])
           "a.com" "1.2.3.4"
           (Sim.start [Sim.reply 200 ("[" ++ Sim.dataObject "1.2.3.4" ++ ","
                                        ++ Sim.dataObject "9.9.9.9" ++ "]")] tt)
           (@called Sim.platform unit (PerCycle.readRequest (Sim.cfg ["a.com"]) "a.com")
              (Sim.reply 200 ("[" ++ Sim.dataObject "1.2.3.4" ++ ","
                                ++ Sim.dataObject "9.9.9.9" ++ "]"))
              [] (Sim.start [Sim.reply 200 ("[" ++ Sim.dataObject "1.2.3.4" ++ ","
                                              ++ Sim.dataObject "9.9.9.9" ++ "]")] tt))).
  reflexivity.
Defined.

(** X4. Every failure of a read but the empty array comes back as an error
    value: a transport error and an error of reading the body unchanged,
    a status other than 200 as a message with the status code and the
    body, which is then not decoded, and a body that does not decode as
    the decoder's error. *)
Theorem read_failures_are_returned :
  forall (P : Platform) jsonUnmarshal cfg (domain : string) (st : State P unit),
    urlParse P (PerCycle.recordURL domain) = None ->
    (forall e w',
        roundTrip P (PerCycle.readRequest cfg domain) (world st) = (Err e, w') ->
        fst (PerCycle.getDomainAtRecordIP P jsonUnmarshal cfg domain st) = Done (Err e)) /\
    (forall resp w' bs e,
        roundTrip P (PerCycle.readRequest cfg domain) (world st) = (Ok resp, w') ->
        io.ReadAll (http.Body resp) = (bs, Some e) ->
        fst (PerCycle.getDomainAtRecordIP P jsonUnmarshal cfg domain st) = Done (Err e)) /\
    (forall resp w' bs,
        roundTrip P (PerCycle.readRequest cfg domain) (world st) = (Ok resp, w') ->
        io.ReadAll (http.Body resp) = (bs, None) ->
        http.StatusCode resp <> http.StatusOK ->
        fst (PerCycle.getDomainAtRecordIP P jsonUnmarshal cfg domain st) =
        Done (Err ("godaddy sent non-ok status code " ++ fmtInt (http.StatusCode resp)
                   ++ ", body: " ++ bs))) /\
    (forall resp w' bs e,
        roundTrip P (PerCycle.readRequest cfg domain) (world st) = (Ok resp, w') ->
        io.ReadAll (http.Body resp) = (bs, None) ->
        http.StatusCode resp = http.StatusOK ->
        jsonUnmarshal bs [] = Err e ->
        fst (PerCycle.getDomainAtRecordIP P jsonUnmarshal cfg domain st) = Done (Err e)).
Proof.
  intros P um cfg domain st Hurl. repeat split.
  - intros e w' Hrt.
    now rewrite (getDomainAtRecordIP_sent P um cfg domain st _ w' Hurl Hrt).
  - intros resp w' bs e Hrt Hbody.
    rewrite (getDomainAtRecordIP_sent P um cfg domain st _ w' Hurl Hrt).
    cbn [fst]. now rewrite Hbody.
  - intros resp w' bs Hrt Hbody Hstatus.
    rewrite (getDomainAtRecordIP_sent P um cfg domain st _ w' Hurl Hrt).
    cbn [fst]. rewrite Hbody.
    apply Z.eqb_neq in Hstatus. now rewrite Hstatus.
  - intros resp w' bs e Hrt Hbody Hstatus Hjson.
    rewrite (getDomainAtRecordIP_sent P um cfg domain st _ w' Hurl Hrt).
    cbn [fst]. now rewrite Hbody, Hstatus, Z.eqb_refl, Hjson.
Qed.

Lemma read_failures_are_returned_witness :
  fst (PerCycle.getDomainAtRecordIP Sim.platform Sim.Unmarshal (Sim.cfg ["a.com"]) "a.com"
         (Sim.start [Sim.reply 401 "unauthorized"] tt)) =
  Done (Err "godaddy sent non-ok status code 401, body: unauthorized").
Proof.
  destruct (read_failures_are_returned Sim.platform Sim.Unmarshal (Sim.cfg ["a.com"]) "a.com"
              (Sim.start [Sim.reply 401 "unauthorized"] tt) eq_refl)
    as (_ & _ & Hstatus & _).
  apply (Hstatus (http.mkResponse 401 (io.mkReader "unauthorized" None)) [] "unauthorized");
    [reflexivity | reflexivity | discriminate].
Defined.

(** X5. [setDomainAtRecord] returns nil only when its request went out
    and either was answered with status 200 or met a transport error; in
    particular it never returns nil on another status. *)
Theorem write_returns_nil_only_when_sent :
  forall (P : Platform) jsonEncode cfg (domain ip : string) (st st' : State P unit),
    PerCycle.setDomainAtRecord P jsonEncode cfg domain ip st = (Done None, st') ->
    exists body res,
      jsonEncode [PerCycle.GodaddySetDNSRecordRequest.mk ip 600] = Ok body /\
      roundTrip P (PerCycle.writeRequest cfg domain body) (world st) = (res, world st') /\
      trace st' = (trace st ++ [EvHttp (PerCycle.writeRequest cfg domain body) res])%list /\
      match res with
      | Err _ => True
      | Ok resp => http.StatusCode resp = http.StatusOK
      end.
Proof.
  intros P enc cfg domain ip st st' Hset.
  destruct (setDomainAtRecord_steps P enc cfg domain ip st st' _ Hset)
    as [(_ & e & He) | (body & res & Henc & Hurl & Hrt & Htr & _)]; [discriminate|].
  exists body, res. repeat split; auto.
  destruct res as [resp|e]; [|exact I].
  unfold PerCycle.setDomainAtRecord, NewRequest in Hset. rewrite Henc, Hurl in Hset.
  unfold bind, Do in Hset. fold (PerCycle.writeRequest cfg domain body) in Hset.
  rewrite Hrt in Hset.
  destruct (http.StatusCode resp =? http.StatusOK)%Z eqn:Hstatus.
  - now apply Z.eqb_eq.
  - cbn [negb] in Hset.
    destruct (io.ReadAll (http.Body resp)) as [bs [e|]]; discriminate.
Qed.

Lemma write_returns_nil_witness :
  exists body res,
    Sim.EncodeSet [PerCycle.GodaddySetDNSRecordRequest.mk "5.6.7.8" 600] = Ok body /\
    roundTrip Sim.platform (PerCycle.writeRequest (Sim.cfg ["a.com"]) "a.com" body)
      [Sim.reply 200 ""] = (res, []) /\
    match res with
    | Err _ => True
    | Ok resp => http.StatusCode resp = http.StatusOK
    end.
Proof.
  destruct (write_returns_nil_only_when_sent Sim.platform Sim.EncodeSet (Sim.cfg ["a.com"])
              "a.com" "5.6.7.8" (Sim.start [Sim.reply 200 ""] tt)
              (snd (PerCycle.setDomainAtRecord Sim.platform Sim.EncodeSet (Sim.cfg ["a.com"])
                      "a.com" "5.6.7.8" (Sim.start [Sim.reply 200 ""] tt)))
              eq_refl)
    as (body & res & Henc & Hrt & _ & Hres).
  exists body, res. split; [exact Henc|]. split; [exact Hrt | exact Hres].
Defined.

(** X6. A write answered with a status other than 200 is returned as an
    error whose message holds the status code and the text of the body,
    or, when the body cannot be read, the error of reading it. *)
Theorem rejected_write_is_returned_with_body :
  forall (P : Platform) jsonEncode cfg (domain ip body : string) (st : State P unit)
         (resp : http.Response) (w' : World P),
    jsonEncode [PerCycle.GodaddySetDNSRecordRequest.mk ip 600] = Ok body ->
    urlParse P (PerCycle.recordURL domain) = None ->
    roundTrip P (PerCycle.writeRequest cfg domain body) (world st) = (Ok resp, w') ->
    http.StatusCode resp <> http.StatusOK ->
    fst (PerCycle.setDomainAtRecord P jsonEncode cfg domain ip st) =
    Done (Some
            match io.ReadAll (http.Body resp) with
            | (_, Some err) =>
                "received non-ok status code " ++ fmtInt (http.StatusCode resp)
                  ++ " from godaddy, but failed to read body: " ++ err
            | (text, None) =>
                "received non-ok status code " ++ fmtInt (http.StatusCode resp)
                  ++ " from godaddy, body: " ++ text
            end).
Proof.
  intros P enc cfg domain ip body st resp w' Henc Hurl Hrt Hstatus.
  unfold PerCycle.setDomainAtRecord, NewRequest. rewrite Henc, Hurl.
  unfold bind, Do. fold (PerCycle.writeRequest cfg domain body). rewrite Hrt.
  apply Z.eqb_neq in Hstatus. rewrite Hstatus. cbn [negb].
  destruct (io.ReadAll (http.Body resp)) as [text [e|]]; reflexivity.
Qed.

Lemma rejected_write_witness :
  fst (PerCycle.setDomainAtRecord Sim.platform Sim.EncodeSet (Sim.cfg ["a.com"])
         "a.com" "5.6.7.8" (Sim.start [Sim.reply 429 "rate limited"] tt)) =
  Done (Some "received non-ok status code 429 from godaddy, body: rate limited").
Proof.
  apply (rejected_write_is_returned_with_body Sim.platform Sim.EncodeSet (Sim.cfg ["a.com"])
           "a.com" "5.6.7.8"
           ("[{" ++ Sim.DQ ++ "data" ++ Sim.DQ ++ ":" ++ Sim.DQ ++ "5.6.7.8"
              ++ Sim.DQ ++ "," ++ Sim.DQ ++ "ttl" ++ Sim.DQ ++ ":600}]" ++ LF)
           (Sim.start [Sim.reply 429 "rate limited"] tt)
           (http.mkResponse 429 (io.mkReader "rate limited" None)) []);
    [reflexivity | reflexivity | reflexivity | discriminate].
Defined.

(** X7. [checkAndUpdate] never writes blind: a write is on the trace of a
    check only when the read of the same check returned a record other
    than the public IP; and when that read returns an error, the check
    stops there and returns the error under the name of the domain. *)
Theorem check_writes_only_after_differing_read :
  forall (P : Platform) jsonUnmarshal jsonEncode cfg (domain ip : string)
         (st st' : State P unit) (out : Outcome (option error)),
    PerCycle.checkAndUpdate P jsonUnmarshal jsonEncode cfg domain ip st = (out, st') ->
    exists evs,
      trace st' = (trace st ++ evs)%list /\
      ((exists ev, In ev evs /\ isMethod "PUT" ev = true) ->
       exists r st1,
         PerCycle.getDomainAtRecordIP P jsonUnmarshal cfg domain st = (Done (Ok r), st1) /\
         r <> ip) /\
      (forall e st1,
          PerCycle.getDomainAtRecordIP P jsonUnmarshal cfg domain st = (Done (Err e), st1) ->
          out = Done (Some ("failed to get DNS record IP address for domain "
                            ++ domain ++ ": " ++ e)) /\
          st' = st1).
Proof.
  intros P um enc cfg domain ip st st' out Hcheck.
  destruct (checkAndUpdate_events P um enc cfg domain ip st st' out Hcheck)
    as (evs & Htr & Hshape).
  exists evs. split; [exact Htr|]. split.
  - intros (ev & Hin & Hput).
    destruct Hshape as [->|[(res & ->)|[(res & lvl & msg & ->)|
                        (res & msg & body & res2 & r & st1 & _ & _ & Hread & Hne)]]].
    + contradiction.
    + destruct Hin as [<-|[]]. discriminate.
    + destruct Hin as [<-|[<-|[]]]; discriminate.
    + eauto.
  - intros e st1 Hread. unfold PerCycle.checkAndUpdate in Hcheck.
    unfold bind at 1 in Hcheck. rewrite Hread in Hcheck. unfold ret in Hcheck.
    inversion Hcheck. auto.
Qed.

Lemma check_writes_only_after_differing_read_witness :
  exists evs,
    trace (snd (PerCycle.checkAndUpdate Sim.platform Sim.Unmarshal Sim.EncodeSet
                  (Sim.cfg ["a.com"]) "a.com" "5.6.7.8"
                  (Sim.start [Sim.reply 503 "unavailable"] tt))) = evs /\
    filter (isMethod "PUT") evs = [] /\
    fst (PerCycle.checkAndUpdate Sim.platform Sim.Unmarshal Sim.EncodeSet
           (Sim.cfg ["a.com"]) "a.com" "5.6.7.8"
           (Sim.start [Sim.reply 503 "unavailable"] tt)) =
    Done (Some ("failed to get DNS record IP address for domain a.com: "
                ++ "godaddy sent non-ok status code 503, body: unavailable")).
Proof.
  destruct (check_writes_only_after_differing_read Sim.platform Sim.Unmarshal Sim.EncodeSet
              (Sim.cfg ["a.com"]) "a.com" "5.6.7.8"
              (Sim.start [Sim.reply 503 "unavailable"] tt) _ _ eq_refl)
    as (evs & Htr & _ & Herr).
  exists evs. split; [exact Htr|]. split.
  - simpl in Htr. subst evs. reflexivity.
  - destruct (Herr "godaddy sent non-ok status code 503, body: unavailable" _ eq_refl)
      as [Hout _].
    exact Hout.
Defined.

(** * Further properties: the cycle of the per-cycle revision *)

Lemma Subseq_nil_l {A : Type} (l : list A) : Subseq [] l.
Proof. induction l; constructor; assumption. Qed.

Lemma prefix_app (p s : string) : prefix p (p ++ s) = true.
Proof.
  induction p as [|a p IH]; simpl; [destruct s; reflexivity|].
  destruct (ascii_dec a a); [exact IH | congruence].
Qed.

Section SweepEvents.
Variable P : Platform.
Variable jsonUnmarshal :
  string -> list PerCycle.GodaddyGetDNSRecordResponse.t ->
  result (list PerCycle.GodaddyGetDNSRecordResponse.t).
Variable jsonEncode : list PerCycle.GodaddySetDNSRecordRequest.t -> result string.
Variable cfg : Config.

Local Abbreviation St := (State P unit).
Local Abbreviation checkAndUpdate := (PerCycle.checkAndUpdate P jsonUnmarshal jsonEncode cfg).
Local Abbreviation loopBody := (PerCycle.loopBody P jsonUnmarshal jsonEncode cfg).
Local Abbreviation rangeDomains := (PerCycle.rangeDomains P jsonUnmarshal jsonEncode cfg).
Local Abbreviation loopFunc := (PerCycle.loopFunc P jsonUnmarshal jsonEncode cfg).
Local Abbreviation isSweepEvent := (PerCycle.isSweepEvent jsonEncode cfg).

Lemma isSweepEvent_incl (ip : string) (ds ds' : list string) (ev : Event) :
  incl ds ds' -> isSweepEvent ip ds ev -> isSweepEvent ip ds' ev.
Proof.
  intros Hincl. destruct ev as [req res|lvl msg]; [|auto].
  intros (d & Hin & Hreq). exists d. auto.
Qed.

Lemma isSweepEvent_not_echo (ip : string) (ds : list string) (ev : Event) :
  isSweepEvent ip ds ev -> isCallTo "http://ifconfig.co" ev = false.
Proof.
  destruct ev as [req res|lvl msg]; [|reflexivity].
  intros (d & _ & [->|(body & _ & ->)]); reflexivity.
Qed.

(** What the body of the loop adds to the trace for one domain, whatever
    its outcome. *)
Lemma loopBody_events (ip domain : string) (st st' : St) out :
  loopBody ip domain st = (out, st') ->
  exists evs,
    trace st' = (trace st ++ evs)%list /\
    Forall (isSweepEvent ip [domain]) evs /\
    (requestURLs "PUT" evs = [] \/ requestURLs "PUT" evs = [PerCycle.recordURL domain]).
Proof.
  unfold PerCycle.loopBody. unfold bind at 1.
  destruct (checkAndUpdate domain ip st) as [o st1] eqn:Hcheck.
  destruct (checkAndUpdate_events P jsonUnmarshal jsonEncode cfg domain ip st st1 o Hcheck)
    as (evs & Htr & Hshape).
  assert (Hevs : Forall (isSweepEvent ip [domain]) evs /\
                 (requestURLs "PUT" evs = [] \/
                  requestURLs "PUT" evs = [PerCycle.recordURL domain])).
  { assert (Hread : forall res,
               isSweepEvent ip [domain] (EvHttp (PerCycle.readRequest cfg domain) res))
      by (intros res; exists domain; simpl; auto).
    destruct Hshape as [->|[(res & ->)|[(res & lvl & msg & ->)|
                        (res & msg & body & res2 & r & st2 & -> & Henc & _ & _)]]].
    - split; [constructor | auto].
    - split; [repeat constructor; apply Hread | auto].
    - split; [repeat constructor; apply Hread | auto].
    - split; [|auto]. repeat constructor; [apply Hread|].
      exists domain. split; [simpl; auto|]. right. exists body. auto. }
  destruct Hevs as [Hall Hput].
  destruct o as [err|msg].
  - assert (Hline : forall lvl msg,
               (Done tt, logged lvl msg st1) = (out, st') ->
               exists evs0,
                 trace st' = (trace st ++ evs0)%list /\
                 Forall (isSweepEvent ip [domain]) evs0 /\
                 (requestURLs "PUT" evs0 = [] \/
                  requestURLs "PUT" evs0 = [PerCycle.recordURL domain])).
    { intros lvl msg H. inversion H; subst. exists (evs ++ [EvLog lvl msg])%list.
      split; [simpl; rewrite Htr, <- app_assoc; reflexivity|]. split.
      - apply Forall_app. split; [exact Hall | repeat constructor].
      - rewrite requestURLs_app. simpl. rewrite app_nil_r. exact Hput. }
    destruct err as [e|]; [apply Hline|].
    unfold bind, timeNow, logf, emit. apply Hline.
  - intros H. inversion H; subst. exists evs. auto.
Qed.

(** A sweep composes: over two lists of domains in a row it is the sweep
    over the first followed by the sweep over the second. *)
Lemma rangeDomains_app (ip : string) (ds1 ds2 : list string) (st : St) :
  rangeDomains ip (ds1 ++ ds2) st =
  bind (rangeDomains ip ds1) (fun _ => rangeDomains ip ds2) st.
Proof.
  revert st. induction ds1 as [|d ds1 IH]; intros st; [reflexivity|].
  change (rangeDomains ip ((d :: ds1) ++ ds2) st)
    with (bind (loopBody ip d) (fun _ => rangeDomains ip (ds1 ++ ds2)) st).
  change (rangeDomains ip (d :: ds1))
    with (bind (loopBody ip d) (fun _ => rangeDomains ip ds1)).
  unfold bind.
  destruct (loopBody ip d st) as [[[]|msg] st1]; [|reflexivity].
  rewrite IH. reflexivity.
Qed.

(** The requests of a sweep, whatever its outcome: reads and writes of
    the configured domains, and at most one write per domain, in the
    order of the domains. *)
Lemma rangeDomains_events (ip : string) (ds : list string) :
  forall (st st' : St) out,
    rangeDomains ip ds st = (out, st') ->
    exists evs,
      trace st' = (trace st ++ evs)%list /\
      Forall (isSweepEvent ip ds) evs /\
      Subseq (requestURLs "PUT" evs) (map PerCycle.recordURL ds).
Proof.
  induction ds as [|d rest IH]; intros st st' out; cbn [PerCycle.rangeDomains].
  - unfold ret. intros H. inversion H; subst. exists []. rewrite app_nil_r.
    repeat constructor.
  - unfold bind at 1.
    destruct (loopBody ip d st) as [o st1] eqn:Hbody.
    destruct (loopBody_events ip d st st1 o Hbody) as (evs1 & Htr1 & Hall1 & Hput1).
    assert (Hall1' : Forall (isSweepEvent ip (d :: rest)) evs1).
    { eapply Forall_impl; [|exact Hall1]. intros ev.
      apply isSweepEvent_incl. intros x [<-|[]]. simpl. auto. }
    destruct o as [[]|msg].
    + intros Hrest. destruct (IH st1 st' out Hrest) as (evs2 & Htr2 & Hall2 & Hput2).
      exists (evs1 ++ evs2)%list. split; [|split].
      * rewrite Htr2, Htr1, app_assoc. reflexivity.
      * apply Forall_app. split; [exact Hall1'|].
        eapply Forall_impl; [|exact Hall2]. intros ev.
        apply isSweepEvent_incl. intros x Hx. simpl. auto.
      * rewrite requestURLs_app. simpl.
        destruct Hput1 as [-> | ->]; simpl;
          [apply Subseq_skip | apply Subseq_take]; exact Hput2.
    + intros H. inversion H; subst. exists evs1. split; [exact Htr1|].
      split; [exact Hall1'|]. simpl.
      destruct Hput1 as [-> | ->]; [apply Subseq_nil_l|].
      apply Subseq_take. apply Subseq_nil_l.
Qed.

End SweepEvents.

Section ResolverResults.
Variable P : Platform.

(** The run of the per-cycle resolver once its request is built. *)
Lemma PerCycle_getPublicIPAddress_sent (st : State P unit) res w' :
  urlParse P "http://ifconfig.co" = None ->
  roundTrip P PerCycle.publicIPRequest (world st) = (res, w') ->
  PerCycle.getPublicIPAddress P st =
  (Done match res with
        | Err err => Err err
        | Ok resp =>
            match io.ReadAll (http.Body resp) with
            | (_, Some err) => Err err
            | (body, None) => Ok (strings.TrimRight body LF)
            end
        end,
   called PerCycle.publicIPRequest res w' st).
Proof.
  intros Hurl Hrt. unfold PerCycle.getPublicIPAddress, NewRequest. rewrite Hurl.
  unfold bind, Do. fold PerCycle.publicIPRequest. rewrite Hrt.
  destruct res as [resp|e]; [|reflexivity].
  destruct (io.ReadAll (http.Body resp)) as [body [e|]]; reflexivity.
Qed.

(** The run of the cached resolver once its request is built. *)
Lemma Cached_getPublicIPAddress_sent (st : State P string) res w' :
  urlParse P "https://api.ipify.org" = None ->
  roundTrip P Cached.publicIPRequest (world st) = (res, w') ->
  Cached.getPublicIPAddress P st =
  (Done match res with
        | Err err => Err err
        | Ok resp =>
            match io.ReadAll (http.Body resp) with
            | (_, Some err) => Err err
            | (body, None) => Ok body
            end
        end,
   called Cached.publicIPRequest res w' st).
Proof.
  intros Hurl Hrt. unfold Cached.getPublicIPAddress, NewRequest. rewrite Hurl.
  unfold bind, Do. fold Cached.publicIPRequest. rewrite Hrt.
  destruct res as [resp|e]; [|reflexivity].
  destruct (io.ReadAll (http.Body resp)) as [body [e|]]; reflexivity.
Qed.

(** A resolver that returned an address has sent its request. *)
Lemma PerCycle_getPublicIPAddress_ok (st st1 : State P unit) (ip : string) :
  PerCycle.getPublicIPAddress P st = (Done (Ok ip), st1) ->
  urlParse P "http://ifconfig.co" = None /\
  exists res, st1 = called PerCycle.publicIPRequest res (world st1) st.
Proof.
  intros Hres.
  destruct (urlParse P "http://ifconfig.co") as [e|] eqn:Hurl.
  { unfold PerCycle.getPublicIPAddress, NewRequest in Hres. rewrite Hurl in Hres.
    discriminate. }
  split; [reflexivity|].
  destruct (roundTrip P PerCycle.publicIPRequest (world st)) as [res w'] eqn:Hrt.
  rewrite (PerCycle_getPublicIPAddress_sent st res w' Hurl Hrt) in Hres.
  inversion Hres. exists res. reflexivity.
Qed.

End ResolverResults.

Lemma recordURL_under_base (domain : string) :
  PerCycle.recordURL domain =
  "https://api.godaddy.com/v1/domains/" ++ (domain ++ "/records/A/@").
Proof. reflexivity. Qed.

(** X8. The requests of a cycle. Once the public IP is resolved, with one
    request to the IP-echo service that carries no header, everything
    else the cycle sends is a read of a configured domain or a write of
    the resolved address, with TTL 600, to a configured domain; each of
    these goes to a URL under the GoDaddy domains API and carries the
    header [Authorization: sso-key key:secret]. *)
Theorem cycle_requests_carry_credentials :
  forall (P : Platform) jsonUnmarshal jsonEncode cfg (st st1 st' : State P unit)
         (ip : string) (out : Outcome unit),
    PerCycle.getPublicIPAddress P st = (Done (Ok ip), st1) ->
    PerCycle.loopFunc P jsonUnmarshal jsonEncode cfg st = (out, st') ->
    exists res evs,
      trace st' =
      (trace st ++ EvHttp (http.mkRequest "GET" "http://ifconfig.co" [] None) res :: evs)%list /\
      Forall (PerCycle.isSweepEvent jsonEncode cfg ip (domains cfg)) evs /\
      forall req res', In (EvHttp req res') evs ->
        In ("Authorization", "sso-key " ++ apiKey cfg ++ ":" ++ apiSecret cfg)
          (http.Header req) /\
        prefix "https://api.godaddy.com/v1/domains/" (http.URL req) = true.
Proof.
  intros P um enc cfg st st1 st' ip out Hres Hrun.
  destruct (PerCycle_getPublicIPAddress_ok P st st1 ip Hres) as [_ [res Hcall]].
  apply (f_equal trace) in Hcall. simpl in Hcall.
  unfold PerCycle.loopFunc in Hrun. unfold bind at 1 in Hrun. rewrite Hres in Hrun.
  unfold bind at 1 in Hrun.
  destruct (PerCycle.rangeDomains P um enc cfg ip (domains cfg) st1) as [o st2] eqn:Hsweep.
  destruct (rangeDomains_events P um enc cfg ip (domains cfg) st1 st2 o Hsweep)
    as (evs & Htr & Hall & _).
  assert (Hheaders : forall evs0,
             Forall (PerCycle.isSweepEvent enc cfg ip (domains cfg)) evs0 ->
             forall req res', In (EvHttp req res') evs0 ->
               In ("Authorization", "sso-key " ++ apiKey cfg ++ ":" ++ apiSecret cfg)
                 (http.Header req) /\
               prefix "https://api.godaddy.com/v1/domains/" (http.URL req) = true).
  { intros evs0 Hall0 req res' Hin.
    rewrite Forall_forall in Hall0. specialize (Hall0 _ Hin).
    destruct Hall0 as (d & _ & [->|(body & _ & ->)]).
    - split; [simpl; auto|].
      change (http.URL (PerCycle.readRequest cfg d)) with (PerCycle.recordURL d).
      rewrite recordURL_under_base. apply prefix_app.
    - split; [simpl; auto|].
      change (http.URL (PerCycle.writeRequest cfg d body)) with (PerCycle.recordURL d).
      rewrite recordURL_under_base. apply prefix_app. }
  exists res.
  destruct o as [[]|msg].
  - unfold bind, timeNowAdd, logf, emit in Hrun. inversion Hrun; subst.
    exists (evs ++ [EvLog InfoLevel
                      ("Next update at " ++ nowPlus P (world st2) (updateInterval cfg))])%list.
    assert (Hall' : Forall (PerCycle.isSweepEvent enc cfg ip (domains cfg))
                      (evs ++ [EvLog InfoLevel
                                 ("Next update at "
                                    ++ nowPlus P (world st2) (updateInterval cfg))])%list)
      by (apply Forall_app; split; [exact Hall | repeat constructor]).
    split; [|split; [exact Hall' | apply Hheaders; exact Hall']].
    simpl. rewrite Htr, Hcall, <- !app_assoc. reflexivity.
  - inversion Hrun; subst. exists evs.
    split; [|split; [exact Hall | apply Hheaders; exact Hall]].
    rewrite Htr, Hcall, <- !app_assoc. reflexivity.
Qed.

Lemma cycle_requests_carry_credentials_witness :
  exists res evs,
    trace (snd (PerCycle.loopFunc Sim.platform Sim.Unmarshal Sim.EncodeSet
                  (Sim.cfg ["a.com"])
                  (Sim.start [Sim.reply 200 ("5.6.7.8" ++ LF);
                              Sim.reply 200 ("[" ++ Sim.dataObject "1.2.3.4" ++ "]");
                              Sim.reply 200 ""] tt))) =
    EvHttp (http.mkRequest "GET" "http://ifconfig.co" [] None) res :: evs /\
    Forall (PerCycle.isSweepEvent Sim.EncodeSet (Sim.cfg ["a.com"]) "5.6.7.8" ["a.com"]) evs.
Proof.
  destruct (cycle_requests_carry_credentials Sim.platform Sim.Unmarshal Sim.EncodeSet
              (Sim.cfg ["a.com"])
              (Sim.start [Sim.reply 200 ("5.6.7.8" ++ LF);
                          Sim.reply 200 ("[" ++ Sim.dataObject "1.2.3.4" ++ "]");
                          Sim.reply 200 ""] tt)
              _ _ "5.6.7.8" _ eq_refl eq_refl)
    as (res & evs & Htr & Hall & _).
  exists res, evs. split; [exact Htr | exact Hall].
Defined.

(** X9. A cycle writes every configured domain at most once, in the order
    of the configured list: the URLs of its PUT requests are those of the
    domains with some left out. *)
Theorem cycle_writes_each_domain_at_most_once :
  forall (P : Platform) jsonUnmarshal jsonEncode cfg (st st' : State P unit)
         (out : Outcome unit),
    PerCycle.loopFunc P jsonUnmarshal jsonEncode cfg st = (out, st') ->
    exists evs,
      trace st' = (trace st ++ evs)%list /\
      Subseq (requestURLs "PUT" evs) (map PerCycle.recordURL (domains cfg)).
Proof.
  intros P um enc cfg st st' out Hrun.
  destruct (PerCycle_getPublicIPAddress_steps P st) as (r & st1 & Hres & Hshape).
  assert (Hpub : exists evs1, trace st1 = (trace st ++ evs1)%list /\
                              requestURLs "PUT" evs1 = []).
  { destruct Hshape as [->|[res Hcall]].
    - exists []. rewrite app_nil_r. auto.
    - exists [EvHttp PerCycle.publicIPRequest res].
      apply (f_equal trace) in Hcall. simpl in Hcall. auto. }
  destruct Hpub as (evs1 & Htr1 & Hput1).
  unfold PerCycle.loopFunc in Hrun. unfold bind at 1 in Hrun. rewrite Hres in Hrun.
  destruct r as [ip|e].
  - unfold bind at 1 in Hrun.
    destruct (PerCycle.rangeDomains P um enc cfg ip (domains cfg) st1) as [o st2] eqn:Hsweep.
    destruct (rangeDomains_events P um enc cfg ip (domains cfg) st1 st2 o Hsweep)
      as (evs & Htr & _ & Hsub).
    destruct o as [[]|msg].
    + unfold bind, timeNowAdd, logf, emit in Hrun. inversion Hrun; subst.
      exists (evs1 ++ evs ++ [EvLog InfoLevel
                                ("Next update at "
                                   ++ nowPlus P (world st2) (updateInterval cfg))])%list.
      split; [simpl; rewrite Htr, Htr1, <- !app_assoc; reflexivity|].
      rewrite !requestURLs_app, Hput1. simpl. rewrite app_nil_r. exact Hsub.
    + inversion Hrun; subst. exists (evs1 ++ evs)%list.
      split; [rewrite Htr, Htr1, <- !app_assoc; reflexivity|].
      rewrite requestURLs_app, Hput1. exact Hsub.
  - unfold logf, emit in Hrun. inversion Hrun; subst.
    exists (evs1 ++ [EvLog ErrorLevel ("failed to get public IP address: " ++ e)])%list.
    split; [simpl; rewrite Htr1, <- app_assoc; reflexivity|].
    rewrite requestURLs_app, Hput1. apply Subseq_nil_l.
Qed.

Lemma cycle_writes_each_domain_at_most_once_witness :
  exists evs,
    trace (snd (PerCycle.loopFunc Sim.platform Sim.Unmarshal Sim.EncodeSet
                  (Sim.cfg ["a.com"; "b.com"])
                  (Sim.start [Sim.reply 200 ("5.6.7.8" ++ LF);
                              Sim.reply 200 ("[" ++ Sim.dataObject "5.6.7.8" ++ "]");
                              Sim.reply 200 ("[" ++ Sim.dataObject "1.2.3.4" ++ "]");
                              Sim.reply 200 ""] tt))) = evs /\
    Subseq (requestURLs "PUT" evs)
      [PerCycle.recordURL "a.com"; PerCycle.recordURL "b.com"].
Proof.
  apply (cycle_writes_each_domain_at_most_once Sim.platform Sim.Unmarshal Sim.EncodeSet
           (Sim.cfg ["a.com"; "b.com"])
           (Sim.start [Sim.reply 200 ("5.6.7.8" ++ LF);
                       Sim.reply 200 ("[" ++ Sim.dataObject "5.6.7.8" ++ "]");
                       Sim.reply 200 ("[" ++ Sim.dataObject "1.2.3.4" ++ "]");
                       Sim.reply 200 ""] tt) _ _ eq_refl).
Defined.

(** X10. A read answered with an empty array ends the sweep on the spot:
    whatever the domains before it returned, the panic of that read is the
    outcome of the sweep, the read is the last event of the trace, and no
    domain after it is contacted or reported. *)
Theorem empty_array_ends_sweep :
  forall (P : Platform) jsonUnmarshal jsonEncode cfg (ip domain : string)
         (before after : list string) (st st1 : State P unit)
         (resp : http.Response) (w' : World P) (bs : string),
    PerCycle.rangeDomains P jsonUnmarshal jsonEncode cfg ip before st = (Done tt, st1) ->
    urlParse P (PerCycle.recordURL domain) = None ->
    roundTrip P (PerCycle.readRequest cfg domain) (world st1) = (Ok resp, w') ->
    http.StatusCode resp = http.StatusOK ->
    io.ReadAll (http.Body resp) = (bs, None) ->
    jsonUnmarshal bs [] = Ok [] ->
    PerCycle.rangeDomains P jsonUnmarshal jsonEncode cfg ip (before ++ domain :: after) st =
    (Panicked "runtime error: index out of range [0] with length 0",
     called (PerCycle.readRequest cfg domain) (Ok resp) w' st1).
Proof.
  intros P um enc cfg ip domain before after st st1 resp w' bs
    Hbefore Hurl Hrt Hstatus Hbody Hjson.
  rewrite rangeDomains_app. unfold bind at 1. rewrite Hbefore.
  cbn [PerCycle.rangeDomains]. unfold bind at 1.
  unfold PerCycle.loopBody. unfold bind at 1.
  unfold PerCycle.checkAndUpdate. unfold bind at 1.
  rewrite (getDomainAtRecordIP_sent P um cfg domain st1 (Ok resp) w' Hurl Hrt).
  rewrite Hbody, Hstatus, Z.eqb_refl, Hjson. reflexivity.
Qed.

Lemma empty_array_ends_sweep_witness :
  requestURLs "GET"
    (trace (snd (PerCycle.rangeDomains Sim.platform Sim.Unmarshal Sim.EncodeSet
                   (Sim.cfg ["a.com"; "b.com"; "c.com"]) "5.6.7.8"
                   (["a.com"] ++ "b.com" :: ["c.com"])
                   (Sim.start [Sim.reply 200 ("[" ++ Sim.dataObject "5.6.7.8" ++ "]");
                               Sim.reply 200 "[]";
                               Sim.reply 200 ("[" ++ Sim.dataObject "5.6.7.8" ++ "]")] tt))))
  = [PerCycle.recordURL "a.com"; PerCycle.recordURL "b.com"].
Proof.
  rewrite (empty_array_ends_sweep Sim.platform Sim.Unmarshal Sim.EncodeSet
             (Sim.cfg ["a.com"; "b.com"; "c.com"]) "5.6.7.8" "b.com" ["a.com"] ["c.com"]
             (Sim.start [Sim.reply 200 ("[" ++ Sim.dataObject "5.6.7.8" ++ "]");
                         Sim.reply 200 "[]";
                         Sim.reply 200 ("[" ++ Sim.dataObject "5.6.7.8" ++ "]")] tt)
             _ (http.mkResponse 200 (io.mkReader "[]" None))
             [Sim.reply 200 ("[" ++ Sim.dataObject "5.6.7.8" ++ "]")] "[]"
             eq_refl eq_refl eq_refl eq_refl eq_refl eq_refl).
  reflexivity.
Defined.

(** X11. The resolvers do not look at the status code: whatever the
    status, a response whose body is read to its end gives an address,
    the body cut of its trailing newlines in the per-cycle revision and
    the body as it is in the cached one. A resolver returns an error only
    when its request cannot be built, the transport fails or the body
    cannot be read, and the error is that one. *)
Theorem resolvers_ignore_status :
  forall P : Platform,
    (forall (st : State P unit) (status : Z) (body : string) (w' : World P),
        urlParse P "http://ifconfig.co" = None ->
        roundTrip P PerCycle.publicIPRequest (world st)
        = (Ok (http.mkResponse status (io.mkReader body None)), w') ->
        fst (PerCycle.getPublicIPAddress P st) = Done (Ok (strings.TrimRight body LF))) /\
    (forall (st : State P string) (status : Z) (body : string) (w' : World P),
        urlParse P "https://api.ipify.org" = None ->
        roundTrip P Cached.publicIPRequest (world st)
        = (Ok (http.mkResponse status (io.mkReader body None)), w') ->
        fst (Cached.getPublicIPAddress P st) = Done (Ok body)) /\
    (forall (st st' : State P unit) (e : error),
        PerCycle.getPublicIPAddress P st = (Done (Err e), st') ->
        urlParse P "http://ifconfig.co" = Some e \/
        (exists w', roundTrip P PerCycle.publicIPRequest (world st) = (Err e, w')) \/
        (exists resp w' bs,
            roundTrip P PerCycle.publicIPRequest (world st) = (Ok resp, w') /\
            io.ReadAll (http.Body resp) = (bs, Some e))) /\
    (forall (st st' : State P string) (e : error),
        Cached.getPublicIPAddress P st = (Done (Err e), st') ->
        urlParse P "https://api.ipify.org" = Some e \/
        (exists w', roundTrip P Cached.publicIPRequest (world st) = (Err e, w')) \/
        (exists resp w' bs,
            roundTrip P Cached.publicIPRequest (world st) = (Ok resp, w') /\
            io.ReadAll (http.Body resp) = (bs, Some e))).
Proof.
  intros P. repeat split.
  - intros st status body w' Hurl Hrt.
    now rewrite (PerCycle_getPublicIPAddress_sent P st _ w' Hurl Hrt).
  - intros st status body w' Hurl Hrt.
    now rewrite (Cached_getPublicIPAddress_sent P st _ w' Hurl Hrt).
  - intros st st' e Hres.
    destruct (urlParse P "http://ifconfig.co") as [e0|] eqn:Hurl.
    { unfold PerCycle.getPublicIPAddress, NewRequest in Hres. rewrite Hurl in Hres.
      inversion Hres. auto. }
    right.
    destruct (roundTrip P PerCycle.publicIPRequest (world st)) as [res w'] eqn:Hrt.
    rewrite (PerCycle_getPublicIPAddress_sent P st res w' Hurl Hrt) in Hres.
    destruct res as [resp|e0]; [|inversion Hres; eauto].
    destruct (io.ReadAll (http.Body resp)) as [bs [e0|]] eqn:Hbody; [|discriminate].
    inversion Hres; subst. right. eauto.
  - intros st st' e Hres.
    destruct (urlParse P "https://api.ipify.org") as [e0|] eqn:Hurl.
    { unfold Cached.getPublicIPAddress, NewRequest in Hres. rewrite Hurl in Hres.
      inversion Hres. auto. }
    right.
    destruct (roundTrip P Cached.publicIPRequest (world st)) as [res w'] eqn:Hrt.
    rewrite (Cached_getPublicIPAddress_sent P st res w' Hurl Hrt) in Hres.
    destruct res as [resp|e0]; [|inversion Hres; eauto].
    destruct (io.ReadAll (http.Body resp)) as [bs [e0|]] eqn:Hbody; [|discriminate].
    inversion Hres; subst. right. eauto.
Qed.

Lemma resolvers_ignore_status_witness :
  fst (PerCycle.getPublicIPAddress Sim.platform
         (Sim.start [Sim.reply 503 "Service Unavailable"] tt))
  = Done (Ok "Service Unavailable") /\
  fst (Cached.getPublicIPAddress Sim.platform
         (Sim.start [Sim.reply 503 "Service Unavailable"] ""))
  = Done (Ok "Service Unavailable").
Proof.
  destruct (resolvers_ignore_status Sim.platform) as (Hper & Hcached & _).
  split.
  - apply (Hper (Sim.start [Sim.reply 503 "Service Unavailable"] tt)
             503%Z "Service Unavailable" []); reflexivity.
  - apply (Hcached (Sim.start [Sim.reply 503 "Service Unavailable"] "")
             503%Z "Service Unavailable" []); reflexivity.
Defined.

Section Loop.
Variable P : Platform.
Variable jsonUnmarshal :
  string -> list PerCycle.GodaddyGetDNSRecordResponse.t ->
  result (list PerCycle.GodaddyGetDNSRecordResponse.t).
Variable jsonEncode : list PerCycle.GodaddySetDNSRecordRequest.t -> result string.
Variable cfg : Config.

Local Abbreviation St := (State P unit).
Local Abbreviation loopFunc := (PerCycle.loopFunc P jsonUnmarshal jsonEncode cfg).

Local Abbreviation echoCalls evs :=
  (List.length (filter (isCallTo "http://ifconfig.co") evs)).

Lemma sweep_events_no_echo (ip : string) (ds : list string) (evs : list Event) :
  Forall (PerCycle.isSweepEvent jsonEncode cfg ip ds) evs ->
  filter (isCallTo "http://ifconfig.co") evs = [].
Proof.
  induction 1 as [|ev evs Hev _ IH]; [reflexivity|].
  simpl. now rewrite (isSweepEvent_not_echo jsonEncode cfg ip ds ev Hev).
Qed.

(** A cycle asks the IP-echo service once, whatever its outcome. *)
Lemma loopFunc_asks_once (st st' : St) out :
  urlParse P "http://ifconfig.co" = None ->
  loopFunc st = (out, st') ->
  exists evs, trace st' = (trace st ++ evs)%list /\ echoCalls evs = 1%nat.
Proof.
  intros Hurl Hrun.
  destruct (roundTrip P PerCycle.publicIPRequest (world st)) as [res w'] eqn:Hrt.
  pose proof (PerCycle_getPublicIPAddress_sent P st res w' Hurl Hrt) as Hres.
  unfold PerCycle.loopFunc in Hrun. unfold bind at 1 in Hrun. rewrite Hres in Hrun.
  set (st1 := called PerCycle.publicIPRequest res w' st) in *.
  set (r := match res with
            | Ok resp => match io.ReadAll (http.Body resp) with
                         | (_, Some err) => Err err
                         | (body, None) => Ok (strings.TrimRight body LF)
                         end
            | Err err => Err err
            end) in *.
  destruct r as [ip|e].
  - unfold bind at 1 in Hrun.
    destruct (PerCycle.rangeDomains P jsonUnmarshal jsonEncode cfg ip (domains cfg) st1)
      as [o st2] eqn:Hsweep.
    destruct (rangeDomains_events P jsonUnmarshal jsonEncode cfg ip (domains cfg) st1 st2 o
                Hsweep) as (evs & Htr & Hall & _).
    pose proof (sweep_events_no_echo ip (domains cfg) evs Hall) as Hnone.
    destruct o as [[]|msg].
    + unfold bind, timeNowAdd, logf, emit in Hrun. inversion Hrun; subst out st'.
      exists (EvHttp PerCycle.publicIPRequest res :: evs
                ++ [EvLog InfoLevel
                      ("Next update at " ++ nowPlus P (world st2) (updateInterval cfg))])%list.
      split.
      * simpl. rewrite Htr. subst st1. simpl. rewrite <- !app_assoc. reflexivity.
      * simpl. rewrite filter_app, Hnone. reflexivity.
    + inversion Hrun; subst out st'.
      exists (EvHttp PerCycle.publicIPRequest res :: evs). split.
      * rewrite Htr. subst st1. simpl. rewrite <- !app_assoc. reflexivity.
      * simpl. rewrite Hnone. reflexivity.
  - unfold logf, emit in Hrun. inversion Hrun; subst out st'.
    exists [EvHttp PerCycle.publicIPRequest res;
            EvLog ErrorLevel ("failed to get public IP address: " ++ e)].
    split; [|reflexivity].
    subst st1. simpl. rewrite <- !app_assoc. reflexivity.
Qed.

Lemma ticking_asks_per_tick (ticks : nat) :
  forall st st' : St,
    urlParse P "http://ifconfig.co" = None ->
    PerCycle.ticking P jsonUnmarshal jsonEncode cfg ticks st = (Done tt, st') ->
    exists evs,
      trace st' = (trace st ++ evs ++ [EvLog TraceLevel "Stopping update loop"])%list /\
      echoCalls evs = ticks.
Proof.
  induction ticks as [|n IH]; intros st st' Hurl; cbn [PerCycle.ticking].
  - unfold logf, emit. intros H. inversion H; subst. exists []. auto.
  - unfold bind at 1. destruct (loopFunc st) as [[[]|msg] st1] eqn:Hrun; [|discriminate].
    intros Hrest.
    destruct (loopFunc_asks_once st st1 _ Hurl Hrun) as (evs1 & Htr1 & Hone).
    destruct (IH st1 st' Hurl Hrest) as (evs2 & Htr2 & Hn).
    exists (evs1 ++ evs2)%list. split.
    + rewrite Htr2, Htr1, <- !app_assoc. reflexivity.
    + rewrite filter_app, length_app, Hone, Hn. reflexivity.
Qed.

End Loop.

(** X12. [runUpdateLoop] runs one cycle at once and one more at every
    tick of the timer: when it ends, after [ticks] ticks and without a
    panic, the IP-echo service has been asked [ticks + 1] times, and the
    last thing it did is to log that the loop stops. *)
Theorem runUpdateLoop_resolves_each_tick :
  forall (P : Platform) jsonUnmarshal jsonEncode cfg (ticks : nat) (st st' : State P unit),
    urlParse P "http://ifconfig.co" = None ->
    PerCycle.runUpdateLoop P jsonUnmarshal jsonEncode cfg ticks st = (Done tt, st') ->
    exists evs,
      trace st' = (trace st ++ evs ++ [EvLog TraceLevel "Stopping update loop"])%list /\
      List.length (filter (isCallTo "http://ifconfig.co") evs) = S ticks.
Proof.
  intros P um enc cfg ticks st st' Hurl. unfold PerCycle.runUpdateLoop. unfold bind at 1.
  destruct (PerCycle.loopFunc P um enc cfg st) as [[[]|msg] st1] eqn:Hrun; [|discriminate].
  intros Hrest.
  destruct (loopFunc_asks_once P um enc cfg st st1 _ Hurl Hrun) as (evs1 & Htr1 & Hone).
  destruct (ticking_asks_per_tick P um enc cfg ticks st1 st' Hurl Hrest) as (evs2 & Htr2 & Hn).
  exists (evs1 ++ evs2)%list. split.
  - rewrite Htr2, Htr1, <- !app_assoc. reflexivity.
  - rewrite filter_app, length_app, Hone, Hn. reflexivity.
Qed.

Lemma runUpdateLoop_resolves_each_tick_witness :
  exists evs,
    trace (snd (PerCycle.runUpdateLoop Sim.platform Sim.Unmarshal Sim.EncodeSet
                  (Sim.cfg ["a.com"]) 2
                  (Sim.start [Sim.reply 200 ("5.6.7.8" ++ LF);
                              Sim.reply 200 ("[" ++ Sim.dataObject "5.6.7.8" ++ "]")] tt)))
    = (evs ++ [EvLog TraceLevel "Stopping update loop"])%list /\
    List.length (filter (isCallTo "http://ifconfig.co") evs) = 3%nat.
Proof.
  apply (runUpdateLoop_resolves_each_tick Sim.platform Sim.Unmarshal Sim.EncodeSet
           (Sim.cfg ["a.com"]) 2
           (Sim.start [Sim.reply 200 ("5.6.7.8" ++ LF);
                       Sim.reply 200 ("[" ++ Sim.dataObject "5.6.7.8" ++ "]")] tt)
           _ eq_refl eq_refl).
Defined.

(** * Further properties: the cached revision *)

Section CachedEvents.
Variable P : Platform.
Variable jsonDecode : io.Reader -> list Cached.Entry.t -> result (list Cached.Entry.t).
Variable jsonEncode : list Cached.Update.t -> result string.
Variable SecondsInt64 : Z -> Z.
Variable cfg : Config.

Local Abbreviation St := (State P string).
Local Abbreviation rangeEntries := (Cached.rangeEntries P jsonDecode cfg).
Local Abbreviation rangeUpdates := (Cached.rangeUpdates P jsonEncode SecondsInt64 cfg).
Local Abbreviation updateRecords :=
  (Cached.updateRecords P jsonDecode jsonEncode SecondsInt64 cfg).
Local Abbreviation isUpdateEvent := (Cached.isUpdateEvent jsonEncode SecondsInt64 cfg).
Local Abbreviation isEntriesEvent := (Cached.isEntriesEvent cfg).

(** The fetch reads the domains in order and stops at the first that
    fails or disagrees: its requests are the reads of the first [k]
    domains, and all of them when it returns a value other than the
    sentinel. *)
Lemma rangeEntries_events (ds : list string) :
  forall (retval : string) (st st' : St) out,
    rangeEntries retval ds st = (out, st') ->
    exists k evs,
      trace st' = (trace st ++ evs)%list /\
      Forall (isEntriesEvent ds) evs /\
      requestURLs "GET" evs = map Cached.entriesURL (firstn k ds) /\
      (forall r, out = Done (Ok r) -> r <> "0.0.0.0" -> firstn k ds = ds).
Proof.
  induction ds as [|domain rest IH]; intros retval st st' out;
    cbn [Cached.rangeEntries].
  - unfold ret. intros H. inversion H; subst. exists 0%nat, []. rewrite app_nil_r.
    repeat split; auto.
  - unfold NewRequest.
    destruct (urlParse P (Cached.entriesURL domain)) as [e|].
    { unfold ret. intros H. inversion H; subst. exists 0%nat, []. rewrite app_nil_r.
      repeat split; auto. intros r Hr. discriminate. }
    unfold bind at 1. unfold Do at 1. fold (Cached.entriesRequest cfg domain).
    destruct (roundTrip P (Cached.entriesRequest cfg domain) (world st)) as [res w].
    set (ev := EvHttp (Cached.entriesRequest cfg domain) res).
    set (st1 := mkState w (trace st ++ [ev])%list (globals st)).
    assert (Hev : isEntriesEvent (domain :: rest) ev)
      by (exists domain, res; simpl; auto).
    assert (Hstop : forall o : Outcome (result string),
               (forall r, o = Done (Ok r) -> r = "0.0.0.0") ->
               (o, st1) = (out, st') ->
               exists k evs,
                 trace st' = (trace st ++ evs)%list /\
                 Forall (isEntriesEvent (domain :: rest)) evs /\
                 requestURLs "GET" evs = map Cached.entriesURL (firstn k (domain :: rest)) /\
                 (forall r, out = Done (Ok r) -> r <> "0.0.0.0" ->
                            firstn k (domain :: rest) = domain :: rest)).
    { intros o Ho H. inversion H; subst. exists 1%nat, [ev].
      repeat split; auto. intros r Hr Hne. elim Hne. now apply Ho. }
    destruct res as [resp|e]; [|apply Hstop; intros r Hr; discriminate].
    destruct (jsonDecode (http.Body resp) [Cached.Entry.mk ""]) as [[|first more]|e];
      [apply Hstop; intros r Hr; discriminate| |apply Hstop; intros r Hr; discriminate].
    destruct (negb (retval =? Cached.Entry.Data first) && negb (retval =? "")).
    { apply Hstop. intros r Hr. inversion Hr. reflexivity. }
    intros Hrest.
    destruct (IH _ st1 st' out Hrest) as (k & evs & Htr & Hall & Hurls & Hfull).
    exists (S k), (ev :: evs). split; [|split; [|split]].
    + rewrite Htr. simpl. now rewrite <- app_assoc.
    + constructor; [exact Hev|].
      eapply Forall_impl; [|exact Hall].
      intros ev0 (d & res0 & Hin & ->). exists d, res0. simpl. auto.
    + change (requestURLs "GET" (ev :: evs))
        with (Cached.entriesURL domain :: requestURLs "GET" evs).
      rewrite Hurls. reflexivity.
    + intros r Hr Hne. simpl. f_equal. exact (Hfull r Hr Hne).
Qed.

(** The write loop never panics, and all it sends are writes of the
    address to configured domains. *)
Lemma rangeUpdates_events (ip : string) (ds : list string) :
  forall (st st' : St) out,
    rangeUpdates ip ds st = (out, st') ->
    exists err evs,
      out = Done err /\
      trace st' = (trace st ++ evs)%list /\
      Forall (isUpdateEvent ip ds) evs.
Proof.
  induction ds as [|domain rest IH]; intros st st' out; cbn [Cached.rangeUpdates].
  - unfold ret. intros H. inversion H; subst. exists None, []. rewrite app_nil_r. auto.
  - assert (Hnone : forall err : error,
               (Done (Some err), st) = (out, st') ->
               exists err evs,
                 out = Done err /\ trace st' = (trace st ++ evs)%list /\
                 Forall (isUpdateEvent ip (domain :: rest)) evs).
    { intros err H. inversion H; subst. exists (Some err), []. rewrite app_nil_r. auto. }
    destruct (jsonEncode [Cached.Update.mk "@" ip (SecondsInt64 (updateInterval cfg))])
      as [buf|e] eqn:Henc; [|apply Hnone].
    unfold NewRequest.
    destruct (urlParse P (Cached.updateURL domain)) as [e|]; [apply Hnone|].
    unfold bind at 1. unfold Do at 1. fold (Cached.updateRequest cfg domain buf).
    destruct (roundTrip P (Cached.updateRequest cfg domain buf) (world st)) as [res w].
    set (ev := EvHttp (Cached.updateRequest cfg domain buf) res).
    set (st1 := mkState w (trace st ++ [ev])%list (globals st)).
    assert (Hev : isUpdateEvent ip (domain :: rest) ev).
    { exists domain, buf, res. unfold Cached.isUpdateEvent. rewrite Henc. simpl. auto. }
    assert (Hone : forall err : error,
               (Done (Some err), st1) = (out, st') ->
               exists err evs,
                 out = Done err /\ trace st' = (trace st ++ evs)%list /\
                 Forall (isUpdateEvent ip (domain :: rest)) evs).
    { intros err H. inversion H; subst. exists (Some err), [ev]. auto. }
    destruct res as [resp|e]; [|apply Hone].
    destruct (negb (http.StatusCode resp =? 200)%Z).
    { destruct (io.ReadAll (http.Body resp)) as [body ?]. apply Hone. }
    intros Hrest. destruct (IH st1 st' out Hrest) as (err & evs & Hout & Htr & Hall).
    exists err, (ev :: evs). split; [exact Hout|]. split.
    + rewrite Htr. simpl. now rewrite <- app_assoc.
    + constructor; [exact Hev|].
      eapply Forall_impl; [|exact Hall].
      intros ev0 (d & buf0 & res0 & Hin & Henc0 & ->).
      exists d, buf0, res0. simpl. auto.
Qed.

(** A run of [updateRecords] with an address cached, by what the resolver
    returns: its error, nothing to do, or the write loop, whose nil makes
    the resolved address the cached one. *)
Lemma updateRecords_cached (st : St) :
  globals st <> "" ->
  exists r st1,
    Cached.getPublicIPAddress P st = (Done r, st1) /\
    globals st1 = globals st /\
    match r with
    | Err e =>
        updateRecords st = (Done (Some ("failed to get public Data address: " ++ e)), st1)
    | Ok ip =>
        if ip =? globals st
        then updateRecords st =
             (Done None,
              logged DebugLevel "Address still the same - no update necessary" st1)
        else exists err st3,
            Cached.updateDNSEntriesIP P jsonEncode SecondsInt64 cfg ip
              (logged DebugLevel ("oldIP: " ++ globals st ++ "; newIP: " ++ ip) st1)
            = (Done err, st3) /\
            updateRecords st =
            (Done err,
             match err with
             | None => mkState (world st3) (trace st3) ip
             | Some _ => st3
             end)
    end.
Proof.
  intros Hknown.
  destruct (Cached_getPublicIPAddress_steps P st) as (r & st1 & Hres & Hshape).
  assert (Hg : globals st1 = globals st).
  { destruct Hshape as [->|[res Hcall]]; [reflexivity|].
    apply (f_equal globals) in Hcall. exact Hcall. }
  exists r, st1. split; [exact Hres|]. split; [exact Hg|].
  apply String.eqb_neq in Hknown.
  assert (Hhead : updateRecords st =
                  match r with
                  | Err err => (Done (Some ("failed to get public Data address: " ++ err)), st1)
                  | Ok currIPAddr =>
                      if currIPAddr =? globals st1
                      then (Done None,
                            logged DebugLevel "Address still the same - no update necessary"
                              st1)
                      else bind (Cached.updateDNSEntriesIP P jsonEncode SecondsInt64 cfg
                                   currIPAddr)
                             (fun err => match err with
                                         | Some err => ret (Some err)
                                         | None => bind (setGlobals currIPAddr)
                                                     (fun _ => ret None)
                                         end)
                             (logged DebugLevel
                                ("oldIP: " ++ globals st1 ++ "; newIP: " ++ currIPAddr) st1)
                  end).
  { unfold Cached.updateRecords.
    unfold bind at 1. unfold getGlobals at 1.
    unfold bind at 1. rewrite Hknown. unfold ret at 1.
    unfold bind at 1. rewrite Hres.
    destruct r as [currIPAddr|e]; [|reflexivity].
    unfold bind at 1. unfold getGlobals at 1.
    destruct (currIPAddr =? globals st1); reflexivity. }
  rewrite Hhead. destruct r as [ip|e]; [|reflexivity].
  rewrite Hg. destruct (ip =? globals st); [reflexivity|].
  unfold bind at 1.
  destruct (Cached.updateDNSEntriesIP P jsonEncode SecondsInt64 cfg ip
              (logged DebugLevel ("oldIP: " ++ globals st ++ "; newIP: " ++ ip) st1))
    as [o st3] eqn:Hupd.
  destruct (rangeUpdates_events ip (domains cfg) _ _ _ Hupd) as (err & evs & -> & _).
  exists err, st3. split; [reflexivity|].
  destruct err; reflexivity.
Qed.

End CachedEvents.

(** The reads of the fetch are no call to the IP-echo service, no write
    and no log line. *)
Lemma entries_events_quiet (cfg : Config) (ds : list string) (evs : list Event) :
  Forall (Cached.isEntriesEvent cfg ds) evs ->
  filter (isCallTo "https://api.ipify.org") evs = [] /\
  filter (isMethod "PUT") evs = [] /\
  filter isLogEvent evs = [].
Proof.
  induction 1 as [|ev evs (d & res & _ & ->) _ (IH1 & IH2 & IH3)]; [auto|].
  repeat split; simpl; assumption.
Qed.

(** X13. With an address cached, a run in which the IP-echo service
    reports that very address does nothing more: it returns nil, sends
    nothing to the DNS provider, whatever the provider's records are by
    then, and leaves the cached address as it is. *)
Theorem cached_same_address_is_silent :
  forall (P : Platform) jsonDecode jsonEncode SecondsInt64 cfg
         (st st1 : State P string),
    globals st <> "" ->
    Cached.getPublicIPAddress P st = (Done (Ok (globals st)), st1) ->
    exists st' evs,
      Cached.updateRecords P jsonDecode jsonEncode SecondsInt64 cfg st = (Done None, st') /\
      trace st' = (trace st ++ evs)%list /\
      filter isProviderCall evs = [] /\
      globals st' = globals st.
Proof.
  intros P dec enc secs cfg st st1 Hknown Hres.
  destruct (updateRecords_cached P dec enc secs cfg st Hknown)
    as (r & st1' & Hres' & Hg & Hrun).
  rewrite Hres in Hres'. inversion Hres'; subst r st1'. clear Hres'.
  rewrite String.eqb_refl in Hrun.
  exists (logged DebugLevel "Address still the same - no update necessary" st1).
  destruct (Cached_getPublicIPAddress_steps P st) as (r & st2 & Heq & Hshape).
  rewrite Hres in Heq. inversion Heq; subst r st2. clear Heq.
  destruct Hshape as [->|[res Hcall]].
  - exists [EvLog DebugLevel "Address still the same - no update necessary"]. auto.
  - apply (f_equal trace) in Hcall. simpl in Hcall.
    exists [EvHttp Cached.publicIPRequest res;
            EvLog DebugLevel "Address still the same - no update necessary"].
    split; [exact Hrun|]. split; [|auto].
    simpl. rewrite Hcall, <- app_assoc. reflexivity.
Qed.

Lemma cached_same_address_is_silent_witness :
  exists st' evs,
    Cached.updateRecords Sim.platform Sim.Decode Sim.EncodeUpdate Sim.Seconds
      (Sim.cfg ["a.com"]) (Sim.start [Sim.reply 200 "1.2.3.4"] "1.2.3.4") = (Done None, st') /\
    trace st' = evs /\
    filter isProviderCall evs = [] /\
    globals st' = "1.2.3.4".
Proof.
  eapply (cached_same_address_is_silent Sim.platform Sim.Decode Sim.EncodeUpdate Sim.Seconds
            (Sim.cfg ["a.com"]) (Sim.start [Sim.reply 200 "1.2.3.4"] "1.2.3.4"));
    [discriminate | reflexivity].
Defined.

(** X14. With an address cached, a run of [updateRecords] that returns nil
    leaves in [lastIPAddr] the address the IP-echo service reported in
    that run. *)
Theorem cached_success_holds_resolved_address :
  forall (P : Platform) jsonDecode jsonEncode SecondsInt64 cfg
         (st st' : State P string),
    globals st <> "" ->
    Cached.updateRecords P jsonDecode jsonEncode SecondsInt64 cfg st = (Done None, st') ->
    exists st1, Cached.getPublicIPAddress P st = (Done (Ok (globals st')), st1).
Proof.
  intros P dec enc secs cfg st st' Hknown Hnil.
  destruct (updateRecords_cached P dec enc secs cfg st Hknown)
    as (r & st1 & Hres & Hg & Hrun).
  exists st1. destruct r as [ip|e].
  - destruct (String.eqb_spec ip (globals st)) as [Heq|Hne].
    + rewrite Hrun in Hnil. inversion Hnil; subst st'. simpl. rewrite Hg, <- Heq. exact Hres.
    + destruct Hrun as (err & st3 & _ & Hrun). rewrite Hrun in Hnil.
      inversion Hnil; subst. exact Hres.
  - rewrite Hrun in Hnil. discriminate.
Qed.

Lemma cached_success_holds_resolved_address_witness :
  exists st1,
    Cached.getPublicIPAddress Sim.platform
      (Sim.start [Sim.reply 200 "5.6.7.8"; Sim.reply 200 ""] "1.2.3.4")
    = (Done (Ok "5.6.7.8"), st1).
Proof.
  apply (cached_success_holds_resolved_address Sim.platform Sim.Decode Sim.EncodeUpdate
           Sim.Seconds (Sim.cfg ["a.com"])
           (Sim.start [Sim.reply 200 "5.6.7.8"; Sim.reply 200 ""] "1.2.3.4")
           (snd (Cached.updateRecords Sim.platform Sim.Decode Sim.EncodeUpdate Sim.Seconds
                   (Sim.cfg ["a.com"])
                   (Sim.start [Sim.reply 200 "5.6.7.8"; Sim.reply 200 ""] "1.2.3.4"))));
    [discriminate | reflexivity].
Defined.

(** X15. With no address cached, a run whose initial fetch fails stops
    there: it returns the error of the fetch, the cache stays empty, and
    neither the IP-echo service is asked nor anything written. *)
Theorem cached_failed_fetch_ends_run :
  forall (P : Platform) jsonDecode jsonEncode SecondsInt64 cfg
         (st st0 : State P string) (e : error),
    globals st = "" ->
    Cached.getDNSEntriesIP P jsonDecode cfg st = (Done (Err e), st0) ->
    exists st' evs,
      Cached.updateRecords P jsonDecode jsonEncode SecondsInt64 cfg st =
      (Done (Some ("failed to get current DNS IP address: " ++ e)), st') /\
      trace st' = (trace st ++ evs)%list /\
      globals st' = "" /\
      filter (isCallTo "https://api.ipify.org") evs = [] /\
      filter (isMethod "PUT") evs = [].
Proof.
  intros P dec enc secs cfg st st0 e Hunknown Hfetch.
  destruct (rangeEntries_events P dec cfg (domains cfg) "" st st0 _ Hfetch)
    as (k & evs & Htr & Hall & _ & _).
  destruct (entries_events_quiet cfg (domains cfg) evs Hall) as (Hecho & Hput & _).
  exists (mkState (world st0) (trace st0) ""), evs.
  split; [|simpl; auto].
  unfold Cached.updateRecords.
  unfold bind at 1. unfold getGlobals at 1.
  unfold bind at 1. rewrite Hunknown. cbn [String.eqb].
  unfold bind at 1. rewrite Hfetch. reflexivity.
Qed.

Lemma cached_failed_fetch_ends_run_witness :
  exists st' evs,
    Cached.updateRecords Sim.platform Sim.Decode Sim.EncodeUpdate Sim.Seconds
      (Sim.cfg ["a.com"]) (Sim.start [Err "dial tcp: i/o timeout"; Sim.reply 200 "5.6.7.8"] "")
    = (Done (Some "failed to get current DNS IP address: dial tcp: i/o timeout"), st') /\
    trace st' = evs /\
    globals st' = "" /\
    filter (isCallTo "https://api.ipify.org") evs = [] /\
    filter (isMethod "PUT") evs = [].
Proof.
  eapply (cached_failed_fetch_ends_run Sim.platform Sim.Decode Sim.EncodeUpdate Sim.Seconds
            (Sim.cfg ["a.com"])
            (Sim.start [Err "dial tcp: i/o timeout"; Sim.reply 200 "5.6.7.8"] ""));
    [reflexivity | vm_compute; reflexivity].
Defined.



Section CachedRuns.
Variable P : Platform.
Variable jsonDecode : io.Reader -> list Cached.Entry.t -> result (list Cached.Entry.t).
Variable jsonEncode : list Cached.Update.t -> result string.
Variable SecondsInt64 : Z -> Z.
Variable cfg : Config.

Local Abbreviation St := (State P string).
Local Abbreviation updateRecords :=
  (Cached.updateRecords P jsonDecode jsonEncode SecondsInt64 cfg).
Local Abbreviation cycle := (Cached.cycle P jsonDecode jsonEncode SecondsInt64 cfg).

Lemma update_events_quiet (ip : string) (ds : list string) (evs : list Event) :
  Forall (Cached.isUpdateEvent jsonEncode SecondsInt64 cfg ip ds) evs ->
  filter Cached.isResultLine evs = [].
Proof.
  induction 1 as [|ev evs (d & buf & res & _ & _ & ->) _ IH]; [reflexivity | exact IH].
Qed.

Lemma entries_events_no_result (ds : list string) (evs : list Event) :
  Forall (Cached.isEntriesEvent cfg ds) evs -> filter Cached.isResultLine evs = [].
Proof.
  induction 1 as [|ev evs (d & res & _ & ->) _ IH]; [reflexivity | exact IH].
Qed.

(** The part of [updateRecords] that follows the initial fetch. *)
Local Abbreviation afterFetch :=
  (bind (Cached.getPublicIPAddress P)
     (fun r =>
        match r with
        | Err err => ret (Some ("failed to get public Data address: " ++ err))
        | Ok currIPAddr =>
            bind getGlobals
              (fun lastIPAddr =>
                 if currIPAddr =? lastIPAddr
                 then bind (logf DebugLevel "Address still the same - no update necessary")
                        (fun _ => ret None)
                 else bind (logf DebugLevel
                              ("oldIP: " ++ lastIPAddr ++ "; newIP: " ++ currIPAddr))
                        (fun _ =>
                           bind (Cached.updateDNSEntriesIP P jsonEncode SecondsInt64 cfg
                                   currIPAddr)
                             (fun err =>
                                match err with
                                | Some err => ret (Some err)
                                | None => bind (setGlobals currIPAddr) (fun _ => ret None)
                                end)))
        end)).

Lemma afterFetch_events (st st' : St) (out : Outcome (option error)) :
  afterFetch st = (out, st') ->
  exists err evs,
    out = Done err /\
    trace st' = (trace st ++ evs)%list /\
    filter Cached.isResultLine evs = [].
Proof.
  unfold bind at 1.
  destruct (Cached_getPublicIPAddress_steps P st) as (r & st1 & Hres & Hshape).
  rewrite Hres.
  assert (Hpub : exists evs1, trace st1 = (trace st ++ evs1)%list /\
                              filter Cached.isResultLine evs1 = []).
  { destruct Hshape as [->|[res Hcall]].
    - exists []. rewrite app_nil_r. auto.
    - exists [EvHttp Cached.publicIPRequest res].
      apply (f_equal trace) in Hcall. simpl in Hcall. auto. }
  destruct Hpub as (evs1 & Htr1 & Hq1).
  destruct r as [ip|e].
  2:{ unfold ret. intros H. inversion H; subst. eauto. }
  unfold bind at 1. unfold getGlobals at 1.
  destruct (ip =? globals st1).
  { unfold bind, logf, emit, ret. intros H. inversion H; subst.
    exists None,
      (evs1 ++ [EvLog DebugLevel "Address still the same - no update necessary"])%list.
    split; [reflexivity|]. split; [simpl; rewrite Htr1, <- app_assoc; reflexivity|].
    rewrite filter_app, Hq1. reflexivity. }
  unfold bind at 1. unfold logf, emit at 1.
  set (line := EvLog DebugLevel ("oldIP: " ++ globals st1 ++ "; newIP: " ++ ip)).
  set (st2 := mkState (world st1) (trace st1 ++ [line])%list (globals st1)).
  unfold bind at 1.
  destruct (Cached.updateDNSEntriesIP P jsonEncode SecondsInt64 cfg ip st2)
    as [o st3] eqn:Hupd.
  destruct (rangeUpdates_events P jsonEncode SecondsInt64 cfg ip (domains cfg) st2 st3 o Hupd)
    as (err & evs3 & -> & Htr3 & Hall3).
  pose proof (update_events_quiet ip (domains cfg) evs3 Hall3) as Hq3.
  assert (Htr : trace st3 = (trace st ++ (evs1 ++ [line] ++ evs3))%list).
  { rewrite Htr3. subst st2. simpl. rewrite Htr1, <- !app_assoc. reflexivity. }
  assert (Hq : filter Cached.isResultLine (evs1 ++ [line] ++ evs3) = []).
  { rewrite filter_app, Hq1. subst line. simpl. exact Hq3. }
  destruct err as [err|].
  - unfold ret. intros H. inversion H; subst. eauto.
  - unfold bind, setGlobals, ret. intros H. inversion H; subst. simpl. eauto.
Qed.

(** A run of [updateRecords] logs no result line, and can only panic in
    the initial fetch, that is, with no address cached. *)
Lemma updateRecords_events (st st' : St) (out : Outcome (option error)) :
  updateRecords st = (out, st') ->
  exists evs,
    trace st' = (trace st ++ evs)%list /\
    filter Cached.isResultLine evs = [] /\
    ((exists err, out = Done err) \/ globals st = "").
Proof.
  unfold Cached.updateRecords.
  unfold bind at 1. unfold getGlobals at 1. unfold bind at 1.
  destruct (String.eqb_spec (globals st) "") as [Hunknown|Hknown].
  - unfold bind at 1.
    destruct (Cached.getDNSEntriesIP P jsonDecode cfg st) as [o st0] eqn:Hfetch.
    destruct (rangeEntries_events P jsonDecode cfg (domains cfg) "" st st0 o Hfetch)
      as (k & evs0 & Htr0 & Hall0 & _ & _).
    pose proof (entries_events_no_result (domains cfg) evs0 Hall0) as Hq0.
    destruct o as [[ip0|e]|msg].
    + unfold bind at 1. unfold setGlobals at 1. unfold ret at 1.
      intros Hrest. apply afterFetch_events in Hrest.
      destruct Hrest as (err & evs & -> & Htr & Hq).
      exists (evs0 ++ evs)%list. split; [|split; [|eauto]].
      * rewrite Htr. simpl. rewrite Htr0, <- app_assoc. reflexivity.
      * rewrite filter_app, Hq0, Hq. reflexivity.
    + unfold bind, setGlobals, ret. intros H. inversion H; subst. simpl.
      exists evs0. eauto.
    + intros H. inversion H; subst. exists evs0. auto.
  - unfold ret at 1. intros Hrest. apply afterFetch_events in Hrest.
    destruct Hrest as (err & evs & -> & Htr & Hq).
    exists evs. eauto.
Qed.

(** A cycle that ends has logged what [updateRecords] logged and one
    result line. *)
Lemma cycle_events (st st' : St) (out : Outcome unit) :
  cycle st = (out, st') ->
  ((exists msg, out = Panicked msg) /\ globals st = "") \/
  (out = Done tt /\
   exists evs lvl msg,
     trace st' = (trace st ++ evs ++ [EvLog lvl msg])%list /\
     (lvl = ErrorLevel \/ lvl = InfoLevel) /\
     filter Cached.isResultLine evs = []).
Proof.
  unfold Cached.cycle. unfold bind at 1.
  destruct (updateRecords st) as [o st1] eqn:Hrun.
  destruct (updateRecords_events st st1 o Hrun) as (evs & Htr & Hq & Hout).
  destruct o as [[e|]|msg].
  - unfold logf, emit. intros H. inversion H; subst. right. split; [reflexivity|].
    exists evs, ErrorLevel, ("Failed to update DNS records: " ++ e).
    simpl. rewrite Htr, <- app_assoc. auto.
  - unfold bind, timeNow, timeNowAdd, logf, emit. intros H. inversion H; subst.
    right. split; [reflexivity|].
    exists evs, InfoLevel,
      ("Update successful at " ++ now P (world st1) ++ ", next update at "
         ++ nowPlus P (world st1) (updateInterval cfg)).
    simpl. rewrite Htr, <- app_assoc. auto.
  - intros H. inversion H; subst. left. split; [eauto|].
    destruct Hout as [[err Herr]|Hg]; [discriminate | exact Hg].
Qed.

End CachedRuns.

(** X17. A cycle of the cached revision can only panic with no address
    cached; a cycle that ends has logged exactly one result line, at
    level error or info, as the last thing it did. *)
Theorem cached_cycle_logs_one_result :
  forall (P : Platform) jsonDecode jsonEncode SecondsInt64 cfg
         (st st' : State P string) (out : Outcome unit),
    Cached.cycle P jsonDecode jsonEncode SecondsInt64 cfg st = (out, st') ->
    (globals st <> "" -> out = Done tt) /\
    (out = Done tt ->
     exists evs lvl msg,
       trace st' = (trace st ++ evs ++ [EvLog lvl msg])%list /\
       (lvl = ErrorLevel \/ lvl = InfoLevel) /\
       filter Cached.isResultLine evs = []).
Proof.
  intros P dec enc secs cfg st st' out Hrun.
  destruct (cycle_events P dec enc secs cfg st st' out Hrun)
    as [[[msg ->] Hg] | [-> Hline]].
  - split; [congruence | discriminate].
  - split; [reflexivity | intros _; exact Hline].
Qed.

Lemma cached_cycle_logs_one_result_witness :
  fst (Cached.cycle Sim.platform Sim.Decode Sim.EncodeUpdate Sim.Seconds (Sim.cfg ["a.com"])
         (Sim.start [Sim.reply 200 "5.6.7.8"; Sim.reply 500 "rate limited"] "1.2.3.4"))
  = Done tt.
Proof.
  apply (proj1 (cached_cycle_logs_one_result Sim.platform Sim.Decode Sim.EncodeUpdate
                  Sim.Seconds (Sim.cfg ["a.com"])
                  (Sim.start [Sim.reply 200 "5.6.7.8"; Sim.reply 500 "rate limited"] "1.2.3.4")
                  _ _ eq_refl)).
  discriminate.
Defined.

(** X18. The loop of the cached revision runs one cycle at every tick:
    when it ends, after [ticks] ticks and without a panic, it has logged
    [ticks] result lines, one per cycle, and the last thing it did is to
    log that the loop stops. *)
Theorem cached_loop_logs_one_result_per_tick :
  forall (P : Platform) jsonDecode jsonEncode SecondsInt64 cfg (ticks : nat)
         (st st' : State P string),
    Cached.runUpdateLoop P jsonDecode jsonEncode SecondsInt64 cfg ticks st = (Done tt, st') ->
    exists evs,
      trace st' = (trace st ++ evs ++ [EvLog TraceLevel "Stopping update loop"])%list /\
      List.length (filter Cached.isResultLine evs) = ticks.
Proof.
  intros P dec enc secs cfg ticks. induction ticks as [|n IH]; intros st st';
    cbn [Cached.runUpdateLoop].
  - unfold logf, emit. intros H. inversion H; subst. exists []. auto.
  - unfold bind at 1.
    destruct (Cached.cycle P dec enc secs cfg st) as [o st1] eqn:Hcycle.
    destruct (cycle_events P dec enc secs cfg st st1 o Hcycle)
      as [[[msg ->] _] | [-> (evs1 & lvl & line & Htr1 & Hlvl & Hq1)]]; [discriminate|].
    intros Hrest. destruct (IH st1 st' Hrest) as (evs2 & Htr2 & Hn).
    exists ((evs1 ++ [EvLog lvl line]) ++ evs2)%list. split.
    + rewrite Htr2, Htr1, <- !app_assoc. reflexivity.
    + rewrite !filter_app, !length_app, Hq1, Hn.
      destruct Hlvl as [-> | ->]; reflexivity.
Qed.

Lemma cached_loop_logs_one_result_per_tick_witness :
  exists evs,
    trace (snd (Cached.runUpdateLoop Sim.platform Sim.Decode Sim.EncodeUpdate Sim.Seconds
                  (Sim.cfg ["a.com"]) 2
                  (Sim.start [Sim.reply 200 "1.2.3.4"] "1.2.3.4")))
    = (evs ++ [EvLog TraceLevel "Stopping update loop"])%list /\
    List.length (filter Cached.isResultLine evs) = 2%nat.
Proof.
  apply (cached_loop_logs_one_result_per_tick Sim.platform Sim.Decode Sim.EncodeUpdate
           Sim.Seconds (Sim.cfg ["a.com"]) 2
           (Sim.start [Sim.reply 200 "1.2.3.4"] "1.2.3.4") _ eq_refl).
Defined.



(** X20. With an address cached, every request a run of [updateRecords]
    sends after it has resolved the public IP is a write to a configured
    domain: a PUT on the record URL of the domain whose body encodes the
    name "@", the resolved address and the update interval in seconds as
    TTL, with the JSON content type and the credentials in its header. *)
Theorem cached_writes_carry_interval_and_credentials :
  forall (P : Platform) jsonDecode jsonEncode SecondsInt64 cfg
         (st st1 st' : State P string) (ip : string) (out : Outcome (option error)),
    globals st <> "" ->
    Cached.getPublicIPAddress P st = (Done (Ok ip), st1) ->
    Cached.updateRecords P jsonDecode jsonEncode SecondsInt64 cfg st = (out, st') ->
    exists evs,
      trace st' = (trace st1 ++ evs)%list /\
      forall req res, In (EvHttp req res) evs ->
        exists domain buf,
          In domain (domains cfg) /\
          jsonEncode [Cached.Update.mk "@" ip (SecondsInt64 (updateInterval cfg))] = Ok buf /\
          req = http.mkRequest "PUT"
                  ("https://api.godaddy.com/v1/domains/" ++ domain ++ "/records/A")
                  [("Content-Type", "application/json");
                   ("Authorization", "sso-key " ++ apiKey cfg ++ ":" ++ apiSecret cfg)]
                  (Some buf).
Proof.
  intros P dec enc secs cfg st st1 st' ip out Hknown Hres Hrun.
  destruct (updateRecords_cached P dec enc secs cfg st Hknown)
    as (r & st1' & Hres' & _ & Hcase).
  rewrite Hres in Hres'. inversion Hres'; subst r st1'. clear Hres'.
  destruct (ip =? globals st).
  - rewrite Hcase in Hrun. inversion Hrun; subst.
    exists [EvLog DebugLevel "Address still the same - no update necessary"].
    split; [reflexivity|]. intros req res [H|[]]. discriminate.
  - destruct Hcase as (err & st3 & Hupd & Hrun'). rewrite Hrun' in Hrun.
    destruct (rangeUpdates_events P enc secs cfg ip (domains cfg) _ _ _ Hupd)
      as (err' & evs & _ & Htr & Hall).
    exists (EvLog DebugLevel ("oldIP: " ++ globals st ++ "; newIP: " ++ ip) :: evs).
    split.
    + inversion Hrun; subst. simpl in Htr.
      destruct err; simpl; rewrite Htr, <- app_assoc; reflexivity.
    + intros req res [H|Hin]; [discriminate|].
      rewrite Forall_forall in Hall.
      destruct (Hall _ Hin) as (d & buf & res0 & Hd & Henc & Hev).
      inversion Hev; subst. exists d, buf. auto.
Qed.

Lemma cached_writes_carry_interval_witness :
  exists evs,
    trace (snd (Cached.updateRecords Sim.platform Sim.Decode Sim.EncodeUpdate Sim.Seconds
                  (Sim.cfg ["a.com"])
                  (Sim.start [Sim.reply 200 "5.6.7.8"; Sim.reply 200 ""] "1.2.3.4")))
    = (EvHttp Cached.publicIPRequest (Sim.reply 200 "5.6.7.8") :: evs)%list /\
    List.length evs = 2%nat.
Proof.
  destruct (cached_writes_carry_interval_and_credentials Sim.platform Sim.Decode
              Sim.EncodeUpdate Sim.Seconds (Sim.cfg ["a.com"])
              (Sim.start [Sim.reply 200 "5.6.7.8"; Sim.reply 200 ""] "1.2.3.4")
              _ _ "5.6.7.8" _ ltac:(discriminate) eq_refl eq_refl)
    as (evs & Htr & _).
  exists evs. split; [exact Htr|].
  simpl in Htr. inversion Htr. reflexivity.
Defined.

(** X21. The first run is the initial fetch followed by an ordinary run:
    with no address cached, when the fetch returns a non-empty value, the
    run goes on exactly as a run that starts with that value cached in
    the state the fetch left. *)
Theorem first_run_is_fetch_then_cached_run :
  forall (P : Platform) jsonDecode jsonEncode SecondsInt64 cfg
         (st st0 : State P string) (ip0 : string),
    globals st = "" ->
    Cached.getDNSEntriesIP P jsonDecode cfg st = (Done (Ok ip0), st0) ->
    ip0 <> "" ->
    Cached.updateRecords P jsonDecode jsonEncode SecondsInt64 cfg st =
    Cached.updateRecords P jsonDecode jsonEncode SecondsInt64 cfg
      (mkState (world st0) (trace st0) ip0).
Proof.
  intros P dec enc secs cfg st st0 ip0 Hunknown Hfetch Hfull.
  unfold Cached.updateRecords.
  unfold bind at 1. unfold getGlobals at 1.
  unfold bind at 1. rewrite Hunknown. cbn [String.eqb].
  unfold bind at 1. rewrite Hfetch.
  unfold bind at 1. unfold setGlobals at 1. unfold ret at 1.
  symmetry.
  unfold bind at 1. unfold getGlobals at 1.
  unfold bind at 1. cbn [globals].
  apply String.eqb_neq in Hfull. rewrite Hfull. unfold ret at 1.
  reflexivity.
Qed.

Lemma first_run_is_fetch_then_cached_run_witness :
  Cached.updateRecords Sim.platform Sim.Decode Sim.EncodeUpdate Sim.Seconds (Sim.cfg ["a.com"])
    (Sim.start [Sim.reply 200 ("[" ++ Sim.dataObject "1.2.3.4" ++ "]");
                Sim.reply 200 "5.6.7.8"; Sim.reply 200 ""] "") =
  Cached.updateRecords Sim.platform Sim.Decode Sim.EncodeUpdate Sim.Seconds (Sim.cfg ["a.com"])
    (mkState
       (world (snd (Cached.getDNSEntriesIP Sim.platform Sim.Decode (Sim.cfg ["a.com"])
                      (Sim.start [Sim.reply 200 ("[" ++ Sim.dataObject "1.2.3.4" ++ "]");
                                  Sim.reply 200 "5.6.7.8"; Sim.reply 200 ""] ""))))
       (trace (snd (Cached.getDNSEntriesIP Sim.platform Sim.Decode (Sim.cfg ["a.com"])
                      (Sim.start [Sim.reply 200 ("[" ++ Sim.dataObject "1.2.3.4" ++ "]");
                                  Sim.reply 200 "5.6.7.8"; Sim.reply 200 ""] ""))))
       "1.2.3.4").
Proof.
  apply (first_run_is_fetch_then_cached_run Sim.platform Sim.Decode Sim.EncodeUpdate
           Sim.Seconds (Sim.cfg ["a.com"])
           (Sim.start [Sim.reply 200 ("[" ++ Sim.dataObject "1.2.3.4" ++ "]");
                       Sim.reply 200 "5.6.7.8"; Sim.reply 200 ""] "")
           (snd (Cached.getDNSEntriesIP Sim.platform Sim.Decode (Sim.cfg ["a.com"])
                   (Sim.start [Sim.reply 200 ("[" ++ Sim.dataObject "1.2.3.4" ++ "]");
                               Sim.reply 200 "5.6.7.8"; Sim.reply 200 ""] "")))
           "1.2.3.4");
    [reflexivity | reflexivity | discriminate].
Defined.
